(** * storyboard: metadata extraction, verified against its description

    A shallow embedding of the two metadata extractors of the repository,
    [metadata.py] (the early, flat version) and [storyboard/metadata.py]
    (the packaged version), followed by the properties that the
    description of the system states about them.

    Conventions of the embedding.
    - Python exceptions are values of [exn]; a computation that may raise
      has type [result A].
    - Python floats are IEEE 754 binary64 numbers, represented by the
      [spec_float] of the standard library with [prec = 53], [emax = 1024];
      every operation rounds to nearest, ties to even, as CPython does.
    - Text is ASCII: a [string] is a sequence of code points below 128.
    - The probe output is a [json] value without fractional numbers
      (ffprobe prints every non-integer quantity as a string).
    - Builtins whose full behaviour is irrelevant here ([json.loads],
      [int] and [float] applied to a string, [repr] of a container), the
      SHA-1 of the file, and the helpers of [storyboard.util], which is not
      part of the sources at hand, are the fields of the class [Builtins]:
      every statement holds for all of them. *)

From Stdlib Require Import ZArith String Ascii List Lia Bool.
From Stdlib Require Import Floats.SpecFloat.
From stdpp Require Import gmap strings list fin_maps pretty.

#[local] Set Warnings "-register-all".
#[local] Open Scope string_scope.
#[local] Open Scope Z_scope.

(* ===================================================================== *)
(** * Python runtime *)
(* ===================================================================== *)

Module Py.

(** ** Exceptions and fallible computations *)

(** The builtin exceptions that the modelled code can raise.
    [MetadataError] is the category that the system description names for
    probe output lacking a required field; it is listed so that statements
    about it can be written, and no definition below raises it. *)
Inductive exn : Type :=
| KeyError (key : string)
| ValueError
| TypeError
| AttributeError
| ZeroDivisionError
| OverflowError
| IndexError
| StopIteration
| SyntaxError
| MetadataError.

Inductive result (A : Type) : Type :=
| Ok (a : A)
| Raise (e : exn).
Arguments Ok {A} a.
Arguments Raise {A} e.

Definition bind {A B : Type} (c : result A) (k : A -> result B) : result B :=
  match c with
  | Ok a => k a
  | Raise e => Raise e
  end.

Declare Scope result_scope.
Notation "x ← y ; z" := (bind y (fun x => z))
  (at level 20, y at level 100, z at level 200, only parsing) : result_scope.
Notation "' x ← y ; z" := (bind y (fun x => z))
  (at level 20, x pattern, y at level 100, z at level 200, only parsing) : result_scope.
#[local] Open Scope result_scope.

Definition returns {A : Type} (c : result A) : Prop :=
  match c with Ok _ => True | Raise _ => False end.

(** ** Text *)

Definition ord (c : ascii) : Z := Z.of_nat (nat_of_ascii c).

(** [str.isspace] on the ASCII range. *)
Definition is_space (c : ascii) : bool :=
  let n := ord c in
  ((9 <=? n) && (n <=? 13)) || ((28 <=? n) && (n <=? 32)).

Definition lower_char (c : ascii) : ascii :=
  let n := ord c in
  if (65 <=? n) && (n <=? 90) then ascii_of_nat (Z.to_nat (n + 32)) else c.

Definition upper_char (c : ascii) : ascii :=
  let n := ord c in
  if (97 <=? n) && (n <=? 122) then ascii_of_nat (Z.to_nat (n - 32)) else c.

Fixpoint smap (f : ascii -> ascii) (s : string) : string :=
  match s with
  | EmptyString => EmptyString
  | String c s' => String (f c) (smap f s')
  end.

(** [s.lower()] and [s.upper()]. *)
Definition lower (s : string) : string := smap lower_char s.
Definition upper (s : string) : string := smap upper_char s.

(** [s.lstrip()], [s.rstrip()], [s.strip()]. *)
Fixpoint lstrip (s : string) : string :=
  match s with
  | EmptyString => EmptyString
  | String c s' => if is_space c then lstrip s' else s
  end.

Fixpoint rstrip (s : string) : string :=
  match s with
  | EmptyString => EmptyString
  | String c s' =>
      match rstrip s' with
      | EmptyString => if is_space c then EmptyString else String c EmptyString
      | r => String c r
      end
  end.

Definition strip (s : string) : string := lstrip (rstrip s).

(** [sep.join(lines)]. *)
Fixpoint join (sep : string) (lines : list string) : string :=
  match lines with
  | [] => ""
  | [l] => l
  | l :: rest => l +:+ sep +:+ join sep rest
  end.

Definition slen (s : string) : Z := Z.of_nat (String.length s).

(** [s[i:j]] for [0 <= i], [0 <= j]. *)
Definition slice (s : string) (i j : Z) : string :=
  substring (Z.to_nat i) (Z.to_nat (j - i)) s.

(** [s[i:]] for [0 <= i]. *)
Definition slice_from (s : string) (i : Z) : string :=
  substring (Z.to_nat i) (String.length s - Z.to_nat i) s.

(** [s.rfind(c)] for a one-character [c]: the highest index of [c], or -1. *)
Fixpoint rfind_from (c : ascii) (s : string) (i : Z) : Z :=
  match s with
  | EmptyString => -1
  | String d s' =>
      let r := rfind_from c s' (i + 1) in
      if 0 <=? r then r else if Ascii.eqb c d then i else -1
  end.

Definition rfind (c : ascii) (s : string) : Z := rfind_from c s 0.

(** The tail of [s] when it ends with the character [c]: [s[-1] == c]
    selects [Some s[0:-1]]. [last_char] is [s[-1]], which raises
    [IndexError] on the empty string. *)
Fixpoint last_char (s : string) : result ascii :=
  match s with
  | EmptyString => Raise IndexError
  | String c EmptyString => Ok c
  | String _ s' => last_char s'
  end.

Fixpoint drop_last (s : string) : string :=
  match s with
  | EmptyString => EmptyString
  | String _ EmptyString => EmptyString
  | String c s' => String c (drop_last s')
  end.

(** [needle in s] for two strings. *)
Fixpoint contains_str (needle s : string) : bool :=
  String.prefix needle s ||
  match s with
  | EmptyString => false
  | String _ s' => contains_str needle s'
  end.

(** ** [os.path] (POSIX flavour) *)

(** The loop of [genericpath._splitext] that skips the leading dots of the
    file name: [n] iterations remain; [true] when a character other than
    the dot is met before index [dotIndex]. *)
Fixpoint splitext_scan (n : nat) (p : string) (filenameIndex : Z) : bool :=
  match n with
  | O => false
  | S n' =>
      if negb (String.eqb (slice p filenameIndex (filenameIndex + 1)) ".")
      then true
      else splitext_scan n' p (filenameIndex + 1)
  end.

Definition splitext (p : string) : string * string :=
  let sepIndex := rfind "/"%char p in
  let dotIndex := rfind "."%char p in
  if (sepIndex <? dotIndex)
     && splitext_scan (Z.to_nat (dotIndex - (sepIndex + 1))) p (sepIndex + 1)
  then (slice p 0 dotIndex, slice_from p dotIndex)
  else (p, "").

(** ** Integers *)

(** ['%d' % n]. *)
Definition fmt_d (n : Z) : string := pretty n.

(** [fractions.gcd(a, b)]: [while b: a, b = b, a % b; return a].
    The remainder [a % b] has the sign of [b] and is smaller in absolute
    value, so the test [b] fails after at most [|b|] iterations; the loop
    is unrolled one time more than that. *)
Fixpoint gcd_loop (fuel : nat) (a b : Z) : Z :=
  match fuel with
  | O => a
  | S fuel' => if b =? 0 then a else gcd_loop fuel' b (a mod b)
  end.

Definition gcd (a b : Z) : Z := gcd_loop (S (Z.abs_nat b)) a b.

(** ** Floats *)

Definition float : Type := spec_float.

Definition prec : Z := 53.
Definition emax : Z := 1024.

Definition is_finite (x : float) : bool :=
  match x with
  | S754_zero _ | S754_finite _ _ _ => true
  | _ => false
  end.

(** [float(n)] for an integer [n]: the nearest binary64 number, and
    [OverflowError] when that is not finite. *)
Definition float_of_int (n : Z) : result float :=
  let x := binary_normalize prec emax n 0 false in
  if is_finite x then Ok x else Raise OverflowError.

(** [a / b] for two integers under true division: the exact quotient
    rounded once. *)
Definition int_truediv (a b : Z) : result float :=
  match a, b with
  | _, Z0 => Raise ZeroDivisionError
  | Z0, Zpos _ => Ok (S754_zero false)
  | Z0, Zneg _ => Ok (S754_zero true)
  | _, _ =>
      let x := S754_finite (a <? 0) (Z.to_pos (Z.abs a)) 0 in
      let y := S754_finite (b <? 0) (Z.to_pos (Z.abs b)) 0 in
      let q := SFdiv prec emax x y in
      if is_finite q then Ok q else Raise OverflowError
  end.

(** [x / y] for two floats. *)
Definition float_div (x y : float) : result float :=
  match y with
  | S754_zero _ => Raise ZeroDivisionError
  | _ => Ok (SFdiv prec emax x y)
  end.

Definition float_sub (x y : float) : float := SFsub prec emax x y.
Definition float_abs (x : float) : float := SFabs x.
Definition float_lt (x y : float) : bool := SFltb x y.

(** [int(x)] for a float: truncation toward zero. *)
Definition int_of_float (x : float) : result Z :=
  match x with
  | S754_nan => Raise ValueError
  | S754_infinity _ => Raise OverflowError
  | S754_zero _ => Ok 0
  | S754_finite s m e =>
      let a := if 0 <=? e then Zpos m * 2 ^ e else Zpos m / 2 ^ (- e) in
      Ok (if s then - a else a)
  end.

(** [n < x] for an integer [n] and a float [x]; CPython compares the two
    exactly, without converting [n]. *)
Definition int_lt_float (n : Z) (x : float) : bool :=
  match x with
  | S754_nan => false
  | S754_infinity s => negb s
  | S754_zero _ => n <? 0
  | S754_finite s m e =>
      let v := if s then Zneg m else Zpos m in
      if 0 <=? e then n <? v * 2 ^ e else n * 2 ^ (- e) <? v
  end.

(** The float literals of the sources. *)
Definition f1024 : float := S754_finite false 4503599627370496 (-42).
Definition f0_0001 : float := S754_finite false 7378697629483821 (-66).
Definition f10 : float := S754_finite false 5629499534213120 (-49).
Definition f1000 : float := S754_finite false 8796093022208000 (-43).

(** [p] decimal digits of [r], zero padded on the left. *)
Fixpoint digits_fixed (p : nat) (r : Z) : string :=
  match p with
  | O => ""
  | S p' => digits_fixed p' (r / 10) +:+ fmt_d (r mod 10)
  end.

(** The integer nearest to [num / den], ties to even ([0 < den]). *)
Definition round_half_even (num den : Z) : Z :=
  let q := num / den in
  let r := num mod den in
  match 2 * r ?= den with
  | Lt => q
  | Gt => q + 1
  | Eq => if Z.even q then q else q + 1
  end.

(** ['%.<p>f' % x] for [0 < p]: the exact value of [x], rounded to [p]
    decimals, ties to even. *)
Definition fmt_f (p : nat) (x : float) : string :=
  let sign (s : bool) := if s then "-" else "" in
  match x with
  | S754_nan => "nan"
  | S754_infinity s => sign s +:+ "inf"
  | S754_zero s => sign s +:+ "0." +:+ digits_fixed p 0
  | S754_finite s m e =>
      let scale := 10 ^ Z.of_nat p in
      let q := if 0 <=? e then Zpos m * 2 ^ e * scale
               else round_half_even (Zpos m * scale) (2 ^ (- e)) in
      sign s +:+ fmt_d (q / scale) +:+ "." +:+ digits_fixed p (q mod scale)
  end.

(** [s] padded on the left to [width] characters: with zeros after the
    sign, as the flag [0] of a conversion asks. *)
Definition zero_pad (width : nat) (s : string) : string :=
  let zeros (body : string) (room : nat) :=
    String.concat "" (repeat "0" (room - String.length body)%nat) +:+ body in
  match s with
  | String "-" body => String "-" (zeros body (width - 1)%nat)
  | _ => zeros s width
  end.

(** ['%0<w>d' % n]. *)
Definition fmt_0d (width : nat) (n : Z) : string := zero_pad width (fmt_d n).

(** ['%0<w>.<p>f' % x]; the padding of an infinity or a NaN is made of
    spaces. *)
Definition fmt_0f (width p : nat) (x : float) : string :=
  if is_finite x then zero_pad width (fmt_f p x)
  else
    let t := fmt_f p x in
    String.concat "" (repeat " " (width - String.length t)%nat) +:+ t.

(** A number: [int] or [float]. *)
Inductive num : Type :=
| NInt (n : Z)
| NFloat (x : float).

(** ['%.<p>f' % v] converts an integer operand to a float first. *)
Definition fmt_f_num (p : nat) (v : num) : result string :=
  match v with
  | NInt n => x ← float_of_int n; Ok (fmt_f p x)
  | NFloat x => Ok (fmt_f p x)
  end.

(** ['%d' % v] truncates a float operand. *)
Definition fmt_d_num (v : num) : result string :=
  match v with
  | NInt n => Ok (fmt_d n)
  | NFloat x => n ← int_of_float x; Ok (fmt_d n)
  end.

(** [int(v)]. *)
Definition int_of_num (v : num) : result Z :=
  match v with
  | NInt n => Ok n
  | NFloat x => int_of_float x
  end.

(** [v / x] with a float right operand. *)
Definition num_div_float (v : num) (x : float) : result float :=
  match v with
  | NInt n => y ← float_of_int n; float_div y x
  | NFloat y => float_div y x
  end.

(** [v < x] with a float right operand. *)
Definition num_lt_float (v : num) (x : float) : bool :=
  match v with
  | NInt n => int_lt_float n x
  | NFloat y => float_lt y x
  end.

(** [abs(v - n) < x] for an integer [n] and a float bound [x]. *)
Definition abs_diff_lt (v : num) (n : Z) (x : float) : result bool :=
  match v with
  | NInt m => Ok (int_lt_float (Z.abs (m - n)) x)
  | NFloat y => z ← float_of_int n; Ok (float_lt (float_abs (float_sub y z)) x)
  end.

(** [round(x)] of Python 3 for a float: the nearest integer, ties to
    even. *)
Definition round_float (x : float) : result Z :=
  match x with
  | S754_nan => Raise ValueError
  | S754_infinity _ => Raise OverflowError
  | S754_zero _ => Ok 0
  | S754_finite s m e =>
      let a := if 0 <=? e then Zpos m * 2 ^ e
               else round_half_even (Zpos m) (2 ^ (- e)) in
      Ok (if s then - a else a)
  end.

(** [round(x)] of Python 2 for a float, as an integer: the nearest
    integer, ties away from zero. (Python 2 returns it as a float, which
    [%d] then prints as this integer.) *)
Definition round_half_away (x : float) : result Z :=
  match x with
  | S754_nan => Raise ValueError
  | S754_infinity _ => Raise OverflowError
  | S754_zero _ => Ok 0
  | S754_finite s m e =>
      let a := if 0 <=? e then Zpos m * 2 ^ e
               else (2 * Zpos m + 2 ^ (- e)) / (2 * 2 ^ (- e)) in
      Ok (if s then - a else a)
  end.

(** [l.append(x)]. *)
Definition append {A : Type} (l : list A) (x : A) : list A := (l ++ [x])%list.

(** ** JSON values *)

(** What [json.loads] returns on probe output: [None], [bool], [int],
    [str], [list] and [dict] with string keys. *)
Inductive json : Type :=
| JNull
| JBool (b : bool)
| JInt (n : Z)
| JStr (s : string)
| JList (l : list json)
| JDict (d : gmap string json).

(** [v is None]. *)
Definition is_none (v : json) : bool :=
  match v with JNull => true | _ => false end.

(** [v == s] for a string literal [s]. *)
Definition eq_str (v : json) (s : string) : bool :=
  match v with JStr t => String.eqb t s | _ => false end.

(** The truth value of [v] in a condition. *)
Definition truthy (v : json) : bool :=
  match v with
  | JNull => false
  | JBool b => b
  | JInt n => negb (n =? 0)
  | JStr s => negb (String.eqb s "")
  | JList l => match l with [] => false | _ => true end
  | JDict d => negb (bool_decide (d = ∅))
  end.

(** [v[k]] for a string key [k]. *)
Definition getitem (v : json) (k : string) : result json :=
  match v with
  | JDict d => match d !! k with Some x => Ok x | None => Raise (KeyError k) end
  | _ => Raise TypeError
  end.

(** [k in v] for a string [k]: key membership in a dict, element
    membership in a list, substring test in a string. *)
Definition contains (k : string) (v : json) : result bool :=
  match v with
  | JDict d => Ok (bool_decide (is_Some (d !! k)))
  | JList l => Ok (existsb (fun x => eq_str x k) l)
  | JStr s => Ok (contains_str k s)
  | _ => Raise TypeError
  end.

(** The value of [v] as an operand of integer arithmetic or of [%d]:
    [bool] is a subtype of [int]. *)
Definition as_int (v : json) : result Z :=
  match v with
  | JInt n => Ok n
  | JBool b => Ok (if b then 1 else 0)
  | _ => Raise TypeError
  end.

(** The values that [for x in v] binds, in order. The order of the keys
    of a dict is its insertion order, which a finite map does not record;
    the code iterates only over what should be a list, and fails on the
    first key whatever it is. *)
Definition iterate (v : json) : result (list json) :=
  match v with
  | JList l => Ok l
  | JDict d => Ok (JStr <$> (map_to_list d).*1)
  | JStr s => Ok ((fun c => JStr (String c "")) <$> list_ascii_of_string s)
  | _ => Raise TypeError
  end.

(** ** Builtins taken as parameters *)

Class Builtins : Type := {
  (** [json.loads(s)]; [None] stands for the [ValueError] of malformed or
      incomplete text. *)
  json_loads : string -> option json;
  (** [int(s)] and [float(s)] for a string; [None] stands for
      [ValueError]. *)
  int_of_str : string -> option Z;
  float_of_str : string -> option float;
  (** [str(v)] for a list or a dict. *)
  repr_container : json -> string;
  (** The SHA-1 hex digest of the content of the file at a path. *)
  sha1_hexdigest : string -> string;
}.

Section WithBuiltins.
Context {B : Builtins}.

(** [int(v)]. *)
Definition int_of (v : json) : result Z :=
  match v with
  | JInt n => Ok n
  | JBool b => Ok (if b then 1 else 0)
  | JStr s => match int_of_str s with Some n => Ok n | None => Raise ValueError end
  | _ => Raise TypeError
  end.

(** [float(v)]. *)
Definition float_of (v : json) : result float :=
  match v with
  | JInt n => float_of_int n
  | JBool b => Ok (if b then S754_finite false 4503599627370496 (-52)
                   else S754_zero false)
  | JStr s => match float_of_str s with Some x => Ok x | None => Raise ValueError end
  | _ => Raise TypeError
  end.

(** [str(v)], which is what [%s] inserts. *)
Definition str (v : json) : string :=
  match v with
  | JNull => "None"
  | JBool b => if b then "True" else "False"
  | JInt n => fmt_d n
  | JStr s => s
  | _ => repr_container v
  end.

End WithBuiltins.

(** ** [eval] on the text of a rational *)

(** The expressions that ffprobe prints for a rational quantity: a
    decimal integer, or two of them separated by a slash. *)
Inductive expr : Type :=
| EInt (n : Z)
| EDiv (n d : Z).

Definition is_digit (c : ascii) : bool := (48 <=? ord c) && (ord c <=? 57).

Fixpoint digits_value (acc : Z) (s : string) : option Z :=
  match s with
  | EmptyString => Some acc
  | String c s' =>
      if is_digit c then digits_value (10 * acc + (ord c - 48)) s' else None
  end.

(** A decimal integer literal: ["0"], or digits that do not start with a
    zero. *)
Definition parse_literal (s : string) : option Z :=
  match s with
  | EmptyString => None
  | String "0" EmptyString => Some 0
  | String "0" _ => None
  | _ => digits_value 0 s
  end.

(** [s.split(sep, 1)] when [sep] occurs in [s]. *)
Fixpoint split_at (sep : ascii) (s : string) : option (string * string) :=
  match s with
  | EmptyString => None
  | String c s' =>
      if Ascii.eqb c sep then Some (EmptyString, s')
      else match split_at sep s' with
           | Some (a, b) => Some (String c a, b)
           | None => None
           end
  end.

(** Two literals around the separator [sep]. *)
Definition parse_ratio (sep : ascii) (s : string) : option expr :=
  match split_at sep s with
  | Some (a, b) =>
      match parse_literal a, parse_literal b with
      | Some n, Some d => Some (EDiv n d)
      | _, _ => None
      end
  | None => None
  end.

Definition parse_expr (s : string) : option expr :=
  match split_at "/" s with
  | Some _ => parse_ratio "/" s
  | None => option_map EInt (parse_literal s)
  end.

(** The value of an expression in a module that imports [division] from
    [__future__]: the slash is true division. *)
Definition eval_expr (e : expr) : result num :=
  match e with
  | EInt n => Ok (NInt n)
  | EDiv n d => x ← int_truediv n d; Ok (NFloat x)
  end.

(** [eval(v)]. The model covers the two forms of [expr]; any other text is
    reported as a [SyntaxError], which is what [eval] raises for text that
    is not an expression. *)
Definition eval (v : json) : result num :=
  match v with
  | JStr s =>
      match parse_expr s with
      | Some e => eval_expr e
      | None => Raise SyntaxError
      end
  | _ => Raise TypeError
  end.

End Py.

(* ===================================================================== *)
(** * [metadata.py]: the flat extractor *)
(* ===================================================================== *)

Module Legacy.
Import Py.
#[local] Open Scope result_scope.

(** An instance of the attribute bag [class Stream: pass]; an attribute
    that the code leaves unset is [None] here. *)
Record Stream : Type := {
  index : json;
  type : json;
  codec : option string;
  width : json;
  height : json;
  dimension_text : option string;
  frame_rate : option num;
  frame_rate_text : option string;
  bit_rate : option float;
  bit_rate_text : option string;
  info_string : string;
}.

Section WithBuiltins.
Context {B : Builtins}.

(** The loop of [Video._extract_size] over the unit prefixes, [tmp] being
    the size divided so far; the empty list is the [else] of the [for]. *)
Fixpoint size_human_loop (units : list string) (tmp : num) : result string :=
  match units with
  | [] => t ← fmt_f_num 1 tmp; Ok (t +:+ "Yi" +:+ "B")
  | unit :: rest =>
      if num_lt_float tmp f1024
      then t ← fmt_f_num 1 tmp; Ok (t +:+ unit +:+ "B")
      else tmp' ← num_div_float tmp f1024; size_human_loop rest (NFloat tmp')
  end.

Definition units : list string := [""; "Ki"; "Mi"; "Gi"; "Ti"; "Pi"; "Ei"; "Zi"].

(** [size_human] as [Video._extract_size] computes it from [size]. *)
Definition size_human (size : Z) : result string :=
  size_human_loop units (NInt size).

(** [Video._extract_size]: the attributes [size] and [size_human]. *)
Definition _extract_size (ffprobe : json) : result (Z * string) :=
  format ← getitem ffprobe "format";
  v ← getitem format "size";
  size ← int_of v;
  text ← size_human size;
  Ok (size, text).

(** [Video._extract_duration]: the attributes [duration] and
    [duration_human]. *)
Definition duration_human (t : float) : result string :=
  n ← int_of_float t;
  let hh := n / 3600 in
  let mm := (n / 60) mod 60 in
  k ← float_of_int (n / 60 * 60);
  let ss := float_sub t k in
  Ok (fmt_0d 2 hh +:+ ":" +:+ fmt_0d 2 mm +:+ ":" +:+ fmt_0f 5 2 ss).

Definition _extract_duration (ffprobe : json) : result (float * string) :=
  format ← getitem ffprobe "format";
  v ← getitem format "duration";
  duration ← float_of v;
  text ← duration_human duration;
  Ok (duration, text).

(** [Video._extract_title]. *)
Definition _extract_title (ffprobe : json) : result json :=
  format ← getitem ffprobe "format";
  has_tags ← contains "tags" format;
  if has_tags then
    tags ← getitem format "tags";
    has_title ← contains "title" tags;
    if has_title then getitem tags "title" else Ok JNull
  else Ok JNull.

(** [v.upper()]: only a string has the method. *)
Definition upper_of (v : json) : result string :=
  match v with
  | JStr s => Ok (upper s)
  | _ => Raise AttributeError
  end.

(** [v / 10.0]. *)
Definition div_10 (v : json) : result float :=
  n ← as_int v; x ← float_of_int n; float_div x f10.

(** The block "codec" of the video branch. *)
Definition video_codec (stream : json) : result string :=
  name ← getitem stream "codec_name";
  if eq_str name "h264" then
    profile ← getitem stream "profile";
    level ← getitem stream "level";
    l ← div_10 level;
    Ok ("H.264 (" +:+ str profile +:+ " Profile level " +:+ fmt_f 1 l +:+ ")")
  else if eq_str name "mpeg2video" then
    profile ← getitem stream "profile";
    Ok ("MPEG-2 video (" +:+ str profile +:+ " Profile)")
  else if eq_str name "mpeg4" then
    profile ← getitem stream "profile";
    Ok ("MPEG-4 Part 2 (" +:+ str profile +:+ ")")
  else if eq_str name "mjpeg" then Ok "MJPEG"
  else upper_of name.

(** The block "frame rate": the attribute [frame_rate]. *)
Definition video_frame_rate (stream : json) : result (option num) :=
  has_r ← contains "r_frame_rate" stream;
  if has_r then
    v ← getitem stream "r_frame_rate"; fps ← eval v; Ok (Some fps)
  else
    has_avg ← contains "avg_frame_rate" stream;
    if has_avg then
      v ← getitem stream "avg_frame_rate"; fps ← eval v; Ok (Some fps)
    else Ok None.

(** The attribute [frame_rate_text] from [frame_rate]. *)
Definition video_frame_rate_text (frame_rate : option num) : result (option string) :=
  match frame_rate with
  | Some fps =>
      n ← int_of_num fps;
      near ← abs_diff_lt fps n f0_0001;
      if near then Ok (Some (fmt_d n +:+ " fps"))
      else t ← fmt_f_num 2 fps; Ok (Some (t +:+ " fps"))
  | None => Ok None
  end.

(** The block "bit rate" of both branches. *)
Definition stream_bit_rate (stream : json) : result (option float * option string) :=
  has ← contains "bit_rate" stream;
  if has then
    v ← getitem stream "bit_rate";
    bit_rate ← float_of v;
    k ← float_div bit_rate f1000;
    n ← round_half_away k;
    Ok (Some bit_rate, Some (fmt_d n +:+ " kb/s"))
  else Ok (None, None).

(** The block "codec" of the audio branch. *)
Definition audio_codec (stream : json) : result string :=
  name ← getitem stream "codec_name";
  if eq_str name "aac" then
    p ← getitem stream "profile";
    let profile := if eq_str p "LC" then "Low Complexity" else str p in
    Ok ("AAC (" +:+ profile +:+ ")")
  else if eq_str name "ac3" then Ok "Dolby AC-3"
  else if eq_str name "mp3" then Ok "MP3"
  else upper_of name.

(** [if text: info += ", " + text]. *)
Definition append_text (info : string) (text : option string) : string :=
  match text with
  | Some t => if String.eqb t "" then info else info +:+ ", " +:+ t
  | None => info
  end.

(** [Video._process_stream]. *)
Definition _process_stream (stream : json) : result Stream :=
  index ← getitem stream "index";
  codec_type ← getitem stream "codec_type";
  if eq_str codec_type "video" then
    codec ← video_codec stream;
    width ← getitem stream "width";
    height ← getitem stream "height";
    w ← as_int width;
    h ← as_int height;
    let dimension_text := fmt_d w +:+ "x" +:+ fmt_d h in
    frame_rate ← video_frame_rate stream;
    frame_rate_text ← video_frame_rate_text frame_rate;
    '(bit_rate, bit_rate_text) ← stream_bit_rate stream;
    let info := "Video: " +:+ codec +:+ ", " +:+ dimension_text in
    Ok {| index := index; type := JStr "video"; codec := Some codec;
          width := width; height := height;
          dimension_text := Some dimension_text;
          frame_rate := frame_rate; frame_rate_text := frame_rate_text;
          bit_rate := bit_rate; bit_rate_text := bit_rate_text;
          info_string := append_text (append_text info frame_rate_text) bit_rate_text |}
  else
    codec_type' ← getitem stream "codec_type";
    if eq_str codec_type' "audio" then
      codec ← audio_codec stream;
      '(bit_rate, bit_rate_text) ← stream_bit_rate stream;
      Ok {| index := index; type := JStr "audio"; codec := Some codec;
            width := JNull; height := JNull; dimension_text := None;
            frame_rate := None; frame_rate_text := None;
            bit_rate := bit_rate; bit_rate_text := bit_rate_text;
            info_string := append_text ("Audio: " +:+ codec) bit_rate_text |}
    else
      type ← getitem stream "codec_type";
      Ok {| index := index; type := type; codec := None;
            width := JNull; height := JNull; dimension_text := None;
            frame_rate := None; frame_rate_text := None;
            bit_rate := None; bit_rate_text := None;
            info_string := "Data" |}.

(** [Video._extract_streams]: the loop over [self._ffprobe['streams']]. *)
Fixpoint process_all (streams : list json) : result (list Stream) :=
  match streams with
  | [] => Ok []
  | stream :: rest =>
      s ← _process_stream stream;
      ss ← process_all rest;
      Ok (s :: ss)
  end.

Definition _extract_streams (ffprobe : json) : result (list Stream) :=
  v ← getitem ffprobe "streams";
  streams ← iterate v;
  process_all streams.

End WithBuiltins.
End Legacy.

(* ===================================================================== *)
(** * [storyboard/metadata.py]: the packaged extractor *)
(* ===================================================================== *)

Module Storyboard.
Import Py.
#[local] Open Scope result_scope.

(** The helpers that the module takes from [storyboard.util], which is not
    among the sources at hand: they are parameters, and each may raise. *)
Class Util : Type := {
  humansize : Z -> result string;
  humantime : float -> result string;
  evaluate_ratio : json -> result (option float);
}.

(** ** [class Stream] *)

Module Stream.

Record t : Type := {
  index : json;
  type : json;
  codec : json;
  bit_rate : option float;
  bit_rate_text : option string;
  language_code : json;
  width : json;
  height : json;
  dimension : option (json * json);
  dimension_text : option string;
  frame_rate : option float;
  frame_rate_text : option string;
  dar : option float;
  dar_text : json;
  info_string : option string;
}.

(** [Stream.__init__]: every attribute is [None]. *)
Definition __init__ : t := {|
  index := JNull; type := JNull; codec := JNull;
  bit_rate := None; bit_rate_text := None; language_code := JNull;
  width := JNull; height := JNull; dimension := None; dimension_text := None;
  frame_rate := None; frame_rate_text := None; dar := None; dar_text := JNull;
  info_string := None |}.

Definition set_index (s : t) (v : json) : t := {|
  index := v; type := type s; codec := codec s;
  bit_rate := bit_rate s; bit_rate_text := bit_rate_text s;
  language_code := language_code s; width := width s; height := height s;
  dimension := dimension s; dimension_text := dimension_text s;
  frame_rate := frame_rate s; frame_rate_text := frame_rate_text s;
  dar := dar s; dar_text := dar_text s; info_string := info_string s |}.

End Stream.

(** ** [class Video] *)

Module Video.

Record t : Type := {
  path : string;
  filename : string;
  _ffprobe : json;
  title : json;
  format : string;
  size : Z;
  size_text : string;
  duration : float;
  duration_text : string;
  sha1sum : option string;
  dimension : option (json * json);
  dimension_text : option string;
  frame_rate : option float;
  frame_rate_text : option string;
  dar : option float;
  dar_text : json;
  streams : list Stream.t;
  scan_type : option string;
}.

Definition set_sha1sum (self : t) (v : option string) : t := {|
  path := path self; filename := filename self; _ffprobe := _ffprobe self;
  title := title self; format := format self; size := size self;
  size_text := size_text self; duration := duration self;
  duration_text := duration_text self; sha1sum := v;
  dimension := dimension self; dimension_text := dimension_text self;
  frame_rate := frame_rate self; frame_rate_text := frame_rate_text self;
  dar := dar self; dar_text := dar_text self;
  streams := streams self; scan_type := scan_type self |}.

Definition set_dimension (self : t) (d : option (json * json)) (text : option string) : t := {|
  path := path self; filename := filename self; _ffprobe := _ffprobe self;
  title := title self; format := format self; size := size self;
  size_text := size_text self; duration := duration self;
  duration_text := duration_text self; sha1sum := sha1sum self;
  dimension := d; dimension_text := text;
  frame_rate := frame_rate self; frame_rate_text := frame_rate_text self;
  dar := dar self; dar_text := dar_text self;
  streams := streams self; scan_type := scan_type self |}.

Definition set_frame_rate (self : t) (r : option float) (text : option string) : t := {|
  path := path self; filename := filename self; _ffprobe := _ffprobe self;
  title := title self; format := format self; size := size self;
  size_text := size_text self; duration := duration self;
  duration_text := duration_text self; sha1sum := sha1sum self;
  dimension := dimension self; dimension_text := dimension_text self;
  frame_rate := r; frame_rate_text := text;
  dar := dar self; dar_text := dar_text self;
  streams := streams self; scan_type := scan_type self |}.

Definition set_dar (self : t) (d : option float) (text : json) : t := {|
  path := path self; filename := filename self; _ffprobe := _ffprobe self;
  title := title self; format := format self; size := size self;
  size_text := size_text self; duration := duration self;
  duration_text := duration_text self; sha1sum := sha1sum self;
  dimension := dimension self; dimension_text := dimension_text self;
  frame_rate := frame_rate self; frame_rate_text := frame_rate_text self;
  dar := d; dar_text := text;
  streams := streams self; scan_type := scan_type self |}.

Definition set_streams (self : t) (l : list Stream.t) : t := {|
  path := path self; filename := filename self; _ffprobe := _ffprobe self;
  title := title self; format := format self; size := size self;
  size_text := size_text self; duration := duration self;
  duration_text := duration_text self; sha1sum := sha1sum self;
  dimension := dimension self; dimension_text := dimension_text self;
  frame_rate := frame_rate self; frame_rate_text := frame_rate_text self;
  dar := dar self; dar_text := dar_text self;
  streams := l; scan_type := scan_type self |}.

Definition set_scan_type (self : t) (v : option string) : t := {|
  path := path self; filename := filename self; _ffprobe := _ffprobe self;
  title := title self; format := format self; size := size self;
  size_text := size_text self; duration := duration self;
  duration_text := duration_text self; sha1sum := sha1sum self;
  dimension := dimension self; dimension_text := dimension_text self;
  frame_rate := frame_rate self; frame_rate_text := frame_rate_text self;
  dar := dar self; dar_text := dar_text self;
  streams := streams self; scan_type := v |}.

Section Methods.
Context {B : Builtins} {U : Util}.

(** *** Container metadata *)

(** [Video._get_title]. *)
Definition _get_title (ffprobe : json) : result json :=
  video_container_metadata ← getitem ffprobe "format";
  has_tags ← contains "tags" video_container_metadata;
  if has_tags then
    tags ← getitem video_container_metadata "tags";
    has_title ← contains "title" tags;
    if has_title then
      tags' ← getitem video_container_metadata "tags";
      getitem tags' "title"
    else Ok JNull
  else Ok JNull.

(** [os.path.splitext(self.path)[1].lower()[1:]]. *)
Definition extension_of (path : string) : string :=
  let ext := lower (snd (splitext path)) in
  slice_from ext 1.

(** [x in l] for a list [l] of string literals. *)
Definition str_in (x : string) (l : list string) : bool :=
  existsb (String.eqb x) l.

(** [Video._get_format]. *)
Definition _get_format (ffprobe : json) (path : string) : result string :=
  fmt ← getitem ffprobe "format";
  format_name ← getitem fmt "format_name";
  let extension := extension_of path in
  if eq_str format_name "mpegts" then Ok "MPEG transport stream"
  else if eq_str format_name "mpeg" then Ok "MPEG program stream"
  else if eq_str format_name "mov,mp4,m4a,3gp,3g2,mj2" then
    if str_in extension ["mov"; "qt"] then Ok "QuickTime movie"
    else if str_in extension ["3gp"] then Ok "3GPP"
    else if str_in extension ["3g2"] then Ok "3GPP2"
    else if str_in extension ["mj2"; "mjp2"] then Ok "Motion JPEG 2000"
    else Ok ("MPEG-4 Part 14 (" +:+ upper extension +:+ ")")
  else if eq_str format_name "mpegvideo" then Ok "MPEG video"
  else if eq_str format_name "matroska,webm" then
    if str_in extension ["webm"] then Ok "WebM" else Ok "Matroska"
  else if eq_str format_name "flv" then Ok "Flash video"
  else if eq_str format_name "ogg" then Ok "Ogg"
  else if eq_str format_name "avi" then Ok "Audio Video Interleaved"
  else if eq_str format_name "asf" then Ok "Advanced Systems Format"
  else Ok (upper extension).

(** [Video._get_size]. *)
Definition _get_size (ffprobe : json) : result (Z * string) :=
  fmt ← getitem ffprobe "format";
  v ← getitem fmt "size";
  size ← int_of v;
  size_text ← humansize size;
  Ok (size, size_text).

(** [Video._get_duration]. *)
Definition _get_duration (ffprobe : json) : result (float * string) :=
  fmt ← getitem ffprobe "format";
  v ← getitem fmt "duration";
  duration ← float_of v;
  duration_text ← humantime duration;
  Ok (duration, duration_text).

(** [Video._get_sha1sum]: the digest and the object with the digest
    stored. *)
Definition _get_sha1sum (self : t) : string * t :=
  match sha1sum self with
  | Some d => (d, self)
  | None =>
      let d := sha1_hexdigest (path self) in
      (d, set_sha1sum self (Some d))
  end.

(** [Video.compute_sha1sum]. *)
Definition compute_sha1sum (self : t) : string * t := _get_sha1sum self.

(** *** Scan type *)

(** The loop of [Video._get_scan_type] over the lines that follow the two
    header lines: [obj_str] is the text accumulated for the next frame
    object, [objs] the frame objects parsed so far. A [ValueError] of
    [json.loads] is caught and the text kept; the [IndexError] of
    [obj_str[-1]] on empty text is not. *)
Fixpoint collect_frames (lines : list string) (obj_str : string) (objs : list json)
  : result (list json) :=
  match lines with
  | [] => Ok objs
  | line :: rest =>
      let obj_str := obj_str +:+ strip line in
      c ← last_char obj_str;
      let text := if Ascii.eqb c "," then drop_last obj_str else obj_str in
      match json_loads text with
      | Some obj =>
          let objs := append objs obj in
          if 40 <=? Z.of_nat (length objs) then Ok objs
          else collect_frames rest "" objs
      | None => collect_frames rest obj_str objs
      end
  end.

(** The body of [for frame in frames]. *)
Definition count_frame (num_interlaced : Z) (frame : json) : result Z :=
  has ← contains "interlaced_frame" frame;
  if has then
    v ← getitem frame "interlaced_frame";
    n ← as_int v;
    Ok (num_interlaced + n)
  else Ok num_interlaced.

Fixpoint count_frames (num_interlaced : Z) (frames : list json) : result Z :=
  match frames with
  | [] => Ok num_interlaced
  | frame :: rest =>
      n ← count_frame num_interlaced frame;
      count_frames n rest
  end.

(** The end of [Video._get_scan_type], from [if len(objs) < 40] on. *)
Definition classify_frames (objs : list json) : result (option string) :=
  if Z.of_nat (length objs) <? 40 then Ok None
  else
    let frames := drop 20 objs in
    num_interlaced ← count_frames 0 frames;
    if num_interlaced =? 0 then Ok (Some "Progressive scan")
    else if num_interlaced =? 20 then Ok (Some "Interlaced scan")
    else if num_interlaced =? 8 then Ok (Some "Telecined video")
    else Ok (Some "Interlaced scan").

(** [Video._get_scan_type] on the lines that the second probe prints. *)
Definition _get_scan_type (lines : list string) : result (option string) :=
  match lines with
  | _ :: _ :: rest =>
      objs ← collect_frames rest "" [];
      classify_frames objs
  | _ => Raise StopIteration
  end.

(** *** Streams *)

(** [if text: info += ", " + text]. *)
Definition append_text (info : string) (text : option string) : string :=
  match text with
  | Some t => if String.eqb t "" then info else info +:+ ", " +:+ t
  | None => info
  end.

(** [v / 10.0]. *)
Definition div_10 (v : json) : result float :=
  n ← as_int v; x ← float_of_int n; float_div x f10.

(** The block "codec" of [_process_video_stream]. *)
Definition video_codec (sdict : json) : result json :=
  has_name ← contains "codec_name" sdict;
  if negb has_name then Ok (JStr "unknown codec")
  else
    name ← getitem sdict "codec_name";
    if eq_str name "h264" then
      has_profile ← contains "profile" sdict;
      has_level ← (if has_profile then contains "level" sdict else Ok false);
      if has_level then
        profile ← getitem sdict "profile";
        level ← getitem sdict "level";
        l ← div_10 level;
        Ok (JStr ("H.264 (" +:+ str profile +:+ " Profile level "
                  +:+ fmt_f 1 l +:+ ")"))
      else Ok (JStr "H.264")
    else if eq_str name "mpeg2video" then
      has_profile ← contains "profile" sdict;
      if has_profile then
        profile ← getitem sdict "profile";
        Ok (JStr ("MPEG-2 video (" +:+ str profile +:+ " Profile)"))
      else Ok (JStr "MPEG-2 video")
    else if eq_str name "mpeg4" then
      has_profile ← contains "profile" sdict;
      if has_profile then
        profile ← getitem sdict "profile";
        Ok (JStr ("MPEG-4 Part 2 (" +:+ str profile +:+ ")"))
      else Ok (JStr "MPEG-4 Part 2")
    else if eq_str name "mjpeg" then Ok (JStr "MJPEG")
    else if eq_str name "theora" then Ok (JStr "Theora")
    else getitem sdict "codec_long_name".

(** The block "display aspect ratio (DAR)": the attributes [dar] and
    [dar_text] of the stream of width [w] and height [h]. *)
Definition video_dar (sdict : json) (w h : Z) : result (option float * json) :=
  has ← contains "display_aspect_ratio" sdict;
  dar ← (if has then
           v ← getitem sdict "display_aspect_ratio"; evaluate_ratio v
         else Ok None);
  match dar with
  | Some _ =>
      text ← getitem sdict "display_aspect_ratio";
      Ok (dar, text)
  | None =>
      let gcd := gcd w h in
      if gcd =? 0 then Raise ZeroDivisionError
      else
        let reduced_width := w / gcd in
        let reduced_height := h / gcd in
        d ← int_truediv reduced_width reduced_height;
        Ok (Some d, JStr (fmt_d reduced_width +:+ ":" +:+ fmt_d reduced_height))
  end.

(** The block "frame rate": the attribute [frame_rate]. *)
Definition video_frame_rate (sdict : json) : result (option float) :=
  has_r ← contains "r_frame_rate" sdict;
  if has_r then
    v ← getitem sdict "r_frame_rate"; evaluate_ratio v
  else
    has_avg ← contains "avg_frame_rate" sdict;
    if has_avg then
      v ← getitem sdict "avg_frame_rate"; evaluate_ratio v
    else Ok None.

(** The attribute [frame_rate_text] from [frame_rate]. *)
Definition video_frame_rate_text (frame_rate : option float) : result (option string) :=
  match frame_rate with
  | Some fps =>
      n ← int_of_float fps;
      near ← abs_diff_lt (NFloat fps) n f0_0001;
      if near then Ok (Some (fmt_d n +:+ " fps"))
      else Ok (Some (fmt_f 2 fps +:+ " fps"))
  | None => Ok None
  end.

(** The block "bit rate" of the video and audio branches. *)
Definition stream_bit_rate (sdict : json) : result (option float * option string) :=
  has ← contains "bit_rate" sdict;
  if has then
    v ← getitem sdict "bit_rate";
    bit_rate ← float_of v;
    k ← float_div bit_rate f1000;
    n ← round_float k;
    Ok (Some bit_rate, Some (fmt_d n +:+ " kb/s"))
  else Ok (None, None).

(** [Video._process_video_stream]: the stream, and [self] with its
    dimension, aspect ratio and frame rate set when they were [None]. *)
Definition _process_video_stream (self : t) (sdict : json) : result (Stream.t * t) :=
  codec_type ← getitem sdict "codec_type";
  if negb (eq_str codec_type "video") then Raise ValueError
  else
    codec ← video_codec sdict;
    (* dimension *)
    width ← getitem sdict "width";
    height ← getitem sdict "height";
    w ← as_int width;
    h ← as_int height;
    let dimension := Some (width, height) in
    let dimension_text := Some (fmt_d w +:+ "x" +:+ fmt_d h) in
    let self := match Video.dimension self with
                | None => set_dimension self dimension dimension_text
                | Some _ => self
                end in
    (* display aspect ratio *)
    '(dar, dar_text) ← video_dar sdict w h;
    let self := match Video.dar self with
                | None => set_dar self dar dar_text
                | Some _ => self
                end in
    (* frame rate *)
    frame_rate ← video_frame_rate sdict;
    frame_rate_text ← video_frame_rate_text frame_rate;
    let self := match Video.frame_rate self with
                | None => set_frame_rate self frame_rate frame_rate_text
                | Some _ => self
                end in
    (* bit rate *)
    '(bit_rate, bit_rate_text) ← stream_bit_rate sdict;
    (* info string *)
    let info := "Video, " +:+ str codec +:+ ", "
                +:+ fmt_d w +:+ "x" +:+ fmt_d h
                +:+ " (DAR " +:+ str dar_text +:+ ")" in
    let info := append_text (append_text info frame_rate_text) bit_rate_text in
    Ok ({| Stream.index := JNull; Stream.type := JStr "video";
           Stream.codec := codec;
           Stream.bit_rate := bit_rate; Stream.bit_rate_text := bit_rate_text;
           Stream.language_code := JNull;
           Stream.width := width; Stream.height := height;
           Stream.dimension := dimension; Stream.dimension_text := dimension_text;
           Stream.frame_rate := frame_rate;
           Stream.frame_rate_text := frame_rate_text;
           Stream.dar := dar; Stream.dar_text := dar_text;
           Stream.info_string := Some info |}, self).

(** The block "language" of the audio and subtitle branches. *)
Definition stream_language (sdict : json) : result json :=
  has_tags ← contains "tags" sdict;
  if has_tags then
    tags ← getitem sdict "tags";
    has_lower ← contains "language" tags;
    if has_lower then getitem tags "language"
    else
      has_upper ← contains "LANGUAGE" tags;
      if has_upper then getitem tags "LANGUAGE" else Ok JNull
  else Ok JNull.

(** [Video._process_audio_stream]. *)
Definition _process_audio_stream (sdict : json) : result Stream.t :=
  codec_type ← getitem sdict "codec_type";
  if negb (eq_str codec_type "audio") then Raise ValueError
  else
    has_name ← contains "codec_name" sdict;
    codec ← (if negb has_name then Ok (JStr "unknown codec")
             else
               name ← getitem sdict "codec_name";
               if eq_str name "aac" then
                 has_profile ← contains "profile" sdict;
                 if has_profile then
                   p ← getitem sdict "profile";
                   let profile := if eq_str p "LC" then "Low Complexity" else str p in
                   Ok (JStr ("AAC (" +:+ profile +:+ ")"))
                 else Ok (JStr "AAC")
               else if eq_str name "ac3" then Ok (JStr "Dolby AC-3")
               else if eq_str name "mp3" then Ok (JStr "MP3")
               else if eq_str name "vorbis" then Ok (JStr "Vorbis")
               else getitem sdict "codec_long_name");
    '(bit_rate, bit_rate_text) ← stream_bit_rate sdict;
    language_code ← stream_language sdict;
    let info := if truthy language_code
                then "Audio (" +:+ str language_code +:+ "), " +:+ str codec
                else "Audio, " +:+ str codec in
    Ok {| Stream.index := JNull; Stream.type := JStr "audio";
          Stream.codec := codec;
          Stream.bit_rate := bit_rate; Stream.bit_rate_text := bit_rate_text;
          Stream.language_code := language_code;
          Stream.width := JNull; Stream.height := JNull;
          Stream.dimension := None; Stream.dimension_text := None;
          Stream.frame_rate := None; Stream.frame_rate_text := None;
          Stream.dar := None; Stream.dar_text := JNull;
          Stream.info_string := Some (append_text info bit_rate_text) |}.

(** [Video._process_subtitle_stream]. *)
Definition _process_subtitle_stream (sdict : json) : result Stream.t :=
  codec_type ← getitem sdict "codec_type";
  if negb (eq_str codec_type "subtitle") then Raise ValueError
  else
    has_name ← contains "codec_name" sdict;
    codec ← (if negb has_name then
               has_tag ← contains "codec_tag_string" sdict;
               is_c608 ← (if has_tag then
                            tag ← getitem sdict "codec_tag_string";
                            Ok (eq_str tag "c608")
                          else Ok false);
               if is_c608 then Ok (JStr "EIA-608") else Ok (JStr "unknown codec")
             else
               name ← getitem sdict "codec_name";
               if eq_str name "srt" then Ok (JStr "SubRip")
               else if eq_str name "ass" then Ok (JStr "ASS")
               else if eq_str name "cc_dec"
                    then Ok (JStr "closed caption (EIA-608 / CEA-708)")
               else getitem sdict "codec_long_name");
    language_code ← stream_language sdict;
    let info := if truthy language_code
                then "Subtitle (" +:+ str language_code +:+ "), " +:+ str codec
                else "Subtitle, " +:+ str codec in
    Ok {| Stream.index := JNull; Stream.type := JStr "subtitle";
          Stream.codec := codec;
          Stream.bit_rate := None; Stream.bit_rate_text := None;
          Stream.language_code := language_code;
          Stream.width := JNull; Stream.height := JNull;
          Stream.dimension := None; Stream.dimension_text := None;
          Stream.frame_rate := None; Stream.frame_rate_text := None;
          Stream.dar := None; Stream.dar_text := JNull;
          Stream.info_string := Some info |}.

(** A [Stream()] with only [type] and [info_string] set. *)
Definition data_stream (type : json) : Stream.t := {|
  Stream.index := JNull; Stream.type := type; Stream.codec := JNull;
  Stream.bit_rate := None; Stream.bit_rate_text := None;
  Stream.language_code := JNull;
  Stream.width := JNull; Stream.height := JNull;
  Stream.dimension := None; Stream.dimension_text := None;
  Stream.frame_rate := None; Stream.frame_rate_text := None;
  Stream.dar := None; Stream.dar_text := JNull;
  Stream.info_string := Some "Data" |}.

(** [Video._process_stream]. *)
Definition _process_stream (self : t) (stream_dict : json) : result (Stream.t * t) :=
  has_type ← contains "codec_type" stream_dict;
  '(stream, self) ←
    (if negb has_type then Ok (data_stream (JStr "unknown"), self)
     else
       codec_type ← getitem stream_dict "codec_type";
       if eq_str codec_type "video" then _process_video_stream self stream_dict
       else if eq_str codec_type "audio" then
         s ← _process_audio_stream stream_dict; Ok (s, self)
       else if eq_str codec_type "subtitle" then
         s ← _process_subtitle_stream stream_dict; Ok (s, self)
       else Ok (data_stream codec_type, self));
  index ← getitem stream_dict "index";
  Ok (Stream.set_index stream index, self).

(** The loop of [Video._process_streams]: [self.streams] grows by one
    stream per record. *)
Fixpoint process_each (self : t) (records : list json) : result t :=
  match records with
  | [] => Ok self
  | stream :: rest =>
      '(s, self) ← _process_stream self stream;
      process_each (set_streams self (append (streams self) s)) rest
  end.

(** [Video._process_streams]. *)
Definition _process_streams (self : t) : result t :=
  let self := set_streams self [] in
  v ← getitem (_ffprobe self) "streams";
  records ← iterate v;
  process_each self records.

(** *** Construction *)

(** [any(stream.type == 'video' for stream in self.streams)], which the
    [for]/[else] of the constructor computes. *)
Definition has_video_stream (l : list Stream.t) : bool :=
  existsb (fun s => eq_str (Stream.type s) "video") l.

(** [Video.__init__], once the file is known to exist and the first probe
    has succeeded: [path] is the absolute path, [filename] its base name,
    [ffprobe] the parsed output of the first probe and [frame_lines] the
    lines that the second probe prints, which is run only for a file with
    a video stream. *)
Definition __init__ (path filename : string) (ffprobe : json)
    (frame_lines : list string) : result t :=
  title ← _get_title ffprobe;
  format ← _get_format ffprobe path;
  '(size, size_text) ← _get_size ffprobe;
  '(duration, duration_text) ← _get_duration ffprobe;
  let self := {|
    path := path; filename := filename; _ffprobe := ffprobe;
    title := title; format := format; size := size; size_text := size_text;
    duration := duration; duration_text := duration_text; sha1sum := None;
    dimension := None; dimension_text := None;
    frame_rate := None; frame_rate_text := None;
    dar := None; dar_text := JNull;
    streams := []; scan_type := None |} in
  self ← _process_streams self;
  if negb (has_video_stream (streams self)) then Ok (set_scan_type self None)
  else
    scan_type ← _get_scan_type frame_lines;
    Ok (set_scan_type self scan_type).

(** *** The report *)

(** [str(v)] for an attribute that is a string or [None]. *)
Definition str_opt (v : option string) : string :=
  match v with Some s => s | None => "None" end.

(** The truth value of such an attribute. *)
Definition truthy_opt (v : option string) : bool :=
  match v with Some s => negb (String.eqb s "") | None => false end.

(** The truth value of a float attribute: [None] and zero are false. *)
Definition truthy_float (v : option float) : bool :=
  match v with
  | None | Some (S754_zero _) => false
  | Some _ => true
  end.

(** [lines.append(line)] under [if c]. *)
Definition append_if (c : bool) (lines : list string) (line : string) : list string :=
  if c then append lines line else lines.

(** The loop [for stream in self.streams] of [format_metadata]. *)
Fixpoint append_streams (lines : list string) (l : list Stream.t) : result (list string) :=
  match l with
  | [] => Ok lines
  | stream :: rest =>
      i ← as_int (Stream.index stream);
      append_streams
        (append lines ("    #" +:+ fmt_d i +:+ ": "
                       +:+ str_opt (Stream.info_string stream)))
        rest
  end.

(** The list [lines] of [Video.format_metadata] before it is joined, and
    the object, whose digest the method may have filled in. *)
Definition report_lines (self : t) (include_sha1sum : bool) : result (list string * t) :=
  let lines := [] in
  let lines := append_if (truthy (title self)) lines
                 ("Title:                  " +:+ str (title self)) in
  let lines := append lines ("Filename:               " +:+ filename self) in
  let lines := append lines ("File size:              " +:+ fmt_d (size self)
                             +:+ " (" +:+ size_text self +:+ ")") in
  let self := if include_sha1sum then snd (_get_sha1sum self) else self in
  let lines := append_if include_sha1sum lines
                 ("SHA-1 digest:           " +:+ str_opt (sha1sum self)) in
  let lines := append lines ("Container format:       " +:+ format self) in
  let lines := append lines ("Duration:               " +:+ duration_text self) in
  let lines := append_if (truthy_opt (dimension_text self)) lines
                 ("Pixel dimensions:       " +:+ str_opt (dimension_text self)) in
  let lines := append_if (truthy (dar_text self)) lines
                 ("Display aspect ratio:   " +:+ str (dar_text self)) in
  let lines := append_if (truthy_opt (scan_type self)) lines
                 ("Scan type:              " +:+ str_opt (scan_type self)) in
  let lines := append_if (truthy_float (frame_rate self)) lines
                 ("Frame rate:             " +:+ str_opt (frame_rate_text self)) in
  let lines := append lines "Streams:" in
  lines ← append_streams lines (streams self);
  Ok (lines, self).

(** [Video.format_metadata]. *)
Definition format_metadata (self : t) (include_sha1sum : bool) : result (string * t) :=
  '(lines, self) ← report_lines self include_sha1sum;
  Ok (strip (join (String "010" "") lines), self).

End Methods.
End Video.
End Storyboard.

(* ===================================================================== *)
(** * [storyboard.py]: the sheet of thumbnails *)
(* ===================================================================== *)

(** The arithmetic of [StoryBoard]: the timestamps of the thumbnails and
    the placement of the tiles. The images are those of PIL and the frames
    those of the module [frame], which is not among the sources: a frame
    is a value of a type taken as a parameter, and a canvas is
    represented by its size and the list of what is pasted on it, in
    order. The calls of PIL ([Image.new], [resize], [paste]) are taken to
    return, as they do for tiles and sheets of positive size. *)
Module Board.
Import Py.
#[local] Open Scope result_scope.

(** [x + y] for two floats. *)
Definition float_add (x y : float) : float := SFadd prec emax x y.

(** The literal [2] as a float. *)
Definition f2 : float := S754_finite false 4503599627370496 (-51).

(** [l[i]] for a list: a negative index counts from the end. *)
Definition list_getitem {A : Type} (l : list A) (i : Z) : result A :=
  let j := if 0 <=? i then i else Z.of_nat (length l) + i in
  if j <? 0 then Raise IndexError
  else match nth_error l (Z.to_nat j) with
       | Some x => Ok x
       | None => Raise IndexError
       end.

(** [range(a, b)]. *)
Definition range (a b : Z) : list Z :=
  map (fun k => a + Z.of_nat k) (seq 0 (Z.to_nat (b - a))).

(** The loop of [StoryBoard.__init__] that appends one timestamp per
    value of [range(1, num_thumbnails)], of which [count] remain. *)
Fixpoint more_timestamps (count : nat) (timestamps : list float) (interval : float)
  : result (list float) :=
  match count with
  | O => Ok timestamps
  | S count' =>
      t ← list_getitem timestamps (-1);
      more_timestamps count' (append timestamps (float_add t interval)) interval
  end.

(** The list [timestamps] of [StoryBoard.__init__]. *)
Definition timestamps_of (duration : float) (num_thumbnails : Z) : result (list float) :=
  n ← float_of_int num_thumbnails;
  interval ← float_div duration n;
  first ← float_div interval f2;
  more_timestamps (length (range 1 num_thumbnails)) [first] interval.

(** What [storyboard.paste(frame.image.resize(tile_size), upperleft)]
    puts on the canvas. *)
Record paste (frame : Type) : Type := {
  pasted : frame;
  tile_size : Z * Z;
  upperleft : Z * Z;
}.
Arguments pasted {frame} _.
Arguments tile_size {frame} _.
Arguments upperleft {frame} _.

Section WithFrames.
Context {frame : Type}.

(** [frame.extract_frame(video, timestamp, ffmpeg_bin, codec)]. *)
Variable extract_frame : string -> float -> result frame.

(** The loop of [StoryBoard.__init__] over the timestamps. *)
Fixpoint extract_all (video : string) (timestamps : list float) (frames : list frame)
  : result (list frame) :=
  match timestamps with
  | [] => Ok frames
  | timestamp :: rest =>
      f ← extract_frame video timestamp;
      extract_all video rest (append frames f)
  end.

(** [StoryBoard.__init__], from the duration of the video on: the
    attribute [frames]. *)
Definition __init__ (video : string) (duration : float) (num_thumbnails : Z)
  : result (list frame) :=
  timestamps ← timestamps_of duration num_thumbnails;
  extract_all video timestamps [].

(** The inner loop of [_draw_storyboard], over the rows [js] of the
    column [i]. *)
Fixpoint draw_column (frames : list frame) (vert_tiles tile_width tile_height : Z)
    (horz_spacing vert_spacing : Z) (i : Z) (js : list Z)
    (canvas : list (paste frame)) : result (list (paste frame)) :=
  match js with
  | [] => Ok canvas
  | j :: rest =>
      let index := j * vert_tiles + i in
      f ← list_getitem frames index;
      let upperleft := (tile_width * i + horz_spacing * (2 * i + 1),
                        tile_height * j + vert_spacing * (2 * j + 1)) in
      draw_column frames vert_tiles tile_width tile_height
        horz_spacing vert_spacing i rest
        (append canvas {| pasted := f; tile_size := (tile_width, tile_height);
                          upperleft := upperleft |})
  end.

(** The outer loop, over the columns [is]. *)
Fixpoint draw_columns (frames : list frame) (vert_tiles tile_width tile_height : Z)
    (horz_spacing vert_spacing : Z) (cols : list Z)
    (canvas : list (paste frame)) : result (list (paste frame)) :=
  match cols with
  | [] => Ok canvas
  | i :: rest =>
      canvas ← draw_column frames vert_tiles tile_width tile_height
                 horz_spacing vert_spacing i (range 0 vert_tiles) canvas;
      draw_columns frames vert_tiles tile_width tile_height
        horz_spacing vert_spacing rest canvas
  end.

(** [StoryBoard._draw_storyboard]: the size of the canvas and what is
    pasted on it. *)
Definition _draw_storyboard (frames : list frame) (tiling : Z * Z) (tile_width : Z)
    (tile_aspect_ratio : float) (tile_spacing : Z * Z)
  : result (Z * Z * list (paste frame)) :=
  let horz_tiles := fst tiling in
  let vert_tiles := snd tiling in
  q ← num_div_float (NInt tile_width) tile_aspect_ratio;
  tile_height ← int_of_float q;
  let horz_spacing := fst tile_spacing in
  let vert_spacing := snd tile_spacing in
  let total_width := horz_tiles * (tile_width + 2 * horz_spacing) in
  let total_height := vert_tiles * (tile_height + 2 * vert_spacing) in
  canvas ← draw_columns frames vert_tiles tile_width tile_height
             horz_spacing vert_spacing (range 0 horz_tiles) [];
  Ok (total_width, total_height, canvas).

(** [draw.text(position, content, ...)]: what is written on an image, and
    where. *)
Record written : Type := {
  position : Z * Z;
  content : string;
}.

(** The three images that [storyboard] assembles. *)
Inductive part : Type :=
| MetaSheet
| Tiles
| Banner.

(** [assembled.paste(image, position)] for an image of a known size. *)
Record placed : Type := {
  image : part;
  size : Z * Z;
  corner : Z * Z;
}.

Section WithFont.

(** [draw.textsize(line, font=font)]. *)
Variable textsize : string -> Z * Z.

(** [int(round(font_size * spacing))], under Python 2, which the module
    needs for the flat extractor that it imports. *)
Definition line_height (font_size : Z) (spacing : float) : result Z :=
  x ← float_of_int font_size;
  round_half_away (SFmul prec emax x spacing).

(** The loop of [_draw_text_block] over [text.splitlines()]. *)
Fixpoint draw_lines (lines : list string) (x y line_height width height : Z)
    (drawn : list written) : Z * Z * list written :=
  match lines with
  | [] => (width, height, drawn)
  | line :: rest =>
      let '(w, h) := textsize line in
      let drawn := append drawn {| position := (x, y); content := line |} in
      let width := if width <? w then w else width in
      draw_lines rest x (y + line_height) line_height
        width (height + line_height) drawn
  end.

(** [_draw_text_block], [lines] being [text.splitlines()]: the size of
    the block and what is written. *)
Definition _draw_text_block (lines : list string) (xy : Z * Z)
    (font_size : Z) (spacing : float) : result (Z * Z * list written) :=
  let x := fst xy in
  let y := snd xy in
  line_height ← line_height font_size spacing;
  Ok (draw_lines lines x y line_height 0 0 []).

(** [StoryBoard._draw_meta_sheet], [lines] being the lines of the text
    that [pretty_print_metadata] returns: the size of the sheet and what
    is written on it. *)
Definition _draw_meta_sheet (lines : list string) (total_width : Z)
    (tile_spacing : Z * Z) (font_size : Z) (text_spacing : float)
  : result (Z * Z * list written) :=
  let horz_spacing := fst tile_spacing in
  let vert_spacing := snd tile_spacing in
  let num_lines := Z.of_nat (length lines) in
  h ← line_height font_size text_spacing;
  let total_height := h * num_lines + vert_spacing * 3 in
  let upperleft := (horz_spacing, vert_spacing) in
  '(_, drawn) ← _draw_text_block lines upperleft font_size text_spacing;
  Ok (total_width, total_height, drawn).

(** The text of the banner. *)
Definition banner_text : string :=
  "Fork me on GitHub: " +:+ "https://github.com/zmwangx/storyboard".

(** [StoryBoard._draw_banner]: the size of the banner and what is written
    on it. *)
Definition _draw_banner (total_width font_size : Z) : Z * Z * list written :=
  let text := banner_text in
  let total_height := font_size + 3 * 2 in
  let text_width := fst (textsize text) in
  let horz_spacing := (total_width - text_width) / 2 in
  (total_width, total_height, [{| position := (horz_spacing, 3); content := text |}]).

(** [StoryBoard.storyboard] for a given aspect ratio of the tiles: the
    size of the assembled image and the images pasted on it, in order. *)
Definition storyboard (frames : list frame) (lines : list string)
    (padding : Z * Z) (include_banner : bool)
    (font_size : Z) (text_spacing : float)
    (tiling : Z * Z) (tile_width : Z) (tile_aspect_ratio : float)
    (tile_spacing : Z * Z) : result (Z * Z * list placed) :=
  '(storyboard_size, _) ← _draw_storyboard frames tiling tile_width
                            tile_aspect_ratio tile_spacing;
  let total_width := fst storyboard_size in
  '(meta_sheet_size, _) ← _draw_meta_sheet lines total_width tile_spacing
                            font_size text_spacing;
  let hp := fst padding in
  let vp := snd padding in
  if include_banner then
    let '(banner_size, _) := _draw_banner total_width font_size in
    let total_height := snd storyboard_size + snd meta_sheet_size
                        + snd banner_size in
    let total_width := total_width + 2 * hp in
    let total_height := total_height + 2 * vp in
    Ok (total_width, total_height,
        [{| image := MetaSheet; size := meta_sheet_size; corner := (hp, vp) |};
         {| image := Tiles; size := storyboard_size;
            corner := (hp, vp + snd meta_sheet_size) |};
         {| image := Banner; size := banner_size;
            corner := (hp, vp + snd meta_sheet_size + snd storyboard_size) |}])
  else
    let total_height := snd storyboard_size + snd meta_sheet_size in
    let total_width := total_width + 2 * hp in
    let total_height := total_height + 2 * vp in
    Ok (total_width, total_height,
        [{| image := MetaSheet; size := meta_sheet_size; corner := (hp, vp) |};
         {| image := Tiles; size := storyboard_size;
            corner := (hp, vp + snd meta_sheet_size) |}]).

End WithFont.
End WithFrames.
End Board.

(* ===================================================================== *)
(** * Sample parameters *)
(* ===================================================================== *)

(** One choice for the parameters, to run the extractors on sample probe
    output. *)
Module Sample.
Import Py.
#[local] Open Scope result_scope.

(** [float(s)] on the text of a decimal integer. *)
Definition float_of_decimal (s : string) : option float :=
  match parse_literal s with
  | Some n => match float_of_int n with Ok x => Some x | Raise _ => None end
  | None => None
  end.

#[local] Instance builtins : Builtins := {|
  json_loads := fun _ => None;
  int_of_str := parse_literal;
  float_of_str := float_of_decimal;
  repr_container := fun _ => "[...]";
  sha1_hexdigest := fun _ => "da39a3ee5e6b4b0d3255bfef95601890afd80709";
|}.

(** Modelled from the spec: [util.evaluate_ratio], which is not among the
    sources. It "parses N/D or a bare number into a float", a display
    aspect ratio being written "numerator:denominator"; "D = 0 is invalid
    input" and is "propagated as null, not a crash"; text that is not of
    these forms is unparseable and gives null as well. *)
Definition evaluate_ratio (v : json) : result (option float) :=
  match v with
  | JStr s =>
      let e := match parse_expr s with
               | Some e => Some e
               | None => parse_ratio ":" s
               end in
      match e with
      | Some (EDiv n d) =>
          if d =? 0 then Ok None else x ← int_truediv n d; Ok (Some x)
      | Some (EInt n) => x ← float_of_int n; Ok (Some x)
      | None => Ok None
      end
  | _ => Ok None
  end.

(** Modelled from the spec: [util.humansize] and [util.humantime], which
    are not among the sources. The scaling and the layout that the
    description gives for them are those of [_extract_size] and
    [_extract_duration] of the flat extractor. *)
#[local] Instance util : Storyboard.Util := {|
  Storyboard.humansize := Legacy.size_human;
  Storyboard.humantime := Legacy.duration_human;
  Storyboard.evaluate_ratio := evaluate_ratio;
|}.

Definition dict (l : list (string * json)) : json := JDict (list_to_map l).

(** A frame object with the flag set to [n], and one without the flag. *)
Definition frame (n : Z) : json :=
  dict [("media_type", JStr "video"); ("interlaced_frame", JInt n)].
Definition bare_frame : json := dict [("media_type", JStr "video")].

(** Two video streams that differ in every mirrored attribute, and an
    audio stream. *)
Definition video_hd : json :=
  dict [("index", JInt 0); ("codec_type", JStr "video");
        ("codec_name", JStr "theora");
        ("width", JInt 1920); ("height", JInt 1080);
        ("r_frame_rate", JStr "24000/1001")].
Definition video_sd : json :=
  dict [("index", JInt 1); ("codec_type", JStr "video");
        ("codec_name", JStr "mjpeg");
        ("width", JInt 640); ("height", JInt 480);
        ("display_aspect_ratio", JStr "4:3");
        ("r_frame_rate", JStr "25/1")].
Definition audio_en : json :=
  dict [("index", JInt 2); ("codec_type", JStr "audio");
        ("codec_name", JStr "vorbis");
        ("tags", dict [("language", JStr "eng")])].

Definition container (fields : list (string * json)) (streams : list json) : json :=
  dict [("format", dict fields); ("streams", JList streams)].

Definition format_full : list (string * json) :=
  [("format_name", JStr "matroska,webm"); ("size", JStr "8687494");
   ("duration", JStr "173")].

(** A [Video] as the constructor has it before it processes the
    streams. *)
Definition blank : Storyboard.Video.t := {|
  Storyboard.Video.path := "/home/user/talk.webm";
  Storyboard.Video.filename := "talk.webm";
  Storyboard.Video._ffprobe := JNull;
  Storyboard.Video.title := JNull;
  Storyboard.Video.format := "WebM";
  Storyboard.Video.size := 8687494;
  Storyboard.Video.size_text := "8.3MiB";
  Storyboard.Video.duration := S754_zero false;
  Storyboard.Video.duration_text := "00:00:00.00";
  Storyboard.Video.sha1sum := None;
  Storyboard.Video.dimension := None;
  Storyboard.Video.dimension_text := None;
  Storyboard.Video.frame_rate := None;
  Storyboard.Video.frame_rate_text := None;
  Storyboard.Video.dar := None;
  Storyboard.Video.dar_text := JNull;
  Storyboard.Video.streams := [];
  Storyboard.Video.scan_type := None |}.

(** The text of a frame object with the flag set to [n], and of one
    without the flag, as the frame probe prints them on one line. *)
Definition quote : string := String "034" "".
Definition frame_text (n : Z) : string :=
  "{" +:+ quote +:+ "media_type" +:+ quote +:+ ": " +:+ quote +:+ "video"
  +:+ quote +:+ ", " +:+ quote +:+ "interlaced_frame" +:+ quote +:+ ": "
  +:+ fmt_d n +:+ "}".
Definition bare_frame_text : string :=
  "{" +:+ quote +:+ "media_type" +:+ quote +:+ ": " +:+ quote +:+ "video"
  +:+ quote +:+ "}".

(** [json.loads] on these texts; it reports any other text as
    malformed. *)
Definition loads_frame (s : string) : option json :=
  if String.eqb s (frame_text 0) then Some (frame 0)
  else if String.eqb s (frame_text 1) then Some (frame 1)
  else if String.eqb s bare_frame_text then Some bare_frame
  else None.

Definition frame_builtins : Builtins := {|
  json_loads := loads_frame;
  int_of_str := parse_literal;
  float_of_str := float_of_decimal;
  repr_container := fun _ => "[...]";
  sha1_hexdigest := fun _ => "da39a3ee5e6b4b0d3255bfef95601890afd80709";
|}.

(** The lines that the frame probe prints for a list of flags: the two
    header lines, one line per frame, each but the last followed by a
    comma, and the two closing lines. *)
Fixpoint frame_lines (flags : list Z) : list string :=
  match flags with
  | [] => ["    ]"; "}"]
  | [n] => ["        " +:+ frame_text n; "    ]"; "}"]
  | n :: rest => ("        " +:+ frame_text n +:+ ",") :: frame_lines rest
  end.

Definition probe_output (flags : list Z) : list string :=
  "{" :: ("    " +:+ quote +:+ "frames" +:+ quote +:+ ": [") :: frame_lines flags.

(** The lines of a frame probe that ends before the first frame. *)
Definition no_frames : list string := ["{"; "    frames: ["; "    ]"; "}"].

(** The construction of a [Video] for a file of three streams, and for an
    audio file whose title tag is the empty string. *)
Definition talk : result Storyboard.Video.t :=
  Storyboard.Video.__init__ "/home/user/talk.webm" "talk.webm"
    (container format_full [video_hd; video_sd; audio_en]) no_frames.

Definition untitled : result Storyboard.Video.t :=
  Storyboard.Video.__init__ "/home/user/song.ogg" "song.ogg"
    (container [("format_name", JStr "ogg"); ("size", JStr "1536");
                ("duration", JStr "61");
                ("tags", dict [("title", JStr "")])]
       [audio_en]) no_frames.

End Sample.

(* ===================================================================== *)
(** * Properties *)
(* ===================================================================== *)

Import Py.
Import Storyboard.
#[local] Open Scope result_scope.

(** ** Vocabulary of the statements *)

(** A frame object as the probe prints it: an object whose
    [interlaced_frame], when present, is 0 or 1. *)
Definition probe_frame (frame : json) : Prop :=
  exists d, frame = JDict d /\
    (d !! "interlaced_frame" = None \/
     d !! "interlaced_frame" = Some (JInt 0) \/
     d !! "interlaced_frame" = Some (JInt 1)).

(** The frame is flagged as interlaced. *)
Definition is_interlaced (frame : json) : bool :=
  match frame with
  | JDict d =>
      match d !! "interlaced_frame" with
      | Some (JInt 1) => true
      | _ => false
      end
  | _ => false
  end.

(** The number of frames flagged as interlaced. *)
Fixpoint interlaced_count (frames : list json) : Z :=
  match frames with
  | [] => 0
  | frame :: rest =>
      (if is_interlaced frame then 1 else 0) + interlaced_count rest
  end.

(** The identifiers that [_get_format] knows. *)
Definition known_formats : list string :=
  ["mpegts"; "mpeg"; "mov,mp4,m4a,3gp,3g2,mj2"; "mpegvideo"; "matroska,webm";
   "flv"; "ogg"; "avi"; "asf"].

(** The extension of a path as the file system has it, without its
    period. *)
Definition raw_extension (path : string) : string :=
  slice_from (snd (splitext path)) 1.

(** A line that is present under a condition. *)
Definition optional (c : bool) (line : string) : list string :=
  if c then [line] else [].

(** The line of the stream [s], whose index is the integer [i]. *)
Definition stream_line (s : Stream.t) (i : Z) : string :=
  "    #" +:+ fmt_d i +:+ ": " +:+ Video.str_opt (Stream.info_string s).

(** The digest that the report shows: the stored one, or the one of the
    file when none is stored yet. *)
Definition digest_of {B : Builtins} (v : Video.t) : string :=
  match Video.sha1sum v with
  | Some d => d
  | None => sha1_hexdigest (Video.path v)
  end.

(** The lines of the report, in order. *)
Definition layout {B : Builtins} (v : Video.t) (include_sha1sum : bool) (idx : list Z)
  : list string :=
  (optional (truthy (Video.title v))
     ("Title:                  " +:+ str (Video.title v))
   ++ ["Filename:               " +:+ Video.filename v]
   ++ ["File size:              " +:+ fmt_d (Video.size v)
       +:+ " (" +:+ Video.size_text v +:+ ")"]
   ++ optional include_sha1sum ("SHA-1 digest:           " +:+ digest_of v)
   ++ ["Container format:       " +:+ Video.format v]
   ++ ["Duration:               " +:+ Video.duration_text v]
   ++ optional (Video.truthy_opt (Video.dimension_text v))
        ("Pixel dimensions:       " +:+ Video.str_opt (Video.dimension_text v))
   ++ optional (truthy (Video.dar_text v))
        ("Display aspect ratio:   " +:+ str (Video.dar_text v))
   ++ optional (Video.truthy_opt (Video.scan_type v))
        ("Scan type:              " +:+ Video.str_opt (Video.scan_type v))
   ++ optional (Video.truthy_float (Video.frame_rate v))
        ("Frame rate:             " +:+ Video.str_opt (Video.frame_rate_text v))
   ++ ["Streams:"]
   ++ zip_with stream_line (Video.streams v) idx)%list.

Fixpoint all_space (s : string) : bool :=
  match s with
  | EmptyString => true
  | String c s' => is_space c && all_space s'
  end.

(** The last character of [s], if any, is not white space. *)
Definition ends_clean (s : string) : Prop :=
  forall c, last_char s = Ok c -> is_space c = false.

(** The stream came out of the video branch. *)
Definition is_video (s : Stream.t) : bool := eq_str (Stream.type s) "video".

Definition is_set {A : Type} (v : option A) : bool :=
  match v with Some _ => true | None => false end.

(** The first video stream, in the order of the list, for which the
    attribute [value] is not [None]. *)
Fixpoint first_video {A : Type} (value : Stream.t -> option A) (l : list Stream.t)
  : option Stream.t :=
  match l with
  | [] => None
  | s :: rest =>
      if is_video s && is_set (value s) then Some s else first_video value rest
  end.

(** What a mirrored attribute and its text must be for the streams [l]:
    those of that first stream, and [None] when there is none. *)
Definition mirror_of {A B : Type} (value : Stream.t -> option A)
    (text : Stream.t -> B) (none : B) (l : list Stream.t) : option A * B :=
  match first_video value l with
  | Some s => (value s, text s)
  | None => (None, none)
  end.

(** The three mirrored pairs of [v] are those of its streams. *)
Definition mirrors_streams (v : Video.t) : Prop :=
  (Video.dimension v, Video.dimension_text v)
    = mirror_of Stream.dimension Stream.dimension_text None (Video.streams v) /\
  (Video.dar v, Video.dar_text v)
    = mirror_of Stream.dar Stream.dar_text JNull (Video.streams v) /\
  (Video.frame_rate v, Video.frame_rate_text v)
    = mirror_of Stream.frame_rate Stream.frame_rate_text None (Video.streams v).

(** A pair that is set stays as it is; a pair that is not set takes the
    attribute of a video stream. *)
Definition updated {A B : Type} (old new : option A * B) (video : bool)
    (of_stream : option A * B) : Prop :=
  new = match fst old with
        | Some _ => old
        | None => if video then of_stream else old
        end.

(** The effect of processing one stream record on the object. *)
Definition effect (self : Video.t) (s : Stream.t) (self' : Video.t) : Prop :=
  Video.streams self' = Video.streams self /\
  updated (Video.dimension self, Video.dimension_text self)
          (Video.dimension self', Video.dimension_text self')
          (is_video s) (Stream.dimension s, Stream.dimension_text s) /\
  updated (Video.dar self, Video.dar_text self)
          (Video.dar self', Video.dar_text self')
          (is_video s) (Stream.dar s, Stream.dar_text s) /\
  updated (Video.frame_rate self, Video.frame_rate_text self)
          (Video.frame_rate self', Video.frame_rate_text self')
          (is_video s) (Stream.frame_rate s, Stream.frame_rate_text s) /\
  (is_video s = true -> Stream.frame_rate s = None -> Stream.frame_rate_text s = None) /\
  (is_video s = true -> is_set (Stream.dimension s) = true /\ is_set (Stream.dar s) = true).

(** The record has no display aspect ratio, or one that does not
    evaluate. *)
Definition no_aspect_ratio {U : Util} (sdict : json) : Prop :=
  contains "display_aspect_ratio" sdict = Ok false \/
  exists v, contains "display_aspect_ratio" sdict = Ok true /\
            getitem sdict "display_aspect_ratio" = Ok v /\
            evaluate_ratio v = Ok None.

(** A video stream record whose [r_frame_rate] is the text 0/0, as the
    probe prints it for a stream without a frame rate. *)
Definition stream_without_rate : json :=
  Sample.dict [("index", JInt 0); ("codec_type", JStr "video");
               ("codec_name", JStr "mjpeg");
               ("width", JInt 428); ("height", JInt 240);
               ("r_frame_rate", JStr "0/0")].

(** The size after [k] divisions by 1024.0; before the first division it
    is still the integer. *)
Fixpoint scaled (size : Z) (k : nat) : result num :=
  match k with
  | O => Ok (NInt size)
  | S k' =>
      tmp ← scaled size k';
      x ← num_div_float tmp f1024;
      Ok (NFloat x)
  end.

(** The prefixes of the loop followed by the one of its [else]. *)
Definition all_units : list string := (Legacy.units ++ ["Yi"])%list.

(** [text] is the size after some number [k] of divisions, printed with
    one decimal, followed by the [k]-th prefix and "B"; no smaller number
    of divisions brings the size below 1024.0, and [k] does unless it is
    the rank of the last prefix. *)
Definition scaling_of (size : Z) (text : string) : Prop :=
  exists (k : nat) (tmp : num) (digits : string),
    (k <= 8)%nat /\
    scaled size k = Ok tmp /\
    fmt_f_num 1 tmp = Ok digits /\
    text = digits +:+ nth k all_units "" +:+ "B" /\
    (forall j t, (j < k)%nat -> scaled size j = Ok t -> num_lt_float t f1024 = false) /\
    ((k < 8)%nat -> num_lt_float tmp f1024 = true).

(** The number of binary digits of a mantissa. *)
Definition D (m : positive) : Z := Zpos (digits2_pos m).

(** The float is one that the arithmetic produces: its mantissa has at
    most 53 digits and is normalized for its exponent. *)
Definition valid (x : float) : Prop := valid_binary prec emax x = true.

(** The exact value of a finite float, as a fraction. *)
Definition numerator (x : float) : Z :=
  match x with
  | S754_finite s m e => (if s then Zneg m else Zpos m) * 2 ^ Z.max e 0
  | _ => 0
  end.

Definition denominator (x : float) : Z :=
  match x with
  | S754_finite _ _ e => 2 ^ Z.max (- e) 0
  | _ => 1
  end.

(** The value of [x] truncated toward zero, and the integer nearest to
    it. *)
Definition truncation (x : float) : Z := Z.quot (numerator x) (denominator x).

Definition nearest_integer (x : float) : Z :=
  (2 * numerator x + denominator x) / (2 * denominator x).

(** The value of [x] is less than 1/10000 away from the integer [n]. *)
Definition within_1e4 (x : float) (n : Z) : bool :=
  Z.abs (numerator x - n * denominator x) * 10000 <? denominator x.

(** The labels of the scan types. *)
Definition scan_labels : list string :=
  ["Progressive scan"; "Interlaced scan"; "Telecined video"].

(** The object that [Video.__init__] has built when it reaches the test
    on the video streams: everything but the scan type. *)
Definition before_scan {B : Builtins} {U : Util}
    (path filename : string) (ffprobe : json) : result Video.t :=
  title ← Video._get_title ffprobe;
  format ← Video._get_format ffprobe path;
  '(size, size_text) ← Video._get_size ffprobe;
  '(duration, duration_text) ← Video._get_duration ffprobe;
  Video._process_streams {|
    Video.path := path; Video.filename := filename; Video._ffprobe := ffprobe;
    Video.title := title; Video.format := format;
    Video.size := size; Video.size_text := size_text;
    Video.duration := duration; Video.duration_text := duration_text;
    Video.sha1sum := None;
    Video.dimension := None; Video.dimension_text := None;
    Video.frame_rate := None; Video.frame_rate_text := None;
    Video.dar := None; Video.dar_text := JNull;
    Video.streams := []; Video.scan_type := None |}.

(** The records of the streams in the output of the probe, in order. *)
Definition records_of (ffprobe : json) : result (list json) :=
  v ← getitem ffprobe "streams"; iterate v.

(** The type that a stream record states, and the word that stands for
    the type of a record that states none. *)
Definition type_of_record (record : json) : result json :=
  has ← contains "codec_type" record;
  if has then getitem record "codec_type" else Ok (JStr "unknown").

(** The stream [s] stands for the record: it has its index and its
    type. *)
Definition stands_for (record : json) (s : Stream.t) : Prop :=
  getitem record "index" = Ok (Stream.index s) /\
  type_of_record record = Ok (Stream.type s).

(** The attributes of a stream fit together: a text is set exactly when
    its value is, the information string is always set, a video stream
    has a dimension made of its width and height and an aspect ratio, and
    any other stream has none of the video attributes. *)
Definition well_formed (s : Stream.t) : Prop :=
  is_set (Stream.info_string s) = true /\
  is_set (Stream.bit_rate_text s) = is_set (Stream.bit_rate s) /\
  is_set (Stream.frame_rate_text s) = is_set (Stream.frame_rate s) /\
  is_set (Stream.dimension_text s) = is_set (Stream.dimension s) /\
  if is_video s
  then Stream.dimension s = Some (Stream.width s, Stream.height s) /\
       is_set (Stream.dar s) = true
  else Stream.dimension s = None /\ Stream.dar s = None /\
       Stream.dar_text s = JNull /\ Stream.frame_rate s = None.

(** The tile of column [i] and row [j] on a sheet of tiles of size [tw]
    by [th] spaced by [hs] and [vs]: it shows the frame of index
    [j * vert_tiles + i], and it sits in the cell [(i, j)] of a grid of
    cells of size [tw + 2 * hs] by [th + 2 * vs], at the distance of the
    spacing from the left and the top of the cell. *)
Definition tile_at {frame : Type} (frames : list frame) (vert_tiles : Z)
    (tw th hs vs : Z) (i j : Z) (p : Board.paste frame) : Prop :=
  Board.list_getitem frames (j * vert_tiles + i) = Ok (Board.pasted p) /\
  Board.tile_size p = (tw, th) /\
  Board.upperleft p = (i * (tw + 2 * hs) + hs, j * (th + 2 * vs) + vs).

(** Two tiles of size [tw] by [th] do not overlap. *)
Definition apart {frame : Type} (tw th : Z) (p q : Board.paste frame) : Prop :=
  fst (Board.upperleft p) + tw <= fst (Board.upperleft q) \/
  fst (Board.upperleft q) + tw <= fst (Board.upperleft p) \/
  snd (Board.upperleft p) + th <= snd (Board.upperleft q) \/
  snd (Board.upperleft q) + th <= snd (Board.upperleft p).

(** The images of [parts] are stacked from the height [y] down to
    [bottom]: each starts where the one before it ends. *)
Fixpoint stacked (y : Z) (parts : list Board.placed) (bottom : Z) : Prop :=
  match parts with
  | [] => y = bottom
  | p :: rest =>
      snd (Board.corner p) = y /\ stacked (y + snd (Board.size p)) rest bottom
  end.

(** ** Fallible computations *)

Lemma bind_ok {A B : Type} (c : result A) (k : A -> result B) (b : B) :
  bind c k = Ok b -> exists a, c = Ok a /\ k a = Ok b.
Proof. destruct c as [a|e]; simpl; [eauto | discriminate]. Qed.

Lemma bind_raise {A B : Type} (c : result A) (k : A -> result B) (e : exn) :
  c = Raise e -> bind c k = Raise e.
Proof. intros ->. reflexivity. Qed.

Tactic Notation "bind_inv" hyp(H) :=
  let a := fresh "a" in
  let Ha := fresh "Ha" in
  apply bind_ok in H; destruct H as (a & Ha & H).

Tactic Notation "bind_inv" hyp(H) "as" simple_intropattern(a) ident(Ha) :=
  apply bind_ok in H; destruct H as (a & Ha & H).

(** ** Dictionaries *)

Lemma contains_absent (d : gmap string json) (k : string) :
  d !! k = None -> contains k (JDict d) = Ok false.
Proof.
  intros Hk. unfold contains. f_equal.
  apply bool_decide_eq_false. rewrite Hk. intros [x Hx]. discriminate.
Qed.

Lemma contains_present (d : gmap string json) (k : string) (v : json) :
  d !! k = Some v -> contains k (JDict d) = Ok true.
Proof.
  intros Hk. unfold contains. f_equal.
  apply bool_decide_eq_true. rewrite Hk. eauto.
Qed.

Lemma getitem_present (d : gmap string json) (k : string) (v : json) :
  d !! k = Some v -> getitem (JDict d) k = Ok v.
Proof. intros Hk. unfold getitem. rewrite Hk. reflexivity. Qed.

Lemma getitem_absent (d : gmap string json) (k : string) :
  d !! k = None -> getitem (JDict d) k = Raise (KeyError k).
Proof. intros Hk. unfold getitem. rewrite Hk. reflexivity. Qed.

(** ** Scan type *)

Lemma count_frame_probe (n : Z) (frame : json) :
  probe_frame frame ->
  Video.count_frame n frame = Ok (n + (if is_interlaced frame then 1 else 0)).
Proof.
  intros (d & -> & [Hd | [Hd | Hd]]); unfold Video.count_frame; simpl is_interlaced.
  - rewrite (contains_absent _ _ Hd), Hd. simpl. f_equal. lia.
  - rewrite (contains_present _ _ _ Hd), (getitem_present _ _ _ Hd), Hd.
    reflexivity.
  - rewrite (contains_present _ _ _ Hd), (getitem_present _ _ _ Hd), Hd.
    reflexivity.
Qed.

Lemma count_frames_probe (frames : list json) :
  Forall probe_frame frames ->
  forall n, Video.count_frames n frames = Ok (n + interlaced_count frames).
Proof.
  induction 1 as [|frame rest Hframe _ IH]; intros n; simpl.
  - f_equal. lia.
  - rewrite (count_frame_probe _ _ Hframe). simpl. rewrite IH. f_equal. lia.
Qed.

Lemma interlaced_count_bounds (frames : list json) :
  0 <= interlaced_count frames <= Z.of_nat (length frames).
Proof.
  induction frames as [|frame rest IH]; simpl length; simpl interlaced_count.
  - lia.
  - destruct (is_interlaced frame); lia.
Qed.

(** The sampling loop hands over at most forty frame objects. *)
Lemma collect_frames_length {B : Builtins} (lines : list string) :
  forall obj_str objs objs',
    (length objs < 40)%nat ->
    Video.collect_frames lines obj_str objs = Ok objs' ->
    (length objs' <= 40)%nat.
Proof.
  induction lines as [|line rest IH]; intros obj_str objs objs' Hlen Hrun;
    simpl in Hrun.
  - injection Hrun as <-. lia.
  - bind_inv Hrun.
    destruct (json_loads _) as [obj|].
    + unfold append in Hrun. rewrite length_app in Hrun. simpl length in Hrun.
      destruct (Z.leb_spec 40 (Z.of_nat (length objs + 1))) as [Hfull|Hfull].
      * injection Hrun as <-. rewrite length_app. simpl. lia.
      * apply (IH "" (objs ++ [obj])%list); [| exact Hrun].
        rewrite length_app. simpl. lia.
    + eapply IH; eassumption.
Qed.

(** C1. Classification of the scan type from the parsed frame objects.
    With fewer than forty objects the result is [None]. Otherwise the
    first twenty are dropped (which leaves twenty when forty were
    collected, and the sampling loop collects no more than forty) and the
    frames flagged as interlaced are counted among the rest: none gives
    "Progressive scan", twenty "Interlaced scan", eight "Telecined video",
    and any other count "Interlaced scan". *)
Theorem scan_type_classification (objs : list json) :
  ((length objs < 40)%nat -> Video.classify_frames objs = Ok None) /\
  ((40 <= length objs)%nat ->
   Forall probe_frame (drop 20 objs) ->
   (length objs = 40%nat -> length (drop 20 objs) = 20%nat) /\
   Video.classify_frames objs =
     Ok (Some (match interlaced_count (drop 20 objs) with
               | 0 => "Progressive scan"
               | 20 => "Interlaced scan"
               | 8 => "Telecined video"
               | _ => "Interlaced scan"
               end))).
Proof.
  split.
  - intros Hlen. unfold Video.classify_frames.
    destruct (Z.of_nat (length objs) <? 40) eqn:Hlt; [reflexivity | lia].
  - intros Hlen Hframes. split.
    + intros Heq. rewrite length_drop. lia.
    + unfold Video.classify_frames.
      destruct (Z.of_nat (length objs) <? 40) eqn:Hlt; [lia |].
      rewrite (count_frames_probe _ Hframes). simpl bind.
      rewrite Z.add_0_l.
      destruct (interlaced_count (drop 20 objs)) as [|p|p] eqn:Hcount.
      * reflexivity.
      * destruct (Z.eqb_spec (Z.pos p) 20) as [H20|H20].
        { injection H20 as ->. reflexivity. }
        destruct (Z.eqb_spec (Z.pos p) 8) as [H8|H8].
        { injection H8 as ->. reflexivity. }
        simpl.
        do 5 (try (destruct p as [p|p|]; try reflexivity; try congruence)).
      * reflexivity.
Qed.

Lemma scan_type_classification_witness :
  let objs := (repeat (Sample.frame 0) 32 ++ repeat (Sample.frame 1) 8)%list in
  (40 <= length objs)%nat /\
  Forall probe_frame (drop 20 objs) /\
  length (drop 20 objs) = 20%nat /\
  Video.classify_frames objs = Ok (Some "Telecined video").
Proof.
  intros objs.
  assert (Hlen : (40 <= length objs)%nat) by (vm_compute; lia).
  assert (Hframes : Forall probe_frame (drop 20 objs)).
  { repeat constructor;
      (eexists; split; [reflexivity |]);
      first [ right; left; reflexivity | right; right; reflexivity ]. }
  destruct (scan_type_classification objs) as [_ Hmain].
  destruct (Hmain Hlen Hframes) as [Hdrop Hclass].
  split; [exact Hlen |]. split; [exact Hframes |].
  split; [apply Hdrop; reflexivity |].
  rewrite Hclass. reflexivity.
Defined.

Lemma count_frames_same_step (frame frame' : json) :
  (forall n, Video.count_frame n frame = Video.count_frame n frame') ->
  forall (pre post : list json) (k : nat) (n : Z),
    Video.count_frames n (drop k (pre ++ frame :: post)%list) =
    Video.count_frames n (drop k (pre ++ frame' :: post)%list).
Proof.
  intros Hstep pre.
  induction pre as [|x pre IH]; intros post k n.
  - destruct k; simpl; [rewrite Hstep |]; reflexivity.
  - destruct k; simpl.
    + destruct (Video.count_frame n x); simpl; [apply (IH post 0%nat) | reflexivity].
    + apply IH.
Qed.

(** C10. A frame object without the key [interlaced_frame] adds nothing to
    the count and raises nothing, and it keeps its place among the frames:
    the classification is the one obtained with the flag present and equal
    to 0 at the same position. *)
Theorem frame_without_flag_counts_zero
    (pre post : list json) (d : gmap string json) (n : Z) :
  d !! "interlaced_frame" = None ->
  Video.count_frame n (JDict d) = Ok n /\
  Video.classify_frames (pre ++ JDict d :: post)%list =
  Video.classify_frames
    (pre ++ JDict (<["interlaced_frame" := JInt 0]> d) :: post)%list.
Proof.
  intros Hd.
  assert (Hstep : forall m, Video.count_frame m (JDict d) = Ok m).
  { intros m. unfold Video.count_frame.
    rewrite (contains_absent _ _ Hd). reflexivity. }
  assert (Hstep0 : forall m,
    Video.count_frame m (JDict (<["interlaced_frame" := JInt 0]> d)) = Ok m).
  { intros m. unfold Video.count_frame.
    rewrite (contains_present _ _ (JInt 0)) by apply lookup_insert_eq.
    rewrite (getitem_present _ _ (JInt 0)) by apply lookup_insert_eq.
    simpl. f_equal. lia. }
  split; [apply Hstep |].
  unfold Video.classify_frames.
  rewrite !length_app. simpl length.
  destruct (Z.of_nat _ <? 40); [reflexivity |].
  rewrite (count_frames_same_step (JDict d)
             (JDict (<["interlaced_frame" := JInt 0]> d))); [reflexivity |].
  intros m. rewrite Hstep, Hstep0. reflexivity.
Qed.

Lemma frame_without_flag_counts_zero_witness :
  let pre := (repeat (Sample.frame 0) 24 ++ repeat (Sample.frame 1) 8)%list in
  let post := repeat (Sample.frame 0) 7 in
  let d : gmap string json := {["media_type" := JStr "video"]} in
  d !! "interlaced_frame" = None /\
  Video.count_frame 8 (JDict d) = Ok 8 /\
  Video.classify_frames (pre ++ JDict d :: post)%list = Ok (Some "Telecined video").
Proof.
  intros pre post d.
  assert (Hd : d !! "interlaced_frame" = None) by reflexivity.
  destruct (frame_without_flag_counts_zero pre post d 8 Hd) as [Hcount Hclass].
  split; [exact Hd |]. split; [exact Hcount |].
  rewrite Hclass. vm_compute. reflexivity.
Defined.

(** ** Text *)

Lemma upper_lower_char (c : ascii) : upper_char (lower_char c) = upper_char c.
Proof. destruct c as [[] [] [] [] [] [] [] []]; reflexivity. Qed.

Lemma upper_lower (s : string) : upper (lower s) = upper s.
Proof.
  induction s as [|c s IH]; simpl; [reflexivity |].
  unfold upper, lower in *. simpl. rewrite upper_lower_char, IH. reflexivity.
Qed.

Lemma length_smap (f : ascii -> ascii) (s : string) :
  String.length (smap f s) = String.length s.
Proof. induction s as [|c s IH]; simpl; congruence. Qed.

Lemma substring_smap (f : ascii -> ascii) (s : string) :
  forall n m, substring n m (smap f s) = smap f (substring n m s).
Proof.
  induction s as [|c s IH]; intros [|n] [|m]; simpl; try reflexivity;
    rewrite IH; reflexivity.
Qed.

Lemma slice_from_smap (f : ascii -> ascii) (s : string) (i : Z) :
  slice_from (smap f s) i = smap f (slice_from s i).
Proof. unfold slice_from. rewrite length_smap. apply substring_smap. Qed.

Lemma extension_of_lower (path : string) :
  Video.extension_of path = lower (raw_extension path).
Proof. apply slice_from_smap. Qed.

Lemma upper_extension_of (path : string) :
  upper (Video.extension_of path) = upper (raw_extension path).
Proof. rewrite extension_of_lower. apply upper_lower. Qed.

Lemma eq_str_neq (s t : string) : s <> t -> eq_str (JStr s) t = false.
Proof. intros Hne. simpl. apply String.eqb_neq. exact Hne. Qed.

(** ** Container format *)

Ltac not_in_list H :=
  repeat (apply not_elem_of_cons in H;
          let Hne := fresh "Hne" in destruct H as [Hne H];
          try (apply String.eqb_neq in Hne; rewrite Hne)).

(** C4. Resolution of the container format from the identifier
    [format_name] and the extension of the path, lower-cased and without
    its period. The identifier of the MOV/MP4/3GP family gives "QuickTime
    movie", "3GPP", "3GPP2", "Motion JPEG 2000" by extension, and
    otherwise "MPEG-4 Part 14 (EXT)" with the extension in upper case; the
    identifier of Matroska/WebM gives "WebM" for the extension webm and
    "Matroska" otherwise; an identifier that is not in the table gives the
    extension in upper case. *)
Theorem container_format_resolution
    (ffprobe fmt : json) (tok path : string) :
  getitem ffprobe "format" = Ok fmt ->
  getitem fmt "format_name" = Ok (JStr tok) ->
  let ext := Video.extension_of path in
  let r := Video._get_format ffprobe path in
  ext = lower (raw_extension path) /\
  (tok = "mov,mp4,m4a,3gp,3g2,mj2" ->
     (ext = "mov" \/ ext = "qt" -> r = Ok "QuickTime movie") /\
     (ext = "3gp" -> r = Ok "3GPP") /\
     (ext = "3g2" -> r = Ok "3GPP2") /\
     (ext = "mj2" \/ ext = "mjp2" -> r = Ok "Motion JPEG 2000") /\
     (ext ∉ ["mov"; "qt"; "3gp"; "3g2"; "mj2"; "mjp2"] ->
      r = Ok ("MPEG-4 Part 14 (" +:+ upper (raw_extension path) +:+ ")"))) /\
  (tok = "matroska,webm" ->
     (ext = "webm" -> r = Ok "WebM") /\
     (ext <> "webm" -> r = Ok "Matroska")) /\
  (tok ∉ known_formats -> r = Ok (upper (raw_extension path))).
Proof.
  intros Hfmt Hname ext r.
  assert (Hr : r = Video._get_format ffprobe path) by reflexivity.
  unfold Video._get_format in Hr. rewrite Hfmt in Hr. simpl in Hr.
  rewrite Hname in Hr. simpl in Hr. fold ext in Hr.
  split; [apply extension_of_lower |].
  split; [| split].
  - intros ->. simpl in Hr.
    repeat split.
    + intros [He | He]; rewrite Hr, He; reflexivity.
    + intros He; rewrite Hr, He; reflexivity.
    + intros He; rewrite Hr, He; reflexivity.
    + intros [He | He]; rewrite Hr, He; reflexivity.
    + intros Hnot. rewrite Hr. unfold Video.str_in, existsb.
      not_in_list Hnot. simpl.
      unfold ext. rewrite upper_extension_of. reflexivity.
  - intros ->. simpl in Hr. split.
    + intros He. rewrite Hr, He. reflexivity.
    + intros Hne. rewrite Hr. unfold Video.str_in, existsb.
      apply String.eqb_neq in Hne. rewrite Hne. reflexivity.
  - intros Hnot. rewrite Hr. unfold known_formats in Hnot.
    not_in_list Hnot.
    unfold ext. rewrite upper_extension_of. reflexivity.
Qed.

Lemma container_format_resolution_witness :
  let ffprobe := Sample.container
    [("format_name", JStr "mov,mp4,m4a,3gp,3g2,mj2"); ("size", JStr "1")] [] in
  let fmt := Sample.dict
    [("format_name", JStr "mov,mp4,m4a,3gp,3g2,mj2"); ("size", JStr "1")] in
  getitem ffprobe "format" = Ok fmt /\
  getitem fmt "format_name" = Ok (JStr "mov,mp4,m4a,3gp,3g2,mj2") /\
  Video.extension_of "/home/user/Clip.M4V" = "m4v" /\
  Video._get_format ffprobe "/home/user/Clip.M4V" = Ok "MPEG-4 Part 14 (M4V)".
Proof.
  intros ffprobe fmt.
  assert (Hfmt : getitem ffprobe "format" = Ok fmt) by reflexivity.
  assert (Hname : getitem fmt "format_name" = Ok (JStr "mov,mp4,m4a,3gp,3g2,mj2"))
    by reflexivity.
  destruct (container_format_resolution ffprobe fmt _ "/home/user/Clip.M4V"
              Hfmt Hname) as (_ & Hmov & _ & _).
  destruct (Hmov eq_refl) as (_ & _ & _ & _ & Hother).
  split; [exact Hfmt |]. split; [exact Hname |]. split; [reflexivity |].
  rewrite Hother; [reflexivity |].
  vm_compute. intros Hin.
  repeat (apply elem_of_cons in Hin; destruct Hin as [Hin | Hin];
          [discriminate Hin |]).
  apply elem_of_nil in Hin. exact Hin.
Defined.

(** ** Required fields of the format record *)

Lemma get_size_missing {B : Builtins} {U : Util} (ffprobe : json) (fmt : gmap string json) :
  getitem ffprobe "format" = Ok (JDict fmt) ->
  fmt !! "size" = None ->
  Video._get_size ffprobe = Raise (KeyError "size").
Proof.
  intros Hfmt Hsize. unfold Video._get_size. rewrite Hfmt. simpl.
  rewrite Hsize. reflexivity.
Qed.

Lemma get_duration_missing {B : Builtins} {U : Util} (ffprobe : json) (fmt : gmap string json) :
  getitem ffprobe "format" = Ok (JDict fmt) ->
  fmt !! "duration" = None ->
  Video._get_duration ffprobe = Raise (KeyError "duration").
Proof.
  intros Hfmt Hduration. unfold Video._get_duration. rewrite Hfmt. simpl.
  rewrite Hduration. reflexivity.
Qed.

(** C7, as amended. For a format record without the key [size] or the key
    [duration], the construction of a [Video] raises and yields no object.
    The exception is the [KeyError] of the lookup, naming the missing key,
    once the steps that come before the lookup (title, format, and for
    [duration] also the size) have succeeded; the code has no class
    [MetadataError]. *)
Theorem missing_size_or_duration_fails {B : Builtins} {U : Util}
    (path filename : string) (ffprobe : json) (fmt : gmap string json)
    (frame_lines : list string) :
  getitem ffprobe "format" = Ok (JDict fmt) ->
  fmt !! "size" = None \/ fmt !! "duration" = None ->
  let r := Video.__init__ path filename ffprobe frame_lines in
  (exists e, r = Raise e) /\
  (forall title format,
     Video._get_title ffprobe = Ok title ->
     Video._get_format ffprobe path = Ok format ->
     (fmt !! "size" = None -> r = Raise (KeyError "size")) /\
     (forall sz, Video._get_size ffprobe = Ok sz ->
                 fmt !! "duration" = None -> r = Raise (KeyError "duration"))).
Proof.
  intros Hfmt Hmissing r. subst r. unfold Video.__init__. split.
  - destruct (Video._get_title ffprobe) as [title|e]; [| eauto].
    destruct (Video._get_format ffprobe path) as [format|e]; [| eauto].
    simpl.
    destruct (Video._get_size ffprobe) as [[size size_text]|e] eqn:Hsize;
      [| eauto].
    simpl.
    destruct Hmissing as [Hnone | Hnone].
    + rewrite (get_size_missing _ _ Hfmt Hnone) in Hsize. discriminate.
    + rewrite (get_duration_missing _ _ Hfmt Hnone). eauto.
  - intros title format -> ->. simpl. split.
    + intros Hnone. rewrite (get_size_missing _ _ Hfmt Hnone). reflexivity.
    + intros [size size_text] -> Hnone. simpl.
      rewrite (get_duration_missing _ _ Hfmt Hnone). reflexivity.
Qed.

Lemma missing_size_or_duration_fails_witness :
  let ffprobe := Sample.container
    [("format_name", JStr "avi"); ("duration", JStr "173")] [] in
  Video.__init__ (B := Sample.builtins) (U := Sample.util)
    "/home/user/clip.avi" "clip.avi" ffprobe Sample.no_frames
  = Raise (KeyError "size").
Proof.
  intros ffprobe.
  pose (fmt := list_to_map (M := gmap string json)
                 [("format_name", JStr "avi"); ("duration", JStr "173")]).
  assert (Hfmt : getitem ffprobe "format" = Ok (JDict fmt)) by reflexivity.
  assert (Hsize : fmt !! "size" = None) by reflexivity.
  destruct (missing_size_or_duration_fails (B := Sample.builtins) (U := Sample.util)
              "/home/user/clip.avi" "clip.avi" ffprobe fmt Sample.no_frames
              Hfmt (or_introl Hsize)) as [_ Hkey].
  destruct (Hkey JNull "Audio Video Interleaved" eq_refl eq_refl) as [Hraise _].
  exact (Hraise Hsize).
Defined.

(** C7, as stated, fails: a format record without [size] makes the
    construction raise [KeyError], not [MetadataError]. *)
Lemma missing_size_is_not_a_metadata_error :
  ~ (forall (B : Builtins) (U : Util) (path filename : string) (ffprobe : json)
            (fmt : gmap string json) (frame_lines : list string),
       getitem ffprobe "format" = Ok (JDict fmt) ->
       fmt !! "size" = None \/ fmt !! "duration" = None ->
       Video.__init__ path filename ffprobe frame_lines = Raise MetadataError).
Proof.
  intros Hclaim.
  pose (fields := [("format_name", JStr "avi"); ("duration", JStr "173")]).
  specialize (Hclaim Sample.builtins Sample.util "/home/user/clip.avi" "clip.avi"
                (Sample.container fields []) (list_to_map fields) Sample.no_frames
                eq_refl (or_introl eq_refl)).
  vm_compute in Hclaim. discriminate Hclaim.
Qed.

(** ** The report *)

Lemma rstrip_empty (s : string) : rstrip s = "" -> all_space s = true.
Proof.
  induction s as [|c s IH]; simpl; [reflexivity |].
  destruct (rstrip s) eqn:Hr; [| discriminate].
  destruct (is_space c); [intros _; simpl; apply IH; reflexivity | discriminate].
Qed.

Lemma rstrip_split (s : string) :
  exists ws, s = rstrip s +:+ ws /\ all_space ws = true.
Proof.
  induction s as [|c s (ws & Hs & Hws)]; simpl.
  - exists "". split; reflexivity.
  - destruct (rstrip s) as [|d r] eqn:Hr.
    + destruct (is_space c) eqn:Hc.
      * exists (String c s). split; [reflexivity |].
        simpl. rewrite Hc. simpl. apply rstrip_empty. exact Hr.
      * exists s. split; [reflexivity |]. apply rstrip_empty. exact Hr.
    + exists ws. split; [| exact Hws]. rewrite Hs at 1. reflexivity.
Qed.

Lemma rstrip_ends_clean (s : string) : ends_clean (rstrip s).
Proof.
  unfold ends_clean.
  induction s as [|c s IH]; simpl; intros x Hx; [discriminate |].
  destruct (rstrip s) as [|d r] eqn:Hr.
  - destruct (is_space c) eqn:Hc; simpl in Hx; [discriminate |].
    injection Hx as <-. exact Hc.
  - apply IH. exact Hx.
Qed.

Lemma strip_of_clean_start (c : ascii) (s : string) :
  is_space c = false -> strip (String c s) = rstrip (String c s).
Proof.
  intros Hc. unfold strip. simpl.
  destruct (rstrip s); rewrite ?Hc; simpl; rewrite Hc; reflexivity.
Qed.

Lemma append_streams_layout (l : list Stream.t) (idx : list Z) :
  Forall2 (fun s i => as_int (Stream.index s) = Ok i) l idx ->
  forall lines,
    Video.append_streams lines l = Ok (lines ++ zip_with stream_line l idx)%list.
Proof.
  induction 1 as [|s i l idx Hs _ IH]; intros lines; simpl.
  - rewrite app_nil_r. reflexivity.
  - rewrite Hs. simpl. rewrite IH. unfold append.
    rewrite <- app_assoc. reflexivity.
Qed.

Lemma append_if_optional (c : bool) (lines : list string) (line : string) :
  Video.append_if c lines line = (lines ++ optional c line)%list.
Proof. destruct c; simpl; [reflexivity | rewrite app_nil_r; reflexivity]. Qed.

Lemma report_lines_layout {B : Builtins} (v : Video.t) (include_sha1sum : bool)
    (idx : list Z) :
  Forall2 (fun s i => as_int (Stream.index s) = Ok i) (Video.streams v) idx ->
  Video.report_lines v include_sha1sum =
    Ok (layout v include_sha1sum idx,
        if include_sha1sum then snd (Video._get_sha1sum v) else v).
Proof.
  intros Hidx. unfold Video.report_lines, layout.
  assert (Hstreams : Video.streams
            (if include_sha1sum then snd (Video._get_sha1sum v) else v)
          = Video.streams v).
  { destruct include_sha1sum; [| reflexivity].
    unfold Video._get_sha1sum. destruct (Video.sha1sum v); reflexivity. }
  rewrite Hstreams, (append_streams_layout _ _ Hidx). simpl bind.
  f_equal. f_equal.
  rewrite !append_if_optional. unfold append.
  destruct include_sha1sum; unfold Video._get_sha1sum, digest_of;
    destruct (Video.sha1sum v) eqn:Hsha; simpl; rewrite ?Hsha;
    rewrite <- ?app_assoc; simpl; reflexivity.
Qed.

(** C9, as amended. The report lists, in this order, the title, the file
    name, the size, the digest when it is asked for, the format, the
    duration, the dimension, the aspect ratio, the scan type and the frame
    rate, then a line "Streams:" and one line per stream made of its index
    and its info string. The lines of the title, the dimension, the aspect
    ratio, the scan type and the frame rate are present exactly when the
    attribute that the code tests is true in a condition: not [None], not
    the empty string, and for the frame rate not zero. The text is the
    lines joined by newlines with the white space at its end removed
    (there is none at its start). *)
Theorem report_layout {B : Builtins} (v : Video.t) (include_sha1sum : bool)
    (idx : list Z) :
  Forall2 (fun s i => as_int (Stream.index s) = Ok i) (Video.streams v) idx ->
  let text := join (String "010" "") (layout v include_sha1sum idx) in
  Video.format_metadata v include_sha1sum =
    Ok (rstrip text, if include_sha1sum then snd (Video._get_sha1sum v) else v) /\
  (exists ws, text = rstrip text +:+ ws /\ all_space ws = true) /\
  ends_clean (rstrip text).
Proof.
  intros Hidx text. split; [| split].
  - unfold Video.format_metadata.
    rewrite (report_lines_layout _ _ _ Hidx). simpl bind. f_equal. f_equal.
    fold text. subst text. unfold layout.
    destruct (truthy (Video.title v)); simpl;
      apply strip_of_clean_start; reflexivity.
  - apply rstrip_split.
  - apply rstrip_ends_clean.
Qed.

Lemma indexes_of_map (l : list Stream.t) (idx : list Z) :
  map (fun s => as_int (Stream.index s)) l = map Ok idx ->
  Forall2 (fun s i => as_int (Stream.index s) = Ok i) l idx.
Proof.
  revert idx. induction l as [|s l IH]; intros [|i idx] Hmap;
    try discriminate Hmap; [constructor |].
  injection Hmap as Hs Hl. constructor; [exact Hs | apply IH; exact Hl].
Qed.

Lemma report_layout_witness :
  exists v,
    Sample.talk = Ok v /\
    Forall2 (fun s i => as_int (Stream.index s) = Ok i) (Video.streams v) [0; 1; 2] /\
    Video.format_metadata (B := Sample.builtins) v false =
      Ok (rstrip (join (String "010" "")
                    (layout (B := Sample.builtins) v false [0; 1; 2])), v).
Proof.
  assert (Hmap : (v ← Sample.talk;
                  Ok (map (fun s => as_int (Stream.index s)) (Video.streams v)))
                 = Ok (map Ok [0; 1; 2])) by (vm_compute; reflexivity).
  destruct Sample.talk as [v|e]; [| discriminate Hmap].
  injection Hmap as Hmap. apply (indexes_of_map _ [0; 1; 2]) in Hmap.
  exists v. split; [reflexivity |]. split; [exact Hmap |].
  exact (proj1 (report_layout (B := Sample.builtins) v false [0; 1; 2] Hmap)).
Defined.

(** C9, as stated, fails: a title that is the empty string is not null,
    and the report of the file has no title line. *)
Lemma empty_title_line_is_omitted :
  ~ (forall (B : Builtins) (U : Util) (path filename : string) (ffprobe : json)
            (frame_lines : list string) (v v' : Video.t) (include_sha1sum : bool)
            (lines : list string),
       Video.__init__ path filename ffprobe frame_lines = Ok v ->
       Video.report_lines v include_sha1sum = Ok (lines, v') ->
       (("Title:                  " +:+ str (Video.title v)) ∈ lines <->
        is_none (Video.title v) = false)).
Proof.
  intros Hclaim.
  assert (Hrun : (v ← Sample.untitled;
                  '(lines, _) ← Video.report_lines (B := Sample.builtins) v false;
                  Ok (Video.title v, lines))
                 = Ok (JStr "",
                       ["Filename:               song.ogg";
                        "File size:              1536 (1.5KiB)";
                        "Container format:       Ogg";
                        "Duration:               00:01:01.00";
                        "Streams:";
                        "    #2: Audio (eng), Vorbis"]))
    by (vm_compute; reflexivity).
  destruct Sample.untitled as [v|e] eqn:Hv; [| discriminate Hrun].
  simpl in Hrun.
  destruct (Video.report_lines (B := Sample.builtins) v false)
    as [[lines v']|e] eqn:Hlines; [| discriminate Hrun].
  simpl in Hrun. injection Hrun as Htitle Hlist.
  specialize (Hclaim Sample.builtins Sample.util _ _ _ _ v v' false lines Hv Hlines).
  rewrite Htitle, Hlist in Hclaim.
  apply proj2 in Hclaim. specialize (Hclaim eq_refl).
  repeat (apply elem_of_cons in Hclaim; destruct Hclaim as [Hclaim | Hclaim];
          [discriminate Hclaim |]).
  apply elem_of_nil in Hclaim. exact Hclaim.
Qed.

(** ** Mirrored attributes *)

Ltac run H :=
  repeat match type of H with
  | bind ?c _ = Ok _ =>
      let E := fresh "E" in
      destruct c eqn:E; simpl in H; [| discriminate H]
  | (let '(_, _) := ?p in _) = Ok _ => destruct p; simpl in H
  | (if ?b then _ else _) = Ok _ =>
      let E := fresh "E" in
      destruct b eqn:E; simpl in H; try discriminate H
  end.

Lemma video_dar_is_set {U : Util} (sdict : json) (w h : Z) (dar : option float) (text : json) :
  Video.video_dar sdict w h = Ok (dar, text) -> is_set dar = true.
Proof.
  unfold Video.video_dar. intros Hrun.
  bind_inv Hrun as has Hhas.
  bind_inv Hrun as [x|] Hx.
  - bind_inv Hrun as t Ht. injection Hrun as <- _. reflexivity.
  - destruct (gcd w h =? 0); [discriminate Hrun |].
    bind_inv Hrun as d Hd. injection Hrun as <- _. reflexivity.
Qed.

Lemma video_frame_rate_text_none (text : option string) :
  Video.video_frame_rate_text None = Ok text -> text = None.
Proof. simpl. congruence. Qed.

Lemma process_video_stream_effect {B : Builtins} {U : Util}
    (self : Video.t) (sdict : json) (s : Stream.t) (self' : Video.t) :
  Video._process_video_stream self sdict = Ok (s, self') ->
  effect self s self' /\ is_video s = true.
Proof.
  unfold Video._process_video_stream. intros Hrun.
  bind_inv Hrun as codec_type Hcodec_type.
  destruct (negb (eq_str codec_type "video")); [discriminate Hrun |].
  bind_inv Hrun as codec Hcodec.
  bind_inv Hrun as width Hwidth.
  bind_inv Hrun as height Hheight.
  bind_inv Hrun as w Hw.
  bind_inv Hrun as h Hh.
  bind_inv Hrun as [dar dar_text] Hdar.
  bind_inv Hrun as frame_rate Hrate.
  bind_inv Hrun as frame_rate_text Htext.
  bind_inv Hrun as [bit_rate bit_rate_text] Hbit.
  injection Hrun as <- <-.
  apply video_dar_is_set in Hdar.
  split; [| reflexivity].
  unfold effect, updated, is_video.
  destruct (Video.dimension self) eqn:Hd, (Video.dar self) eqn:Hr,
    (Video.frame_rate self) eqn:Hf;
    simpl; rewrite ?Hd, ?Hr, ?Hf; simpl; rewrite ?Hd, ?Hr, ?Hf; simpl;
    rewrite ?Hd, ?Hr, ?Hf;
    (repeat split; try reflexivity;
     [ intros _ ->; apply video_frame_rate_text_none; exact Htext
     | exact Hdar ]).
Qed.

Lemma effect_of_other (self : Video.t) (s : Stream.t) :
  is_video s = false -> effect self s self.
Proof.
  intros Hs. unfold effect, updated. rewrite Hs. simpl.
  repeat split; try discriminate.
  - destruct (Video.dimension self); reflexivity.
  - destruct (Video.dar self); reflexivity.
  - destruct (Video.frame_rate self); reflexivity.
Qed.

Lemma effect_set_index (self : Video.t) (s : Stream.t) (self' : Video.t) (i : json) :
  effect self s self' -> effect self (Stream.set_index s i) self'.
Proof. intros Heffect. exact Heffect. Qed.

Lemma process_stream_effect {B : Builtins} {U : Util}
    (self : Video.t) (stream_dict : json) (s : Stream.t) (self' : Video.t) :
  Video._process_stream self stream_dict = Ok (s, self') ->
  effect self s self'.
Proof.
  unfold Video._process_stream. intros Hrun.
  bind_inv Hrun as has_type Hhas.
  bind_inv Hrun as [stream self1] Hbranch.
  bind_inv Hrun as index Hindex. injection Hrun as <- <-.
  apply effect_set_index.
  destruct (negb has_type).
  - injection Hbranch as <- <-. apply effect_of_other. reflexivity.
  - bind_inv Hbranch as codec_type Hcodec_type.
    destruct (eq_str codec_type "video") eqn:Hvideo.
    { apply process_video_stream_effect in Hbranch. apply Hbranch. }
    destruct (eq_str codec_type "audio").
    { bind_inv Hbranch as s Hs. injection Hbranch as <- <-.
      apply effect_of_other.
      unfold Video._process_audio_stream in Hs. run Hs.
      injection Hs as <-. reflexivity. }
    destruct (eq_str codec_type "subtitle").
    { bind_inv Hbranch as s Hs. injection Hbranch as <- <-.
      apply effect_of_other.
      unfold Video._process_subtitle_stream in Hs. run Hs.
      injection Hs as <-. reflexivity. }
    injection Hbranch as <- <-. apply effect_of_other. exact Hvideo.
Qed.

Lemma first_video_is_set {A : Type} (value : Stream.t -> option A)
    (l : list Stream.t) (s : Stream.t) :
  first_video value l = Some s -> is_set (value s) = true.
Proof.
  induction l as [|x l IH]; simpl; [discriminate |].
  destruct (is_video x && is_set (value x)) eqn:Hx.
  - intros [= <-]. apply andb_true_iff in Hx. apply Hx.
  - exact IH.
Qed.

Lemma first_video_snoc {A : Type} (value : Stream.t -> option A)
    (l : list Stream.t) (s : Stream.t) :
  first_video value (l ++ [s])%list =
    match first_video value l with
    | Some x => Some x
    | None => if is_video s && is_set (value s) then Some s else None
    end.
Proof.
  induction l as [|x l IH]; simpl; [reflexivity |].
  destruct (is_video x && is_set (value x)); [reflexivity | exact IH].
Qed.

(** One pair keeps matching the streams when a stream is appended. *)
Lemma mirror_step {A B : Type} (value : Stream.t -> option A)
    (text : Stream.t -> B) (none : B) (l : list Stream.t) (s : Stream.t)
    (old new : option A * B) :
  old = mirror_of value text none l ->
  updated old new (is_video s) (value s, text s) ->
  (is_video s = true -> value s = None -> text s = none) ->
  new = mirror_of value text none (l ++ [s])%list.
Proof.
  unfold updated, mirror_of. intros -> -> Hnone.
  rewrite first_video_snoc.
  destruct (first_video value l) as [x|] eqn:Hfirst; simpl.
  - apply first_video_is_set in Hfirst.
    destruct (value x); [reflexivity | discriminate Hfirst].
  - destruct (is_video s); simpl; [| reflexivity].
    destruct (value s) eqn:Hvalue; simpl; [rewrite Hvalue; reflexivity |].
    rewrite Hnone; reflexivity.
Qed.

Lemma effect_keeps_mirrors (self : Video.t) (s : Stream.t) (self' : Video.t) :
  mirrors_streams self ->
  effect self s self' ->
  mirrors_streams (Video.set_streams self' (append (Video.streams self') s)).
Proof.
  intros (Hdim & Hdar & Hrate) (Hstreams & Udim & Udar & Urate & Hnone & Hset).
  unfold mirrors_streams, append. simpl. rewrite Hstreams.
  split; [| split].
  - apply (mirror_step _ _ _ _ _ _ _ Hdim Udim).
    intros Hvideo Hvalue. apply Hset in Hvideo. rewrite Hvalue in Hvideo.
    destruct Hvideo as [Hvideo _]. discriminate Hvideo.
  - apply (mirror_step _ _ _ _ _ _ _ Hdar Udar).
    intros Hvideo Hvalue. apply Hset in Hvideo. rewrite Hvalue in Hvideo.
    destruct Hvideo as [_ Hvideo]. discriminate Hvideo.
  - apply (mirror_step _ _ _ _ _ _ _ Hrate Urate). exact Hnone.
Qed.

Lemma process_each_mirrors {B : Builtins} {U : Util} (records : list json) :
  forall self self',
    mirrors_streams self ->
    Video.process_each self records = Ok self' ->
    mirrors_streams self'.
Proof.
  induction records as [|record rest IH]; intros self self' Hinv Hrun;
    simpl in Hrun.
  - injection Hrun as <-. exact Hinv.
  - bind_inv Hrun as [s self1] Hstep.
    apply process_stream_effect in Hstep.
    apply (IH _ _ (effect_keeps_mirrors _ _ _ Hinv Hstep) Hrun).
Qed.

(** C2. In every [Video] that the constructor returns, the dimension, the
    aspect ratio and the frame rate, each with its text, are those of the
    first stream, in the order of the probe, that is a video stream and
    has the attribute set, and they are [None] when there is no such
    stream. Processing one more stream record leaves a pair that is
    already set as it is, whatever the attributes of the new stream. *)
Theorem mirrors_follow_first_video_stream {B : Builtins} {U : Util}
    (path filename : string) (ffprobe : json) (frame_lines : list string)
    (v : Video.t) :
  Video.__init__ path filename ffprobe frame_lines = Ok v ->
  mirrors_streams v /\
  (forall (stream_dict : json) (s : Stream.t) (v' : Video.t),
     Video._process_stream v stream_dict = Ok (s, v') ->
     (is_set (Video.dimension v) = true ->
      (Video.dimension v', Video.dimension_text v')
        = (Video.dimension v, Video.dimension_text v)) /\
     (is_set (Video.dar v) = true ->
      (Video.dar v', Video.dar_text v') = (Video.dar v, Video.dar_text v)) /\
     (is_set (Video.frame_rate v) = true ->
      (Video.frame_rate v', Video.frame_rate_text v')
        = (Video.frame_rate v, Video.frame_rate_text v))).
Proof.
  intros Hrun. split.
  - unfold Video.__init__ in Hrun.
    bind_inv Hrun as title Htitle.
    bind_inv Hrun as format Hformat.
    bind_inv Hrun as [size size_text] Hsize.
    bind_inv Hrun as [duration duration_text] Hduration.
    bind_inv Hrun as self Hstreams.
    unfold Video._process_streams in Hstreams.
    bind_inv Hstreams as streams Hget.
    bind_inv Hstreams as records Hrecords.
    apply process_each_mirrors in Hstreams; [| repeat split].
    destruct (negb _); [| bind_inv Hrun as scan_type Hscan];
      injection Hrun as <-; exact Hstreams.
  - intros stream_dict s v' Hstep.
    apply process_stream_effect in Hstep.
    destruct Hstep as (_ & Udim & Udar & Urate & _).
    unfold updated in *. simpl in *.
    repeat split; intros Hset.
    + destruct (Video.dimension v); [exact Udim | discriminate Hset].
    + destruct (Video.dar v); [exact Udar | discriminate Hset].
    + destruct (Video.frame_rate v); [exact Urate | discriminate Hset].
Qed.

Lemma mirrors_follow_first_video_stream_witness :
  exists v,
    Sample.talk = Ok v /\
    mirrors_streams v /\
    Video.dimension_text v = Some "1920x1080" /\
    Video.dar_text v = JStr "16:9" /\
    Video.frame_rate_text v = Some "23.98 fps" /\
    (Stream.dimension_text <$> Video.streams v)
      = [Some "1920x1080"; Some "640x480"; None].
Proof.
  assert (Hrun : (v ← Sample.talk;
                  Ok (Video.dimension_text v, Video.dar_text v,
                      Video.frame_rate_text v,
                      Stream.dimension_text <$> Video.streams v))
                 = Ok (Some "1920x1080", JStr "16:9", Some "23.98 fps",
                       [Some "1920x1080"; Some "640x480"; None]))
    by (vm_compute; reflexivity).
  destruct Sample.talk as [v|e] eqn:Hv; [| discriminate Hrun].
  injection Hrun as Hdim Hdar Hrate Hstreams.
  exists v. split; [reflexivity |].
  split; [| repeat split; assumption].
  apply (mirrors_follow_first_video_stream (B := Sample.builtins) (U := Sample.util)
           _ _ _ _ v Hv).
Defined.

(** ** Display aspect ratio *)

(** The loop of [fractions.gcd] computes the greatest common divisor, and
    its unrolling is long enough: any larger one gives the same value. *)
Lemma gcd_loop_correct (fuel : nat) :
  forall a b, 0 <= a -> 0 <= b -> (Z.to_nat b < fuel)%nat ->
              gcd_loop fuel a b = Z.gcd a b.
Proof.
  induction fuel as [|fuel IH]; intros a b Ha Hb Hfuel; [lia |].
  simpl. destruct (Z.eqb_spec b 0) as [->|Hne].
  - rewrite Z.gcd_0_r. lia.
  - assert (Hmod : 0 <= a mod b < b) by (apply Z.mod_pos_bound; lia).
    rewrite IH by lia.
    rewrite Z.gcd_comm, Z.gcd_mod by exact Hne. apply Z.gcd_comm.
Qed.

Lemma gcd_correct (a b : Z) : 0 <= a -> 0 <= b -> gcd a b = Z.gcd a b.
Proof.
  intros Ha Hb. unfold gcd. apply gcd_loop_correct; lia.
Qed.

Lemma reduced_positive (w h : Z) :
  0 < w -> 0 < h ->
  0 < Z.gcd w h /\ 0 < w / Z.gcd w h /\ 0 < h / Z.gcd w h /\
  Z.gcd (w / Z.gcd w h) (h / Z.gcd w h) = 1.
Proof.
  intros Hw Hh.
  assert (Hg : 0 < Z.gcd w h).
  { pose proof (Z.gcd_nonneg w h).
    assert (Z.gcd w h <> 0) by (intros H0; apply Z.gcd_eq_0_l in H0; lia).
    lia. }
  destruct (Z.gcd_divide_l w h) as [p Hp], (Z.gcd_divide_r w h) as [q Hq].
  split; [exact Hg |].
  assert (Hwq : w / Z.gcd w h = p)
    by (rewrite Hp at 1; apply Z.div_mul; lia).
  assert (Hhq : h / Z.gcd w h = q)
    by (rewrite Hq at 1; apply Z.div_mul; lia).
  assert (Hcop : Z.gcd (w / Z.gcd w h) (h / Z.gcd w h) = 1)
    by (apply Z.gcd_div_gcd; [lia | reflexivity]).
  rewrite Hwq, Hhq in *. repeat split; try exact Hcop; nia.
Qed.

(** C8. For a video stream record of positive width [w] and height [h]
    that has no display aspect ratio, or one that does not evaluate, the
    aspect ratio of the stream is the quotient, under true division, of
    [w] and [h] divided by their greatest common divisor, and its text is
    the two reduced numbers around a colon. The two reduced numbers are
    positive and have no common divisor, so that the division is by a
    number that is not zero. *)
Theorem dar_from_reduced_dimension {B : Builtins} {U : Util}
    (self : Video.t) (sdict width height : json) (w h : Z) :
  getitem sdict "width" = Ok width -> as_int width = Ok w ->
  getitem sdict "height" = Ok height -> as_int height = Ok h ->
  0 < w -> 0 < h ->
  no_aspect_ratio sdict ->
  let rw := w / Z.gcd w h in
  let rh := h / Z.gcd w h in
  let text := JStr (fmt_d rw +:+ ":" +:+ fmt_d rh) in
  (0 < rw /\ 0 < rh /\ Z.gcd rw rh = 1) /\
  Video.video_dar sdict w h = (d ← int_truediv rw rh; Ok (Some d, text)) /\
  (forall s self',
     Video._process_video_stream self sdict = Ok (s, self') ->
     int_truediv rw rh = Ok (default (S754_zero false) (Stream.dar s)) /\
     is_set (Stream.dar s) = true /\
     Stream.dar_text s = text).
Proof.
  intros Hwidth Hw Hheight Hh Wpos Hpos Hnone rw rh text.
  destruct (reduced_positive w h Wpos Hpos) as (Hg & Hrw & Hrh & Hcop).
  assert (Hdar : Video.video_dar sdict w h
                 = (d ← int_truediv rw rh; Ok (Some d, text))).
  { unfold Video.video_dar.
    assert (Hfall : (has ← contains "display_aspect_ratio" sdict;
                     (if has
                      then v ← getitem sdict "display_aspect_ratio";
                           evaluate_ratio v
                      else Ok None)) = Ok None).
    { destruct Hnone as [Habsent | (v & Hhas & Hget & Heval)].
      - rewrite Habsent. reflexivity.
      - rewrite Hhas. simpl. rewrite Hget. simpl. exact Heval. }
    destruct (contains "display_aspect_ratio" sdict) as [has|e];
      [| discriminate Hfall].
    simpl in Hfall |- *. rewrite Hfall. simpl.
    rewrite gcd_correct by lia.
    destruct (Z.eqb_spec (Z.gcd w h) 0) as [H0|_]; [lia |]. reflexivity. }
  split; [auto |]. split; [exact Hdar |].
  intros s self' Hrun. unfold Video._process_video_stream in Hrun.
  bind_inv Hrun as codec_type Hcodec_type.
  destruct (negb (eq_str codec_type "video")); [discriminate Hrun |].
  bind_inv Hrun as codec Hcodec.
  rewrite Hwidth in Hrun. cbn [bind] in Hrun.
  rewrite Hheight in Hrun. cbn [bind] in Hrun.
  rewrite Hw in Hrun. cbn [bind] in Hrun.
  rewrite Hh in Hrun. cbn [bind] in Hrun.
  rewrite Hdar in Hrun.
  destruct (int_truediv rw rh) as [d|e]; [| discriminate Hrun].
  cbn [bind] in Hrun.
  bind_inv Hrun as frame_rate Hrate.
  bind_inv Hrun as frame_rate_text Htext.
  bind_inv Hrun as [bit_rate bit_rate_text] Hbit.
  injection Hrun as <- _. simpl. auto.
Qed.

(** The example of C8: a stream of 1920 by 1080 without
    [display_aspect_ratio] has the text "16:9" and the float nearest to
    16/9, which is 8006399337547548 / 2^52. *)
Lemma dar_from_reduced_dimension_witness :
  let sdict := Sample.dict [("codec_type", JStr "video");
                            ("width", JInt 1920); ("height", JInt 1080)] in
  getitem sdict "width" = Ok (JInt 1920) /\
  getitem sdict "height" = Ok (JInt 1080) /\
  no_aspect_ratio (U := Sample.util) sdict /\
  Video.video_dar (U := Sample.util) sdict 1920 1080
    = Ok (Some (S754_finite false 8006399337547548 (-52)), JStr "16:9") /\
  int_truediv 16 9 = Ok (S754_finite false 8006399337547548 (-52)) /\
  Z.abs (9 * 8006399337547548 - 16 * 2 ^ 52) * 2 <= 9.
Proof.
  intros sdict.
  assert (Hnone : no_aspect_ratio (U := Sample.util) sdict)
    by (left; reflexivity).
  pose proof (dar_from_reduced_dimension (B := Sample.builtins) (U := Sample.util)
                Sample.blank sdict (JInt 1920) (JInt 1080) 1920 1080
                eq_refl eq_refl eq_refl eq_refl eq_refl eq_refl Hnone) as Hmain.
  cbv zeta in Hmain. destruct Hmain as (_ & Hdar & _).
  split; [reflexivity |]. split; [reflexivity |]. split; [exact Hnone |].
  split; [rewrite Hdar; vm_compute; reflexivity |].
  split; vm_compute; [reflexivity | discriminate].
Defined.

(** ** Frame rate with a zero denominator *)

(** In the flat extractor, the text of a rational whose denominator is
    zero makes the frame rate block raise. *)
Lemma legacy_zero_denominator {B : Builtins} (stream : json) (text : string) (n : Z) :
  contains "r_frame_rate" stream = Ok true ->
  getitem stream "r_frame_rate" = Ok (JStr text) ->
  parse_expr text = Some (EDiv n 0) ->
  Legacy.video_frame_rate stream = Raise ZeroDivisionError.
Proof.
  intros Hhas Hget Hparse. unfold Legacy.video_frame_rate.
  rewrite Hhas. cbn [bind]. rewrite Hget. cbn [bind].
  unfold eval. rewrite Hparse. simpl. destruct n; reflexivity.
Qed.

(** The packaged extractor leaves the evaluation to [util.evaluate_ratio];
    with that helper as the description has it, the same text gives a
    frame rate that is [None]. *)
Lemma packaged_zero_denominator (stream : json) (text : string) (n : Z) :
  contains "r_frame_rate" stream = Ok true ->
  getitem stream "r_frame_rate" = Ok (JStr text) ->
  parse_expr text = Some (EDiv n 0) ->
  Video.video_frame_rate (U := Sample.util) stream = Ok None.
Proof.
  intros Hhas Hget Hparse. unfold Video.video_frame_rate.
  rewrite Hhas. cbn [bind]. rewrite Hget. cbn [bind].
  simpl. unfold Sample.evaluate_ratio. rewrite Hparse. reflexivity.
Qed.

(** C5 fails on the flat extractor: on a stream record whose frame rate is
    the text 0/0, [_process_stream] raises [ZeroDivisionError], and so does
    the extraction of the streams of a file that holds it; the packaged
    extractor, with [evaluate_ratio] as the description has it, returns a
    stream whose frame rate is [None]. *)
Theorem legacy_zero_denominator_crashes :
  Legacy._process_stream (B := Sample.builtins) stream_without_rate
    = Raise ZeroDivisionError /\
  Legacy._extract_streams (B := Sample.builtins)
      (Sample.container Sample.format_full [stream_without_rate])
    = Raise ZeroDivisionError /\
  ('(s, _) ← Video._process_stream (B := Sample.builtins) (U := Sample.util)
               Sample.blank stream_without_rate;
   Ok (Stream.frame_rate s, Stream.frame_rate_text s, Stream.info_string s))
    = Ok (None, None, Some "Video, MJPEG, 428x240 (DAR 107:60)").
Proof. repeat split; vm_compute; reflexivity. Qed.

(** ** Human-readable size *)

(** The loop, entered with [tmp] after [k] divisions and the prefixes from
    the [k]-th on, either raises what a conversion raises or ends on a
    scaling. *)
Lemma size_human_loop_scaling (size : Z) (us : list string) :
  forall (k : nat) (tmp : num),
    (k + length us = 8)%nat ->
    us = drop k Legacy.units ->
    scaled size k = Ok tmp ->
    (forall j t, (j < k)%nat -> scaled size j = Ok t ->
                 num_lt_float t f1024 = false) ->
    forall text, Legacy.size_human_loop us tmp = Ok text -> scaling_of size text.
Proof.
  induction us as [|u us IH]; intros k tmp Hlen Hus Hk Hbefore text Hrun;
    simpl in Hrun.
  - bind_inv Hrun as digits Hdigits. injection Hrun as <-.
    simpl in Hlen. assert (k = 8%nat) by lia. subst k.
    exists 8%nat, tmp, digits. repeat split; auto; lia.
  - destruct (num_lt_float tmp f1024) eqn:Hlt.
    + bind_inv Hrun as digits Hdigits. injection Hrun as <-.
      exists k, tmp, digits. simpl in Hlen.
      repeat split; auto; try lia.
      f_equal. f_equal. unfold all_units.
      rewrite app_nth1 by (simpl; lia).
      assert (Hnth : nth k Legacy.units "" = u); [| rewrite Hnth; reflexivity].
      { rewrite <- (take_drop k Legacy.units) at 1. rewrite <- Hus.
        rewrite app_nth2 by (rewrite length_take; simpl; lia).
        rewrite length_take. simpl length.
        replace (k - k `min` 8)%nat with 0%nat by lia. reflexivity. }
    + bind_inv Hrun as q Hq.
      apply (IH (S k) (NFloat q)); simpl in Hlen; try lia; auto.
      * replace (S k) with (k + 1)%nat by lia.
        rewrite <- drop_drop, <- Hus. reflexivity.
      * simpl. rewrite Hk. cbn [bind]. rewrite Hq. reflexivity.
      * intros j t Hj Hscaled.
        destruct (Nat.eq_dec j k) as [->|Hne].
        { rewrite Hk in Hscaled. injection Hscaled as <-. exact Hlt. }
        apply (Hbefore j t); [lia | exact Hscaled].
Qed.

(** The loop returns whenever the size converts to a float. *)
Lemma size_human_loop_returns (us : list string) :
  forall tmp,
    (forall n, tmp = NInt n -> exists x, float_of_int n = Ok x) ->
    exists text, Legacy.size_human_loop us tmp = Ok text.
Proof.
  induction us as [|u us IH]; intros tmp Hconv; simpl.
  - destruct tmp as [n|y]; simpl; [| eauto].
    destruct (Hconv n eq_refl) as [x ->]. simpl. eauto.
  - destruct (num_lt_float tmp f1024).
    + destruct tmp as [n|y]; simpl; [| eauto].
      destruct (Hconv n eq_refl) as [x ->]. simpl. eauto.
    + destruct tmp as [n|y]; simpl.
      * destruct (Hconv n eq_refl) as [x ->]. simpl.
        apply IH. intros m Hm. discriminate Hm.
      * apply IH. intros m Hm. discriminate Hm.
Qed.

(** C6, as amended. For a byte count that converts to a float, the text is
    ['%.1f' % tmp] followed by a prefix and "B", where [tmp] is the count
    after [k] divisions by 1024.0 and the prefix is the [k]-th of "", Ki,
    Mi, Gi, Ti, Pi, Ei, Zi, Yi: [k] is the least number of divisions after
    which [tmp] is below 1024.0, and 8, the rank of Yi, when there is
    none. In particular 0 gives "0.0B", 1024 "1.0KiB", 1536 "1.5KiB" and
    1024^8 "1.0YiB", and a count above the range of Yi still has the
    prefix Yi. *)
Theorem size_human_scaling (size : Z) (x : float) :
  0 <= size ->
  float_of_int size = Ok x ->
  (exists text, Legacy.size_human size = Ok text /\ scaling_of size text) /\
  Legacy.size_human 0 = Ok "0.0B" /\
  Legacy.size_human 1024 = Ok "1.0KiB" /\
  Legacy.size_human 1536 = Ok "1.5KiB" /\
  Legacy.size_human (1024 ^ 8) = Ok "1.0YiB" /\
  Legacy.size_human (1024 ^ 10) = Ok "1048576.0YiB".
Proof.
  intros Hsize Hconv. split.
  - destruct (size_human_loop_returns Legacy.units (NInt size)) as [text Htext].
    { intros n [= <-]. eauto. }
    exists text. split; [exact Htext |].
    apply (size_human_loop_scaling size Legacy.units 0 (NInt size));
      try reflexivity; [| exact Htext].
    intros j t Hj. lia.
  - repeat split; vm_compute; reflexivity.
Qed.

Lemma size_human_scaling_witness :
  0 <= 8687494 /\
  float_of_int 8687494 = Ok (S754_finite false 4664062826774528 (-29)) /\
  exists text, Legacy.size_human 8687494 = Ok text /\ scaling_of 8687494 text.
Proof.
  assert (Hsize : 0 <= 8687494) by lia.
  assert (Hconv : float_of_int 8687494
                  = Ok (S754_finite false 4664062826774528 (-29)))
    by (vm_compute; reflexivity).
  split; [exact Hsize |]. split; [exact Hconv |].
  exact (proj1 (size_human_scaling 8687494 _ Hsize Hconv)).
Defined.

(** C6, as stated, fails: a byte count that is too large for a float has
    no text at all, its first division raises [OverflowError]. *)
Lemma size_human_overflows :
  ~ (forall size, 0 <= size -> exists text, Legacy.size_human size = Ok text).
Proof.
  intros Hclaim.
  destruct (Hclaim (2 ^ 1024) ltac:(lia)) as [text Htext].
  vm_compute in Htext. discriminate Htext.
Qed.

(** ** Binary64 arithmetic *)

(** The operations of the standard library round; the lemmas of this
    section establish the cases in which they are exact, which are those
    that the test on the frame rate goes through. *)

Lemma digits_size (m : positive) : digits2_pos m = Pos.size m.
Proof. induction m; simpl; congruence. Qed.

Lemma D_bounds (m : positive) : 2 ^ (D m - 1) <= Zpos m < 2 ^ D m.
Proof.
  unfold D. rewrite digits_size.
  induction m as [m IH|m IH|]; simpl Pos.size.
  - rewrite Pos2Z.inj_succ.
    replace (Z.succ (Z.pos (Pos.size m)) - 1) with (Z.succ (Z.pos (Pos.size m) - 1)) by lia.
    rewrite !Z.pow_succ_r by lia. lia.
  - rewrite Pos2Z.inj_succ.
    replace (Z.succ (Z.pos (Pos.size m)) - 1) with (Z.succ (Z.pos (Pos.size m) - 1)) by lia.
    rewrite !Z.pow_succ_r by lia. lia.
  - simpl. lia.
Qed.

Lemma D_pos (m : positive) : 1 <= D m.
Proof. unfold D. lia. Qed.

Lemma D_unique (m : positive) (d : Z) :
  2 ^ (d - 1) <= Zpos m < 2 ^ d -> D m = d.
Proof.
  intros [Hlo Hhi]. pose proof (D_bounds m) as [Lo Hi]. pose proof (D_pos m).
  assert (0 < d).
  { destruct (Z.ltb_spec 0 d); [assumption |].
    rewrite (Z.pow_neg_r 2 (d - 1)) in Hlo by lia.
    destruct (Z.eq_dec d 0) as [->|]; [simpl in Hhi; lia |].
    rewrite Z.pow_neg_r in Hhi by lia. lia. }
  destruct (Z.lt_trichotomy (D m) d) as [Hlt | [Heq | Hgt]]; [| exact Heq |].
  - assert (2 ^ D m <= 2 ^ (d - 1)) by (apply Z.pow_le_mono_r; lia). lia.
  - assert (2 ^ d <= 2 ^ (D m - 1)) by (apply Z.pow_le_mono_r; lia). lia.
Qed.

Lemma iter_xO (d m : positive) : Zpos (Pos.iter xO m d) = Zpos m * 2 ^ Zpos d.
Proof.
  induction d as [|d IH] using Pos.peano_ind.
  - simpl. lia.
  - rewrite Pos.iter_succ, Pos2Z.inj_succ, Z.pow_succ_r by lia.
    rewrite Pos2Z.inj_xO, IH. lia.
Qed.

Lemma D_shift (m k : positive) (p : Z) :
  0 <= p -> Zpos k = Zpos m * 2 ^ p -> D k = D m + p.
Proof.
  intros Hp Hk. apply D_unique. pose proof (D_bounds m) as [Lo Hi].
  pose proof (D_pos m).
  replace (D m + p - 1) with (D m - 1 + p) by lia.
  rewrite !Z.pow_add_r by lia. rewrite Hk.
  assert (0 < 2 ^ p) by (apply Z.pow_pos_nonneg; lia). nia.
Qed.

Lemma pow2_xO (p : positive) : 2 ^ Zpos p~0 = 2 ^ Zpos p * 2 ^ Zpos p.
Proof.
  replace (Zpos p~0) with (Zpos p + Zpos p) by lia.
  apply Z.pow_add_r; lia.
Qed.

Lemma pow2_xI (p : positive) : 2 ^ Zpos p~1 = 2 * (2 ^ Zpos p * 2 ^ Zpos p).
Proof.
  replace (Zpos p~1) with (Z.succ (Zpos p + Zpos p)) by lia.
  rewrite Z.pow_succ_r, Z.pow_add_r by lia. reflexivity.
Qed.

Lemma shr_1_even (q : positive) :
  shr_1 {| shr_m := Zpos q~0; shr_r := false; shr_s := false |}
  = {| shr_m := Zpos q; shr_r := false; shr_s := false |}.
Proof. reflexivity. Qed.

Lemma shr_exact (p : positive) :
  forall m : positive,
    SpecFloat.iter_pos shr_1 p {| shr_m := Zpos m * 2 ^ Zpos p; shr_r := false; shr_s := false |}
    = {| shr_m := Zpos m; shr_r := false; shr_s := false |}.
Proof.
  induction p as [p IH|p IH|]; intros m.
  - change (SpecFloat.iter_pos shr_1 p~1 ?x)
      with (SpecFloat.iter_pos shr_1 p (SpecFloat.iter_pos shr_1 p (shr_1 x))).
    replace (Zpos m * 2 ^ Zpos p~1) with (Zpos (m * 2 ^ p * 2 ^ p)~0)
      by (rewrite pow2_xI, Pos2Z.inj_xO, !Pos2Z.inj_mul, !Pos2Z.inj_pow; lia).
    rewrite shr_1_even.
    replace (Zpos (m * 2 ^ p * 2 ^ p)) with (Zpos (m * 2 ^ p) * 2 ^ Zpos p)
      by (rewrite !Pos2Z.inj_mul, !Pos2Z.inj_pow; lia).
    rewrite IH.
    replace (Zpos (m * 2 ^ p)) with (Zpos m * 2 ^ Zpos p)
      by (rewrite !Pos2Z.inj_mul, !Pos2Z.inj_pow; lia).
    apply IH.
  - change (SpecFloat.iter_pos shr_1 p~0 ?x) with (SpecFloat.iter_pos shr_1 p (SpecFloat.iter_pos shr_1 p x)).
    replace (Zpos m * 2 ^ Zpos p~0) with (Zpos (m * 2 ^ p) * 2 ^ Zpos p)
      by (rewrite pow2_xO, Pos2Z.inj_mul, Pos2Z.inj_pow; lia).
    rewrite IH.
    replace (Zpos (m * 2 ^ p)) with (Zpos m * 2 ^ Zpos p)
      by (rewrite !Pos2Z.inj_mul, !Pos2Z.inj_pow; lia).
    apply IH.
  - replace (Zpos m * 2 ^ 1) with (Zpos m~0) by lia. reflexivity.
Qed.

Lemma shr_fexp_canonical (m : positive) (e : Z) :
  canonical_mantissa prec emax m e = true ->
  shr_fexp prec emax (Zpos m) e loc_Exact
  = ({| shr_m := Zpos m; shr_r := false; shr_s := false |}, e).
Proof.
  unfold canonical_mantissa, shr_fexp. intros Hc. apply Z.eqb_eq in Hc.
  simpl Zdigits2. rewrite Hc, Z.sub_diag. reflexivity.
Qed.

Lemma round_aux_canonical (s : bool) (m : positive) (e : Z) :
  bounded prec emax m e = true ->
  binary_round_aux prec emax s (Zpos m) e loc_Exact = S754_finite s m e.
Proof.
  unfold bounded. intros Hb. apply andb_true_iff in Hb. destruct Hb as [Hc He].
  unfold binary_round_aux. rewrite (shr_fexp_canonical m e Hc).
  cbn [shr_m shr_r shr_s loc_of_shr_record round_nearest_even].
  rewrite (shr_fexp_canonical m e Hc). cbn [shr_m].
  rewrite He. reflexivity.
Qed.

(** An integer mantissa with room on the right is shifted left. *)
Lemma round_shl (s : bool) (m : positive) (e : Z) :
  let f := fexp prec emax (D m + e) in
  f <= e -> f <= emax - prec ->
  exists k, Zpos k = Zpos m * 2 ^ (e - f) /\
            binary_round prec emax s m e = S754_finite s k f /\
            bounded prec emax k f = true.
Proof.
  intros f Hfe Hf. unfold binary_round.
  fold (D m). fold f. unfold shl_align.
  destruct (f - e) as [|d|d] eqn:Hd; try lia.
  - assert (f = e) by lia.
    assert (Hb : bounded prec emax m e = true).
    { unfold bounded, canonical_mantissa. fold (D m). fold f.
      apply andb_true_iff. split; [apply Z.eqb_eq; lia | apply Z.leb_le; lia]. }
    exists m. rewrite round_aux_canonical by exact Hb.
    replace (e - f) with 0 by lia. rewrite Z.mul_1_r.
    repeat split; congruence.
  - assert (Hk : Zpos (Pos.iter xO m d) = Zpos m * 2 ^ (e - f)).
    { rewrite iter_xO. f_equal. f_equal. lia. }
    assert (Hb : bounded prec emax (Pos.iter xO m d) f = true).
    { unfold bounded, canonical_mantissa. fold (D (Pos.iter xO m d)).
      rewrite (D_shift m _ (e - f)) by (lia || exact Hk).
      replace (D m + (e - f) + f) with (D m + e) by lia. fold f.
      apply andb_true_iff. split; [apply Z.eqb_eq; lia | apply Z.leb_le; lia]. }
    exists (Pos.iter xO m d). rewrite round_aux_canonical by exact Hb.
    repeat split; assumption.
Qed.

(** An integer mantissa with zeros on the right is shifted right. *)
Lemma round_shr (s : bool) (m k p : positive) :
  bounded prec emax m (Zpos p) = true ->
  Zpos k = Zpos m * 2 ^ Zpos p ->
  binary_round prec emax s k 0 = S754_finite s m (Zpos p).
Proof.
  intros Hb Hk.
  assert (Hc : fexp prec emax (D m + Zpos p) = Zpos p).
  { unfold bounded, canonical_mantissa in Hb. apply andb_true_iff in Hb.
    apply Z.eqb_eq. apply Hb. }
  assert (HD : D k = D m + Zpos p) by (apply (D_shift m k); [lia | exact Hk]).
  unfold binary_round. fold (D k). rewrite Z.add_0_r, HD, Hc.
  unfold shl_align. rewrite Z.sub_0_r.
  unfold binary_round_aux, shr_fexp at 1.
  cbn [Zdigits2]. fold (D k). rewrite Z.add_0_r, HD, Hc, Z.sub_0_r.
  cbn [shr shr_record_of_loc]. rewrite Hk, shr_exact.
  cbn [shr_m shr_r shr_s loc_of_shr_record round_nearest_even].
  rewrite Z.add_0_l.
  assert (Hcan : canonical_mantissa prec emax m (Zpos p) = true)
    by (unfold bounded in Hb; apply andb_true_iff in Hb; apply Hb).
  rewrite (shr_fexp_canonical m _ Hcan). cbn [shr_m].
  unfold bounded in Hb. apply andb_true_iff in Hb. destruct Hb as [_ ->].
  reflexivity.
Qed.

Lemma int_of_float_truncation (x : float) :
  is_finite x = true -> int_of_float x = Ok (truncation x).
Proof.
  destruct x as [s|s| |s m e]; try discriminate; intros _.
  - reflexivity.
  - unfold int_of_float, truncation, numerator, denominator.
    destruct (Z.leb_spec 0 e) as [He|He].
    + rewrite Z.max_l, Z.max_r by lia. rewrite Z.pow_0_r, Z.quot_1_r.
      destruct s; f_equal; lia.
    + rewrite Z.max_r, Z.max_l by lia. rewrite Z.pow_0_r, Z.mul_1_r.
      assert (0 < 2 ^ (- e)) by (apply Z.pow_pos_nonneg; lia).
      destruct s; f_equal.
      * change (Z.neg m) with (- Z.pos m).
        rewrite Z.quot_opp_l by lia. rewrite Z.quot_div_nonneg by lia.
        reflexivity.
      * rewrite Z.quot_div_nonneg by lia. reflexivity.
Qed.

Lemma bounded_canonical (m : positive) (e : Z) :
  bounded prec emax m e = true ->
  e = Z.max (D m + e - 53) (-1074) /\ e <= 971.
Proof.
  unfold bounded, canonical_mantissa. intros Hb.
  apply andb_true_iff in Hb. destruct Hb as [Hc He].
  apply Z.eqb_eq in Hc. apply Z.leb_le in He.
  fold (D m) in Hc. unfold fexp, SpecFloat.emin, prec, emax in Hc.
  unfold emax, prec in He. lia.
Qed.

(** The float of an integer written on at most 53 digits is the integer. *)
Lemma float_of_int_small (s : bool) (q : positive) :
  D q <= 53 ->
  exists k, Zpos k = Zpos q * 2 ^ (53 - D q) /\
            float_of_int (if s then Zneg q else Zpos q)
              = Ok (S754_finite s k (D q - 53)).
Proof.
  intros Hq. pose proof (D_pos q).
  assert (Hf : fexp prec emax (D q + 0) = D q - 53).
  { unfold fexp, SpecFloat.emin, prec, emax. lia. }
  destruct (round_shl s q 0) as (k & Hk & Hround & _).
  { rewrite Hf. lia. }
  { rewrite Hf. unfold emax, prec. lia. }
  rewrite Hf in Hk, Hround.
  exists k. split; [rewrite Hk; f_equal; f_equal; lia |].
  unfold float_of_int, binary_normalize.
  destruct s; rewrite Hround; reflexivity.
Qed.

(** The float of the integer that a float without fraction stands for is
    that float. *)
Lemma float_of_int_integral (s : bool) (m : positive) (e : Z) :
  bounded prec emax m e = true -> 0 <= e ->
  float_of_int ((if s then Zneg m else Zpos m) * 2 ^ e)
    = Ok (S754_finite s m e).
Proof.
  intros Hb He.
  destruct e as [|p|p]; [| | lia].
  - rewrite Z.pow_0_r, Z.mul_1_r.
    destruct (bounded_canonical _ _ Hb) as [Hc _].
    assert (Hf : fexp prec emax (D m + 0) = 0).
    { unfold fexp, SpecFloat.emin, prec, emax. lia. }
    destruct (round_shl s m 0) as (k & Hk & Hround & _).
    { rewrite Hf. lia. }
    { rewrite Hf. unfold emax, prec. lia. }
    rewrite Hf in Hk, Hround. rewrite Z.sub_diag, Z.pow_0_r, Z.mul_1_r in Hk.
    injection Hk as ->.
    unfold float_of_int, binary_normalize.
    destruct s; rewrite Hround; reflexivity.
  - assert (Hk : Zpos (m * 2 ^ p) = Zpos m * 2 ^ Zpos p)
      by (rewrite Pos2Z.inj_mul, Pos2Z.inj_pow; reflexivity).
    unfold float_of_int, binary_normalize.
    destruct s.
    + replace (Z.neg m * 2 ^ Z.pos p) with (Z.neg (m * 2 ^ p)) by lia.
      rewrite (round_shr true m _ p Hb Hk). reflexivity.
    + rewrite <- Hk. rewrite (round_shr false m _ p Hb Hk). reflexivity.
Qed.

Lemma sub_same_exponent (s : bool) (m1 m2 : positive) (e : Z) :
  float_sub (S754_finite s m1 e) (S754_finite s m2 e)
  = binary_normalize prec emax
      (cond_Zopp s (Zpos m1) - cond_Zopp s (Zpos m2)) e false.
Proof.
  unfold float_sub, SFsub. rewrite Z.min_id.
  unfold shl_align. rewrite Z.sub_diag. reflexivity.
Qed.

(** The comparison with the literal 0.0001, whose float lies just above
    1/10000, decides whether the value is below 1/10000: no float lies
    between the two. The value is [r / 2^b], held by the mantissa
    [r * 2^a]. *)
Lemma lt_0_0001 (k : positive) (f r a b : Z) :
  bounded prec emax k f = true ->
  Zpos k = r * 2 ^ a -> 0 <= a -> 0 < b -> f = - (a + b) ->
  float_lt (S754_finite false k f) f0_0001 = (r * 10000 <? 2 ^ b).
Proof.
  intros Hb Hk Ha Hbpos Hf.
  destruct (bounded_canonical _ _ Hb) as [Hc _].
  pose proof (D_bounds k) as [Hlo Hhi]. pose proof (D_pos k) as HD.
  assert (HP : 0 < 2 ^ a) by (apply Z.pow_pos_nonneg; lia).
  assert (HQ : 0 < 2 ^ b) by (apply Z.pow_pos_nonneg; lia).
  assert (HPQ : 2 ^ (a + b) = 2 ^ a * 2 ^ b) by (apply Z.pow_add_r; lia).
  unfold float_lt, SFltb, SFcompare, f0_0001.
  destruct (Z.compare_spec f (-66)) as [Heq|Hlt|Hgt].
  - (* same exponent: the mantissas decide *)
    assert (H66 : 2 ^ a * 2 ^ b = 73786976294838206464).
    { rewrite <- HPQ. replace (a + b) with 66 by lia. reflexivity. }
    rewrite Pos.compare_cont_spec.
    assert (HM : (7378697629483821 - 1) * 10000 < 73786976294838206464
                 /\ 73786976294838206464 < 7378697629483821 * 10000)
      by (split; reflexivity).
    destruct (Pos.compare_spec k 7378697629483821) as [E|L|G];
      cbn [Pos.switch_Eq]; symmetry.
    + apply Z.ltb_ge. subst k. nia.
    + apply Z.ltb_lt. apply Pos2Z.pos_lt_pos in L. nia.
    + apply Z.ltb_ge. apply Pos2Z.pos_lt_pos in G. nia.
  - (* a smaller exponent: the value is below 2^-14 *)
    symmetry. apply Z.ltb_lt.
    assert (HDk : D k <= 53) by lia.
    assert (Hk53 : Z.pos k < 2 ^ 53).
    { apply Z.lt_le_trans with (2 ^ D k); [lia |].
      apply Z.pow_le_mono_r; lia. }
    assert (H67 : 2 ^ 67 <= 2 ^ a * 2 ^ b).
    { rewrite <- HPQ. apply Z.pow_le_mono_r; lia. }
    change (2 ^ 53) with 9007199254740992 in Hk53.
    change (2 ^ 67) with 147573952589676412928 in H67.
    nia.
  - (* a larger exponent: the float is normal and at least 2^-13 *)
    symmetry. apply Z.ltb_ge.
    assert (HDk : D k = 53) by lia.
    assert (Hk52 : 2 ^ 52 <= Z.pos k) by (rewrite HDk in Hlo; exact Hlo).
    assert (H65 : 2 ^ a * 2 ^ b <= 2 ^ 65).
    { rewrite <- HPQ. apply Z.pow_le_mono_r; lia. }
    change (2 ^ 52) with 4503599627370496 in Hk52.
    change (2 ^ 65) with 36893488147419103232 in H65.
    nia.
Qed.

Lemma D_quotient (m q : positive) (b : Z) :
  0 < b -> Zpos q = Zpos m / 2 ^ b -> D q = D m - b.
Proof.
  intros Hb Hq. apply D_unique.
  pose proof (D_bounds m) as [Hlo Hhi]. pose proof (D_pos m) as HD.
  assert (HQ : 0 < 2 ^ b) by (apply Z.pow_pos_nonneg; lia).
  destruct (Z.ltb_spec (D m) (b + 1)) as [Hsmall|Hlarge].
  - exfalso.
    assert (2 ^ D m <= 2 ^ b) by (apply Z.pow_le_mono_r; lia).
    rewrite Z.div_small in Hq by lia. discriminate Hq.
  - rewrite Hq. split.
    + apply Z.div_le_lower_bound; [exact HQ |].
      rewrite <- Z.pow_add_r by lia.
      replace (b + (D m - b - 1)) with (D m - 1) by lia. exact Hlo.
    + apply Z.div_lt_upper_bound; [exact HQ |].
      rewrite <- Z.pow_add_r by lia.
      replace (b + (D m - b)) with (D m) by lia. exact Hhi.
Qed.

Lemma lt_0_0001_zero (b : bool) :
  b = true -> Ok (float_lt (S754_zero false) f0_0001) = Ok b.
Proof. intros ->. reflexivity. Qed.

(** The test of the code on a float and its truncation is the test on
    their exact values. *)
Lemma near_test (x : float) :
  valid x -> is_finite x = true ->
  abs_diff_lt (NFloat x) (truncation x) f0_0001
    = Ok (within_1e4 x (truncation x)).
Proof.
  intros Hvalid Hfinite.
  destruct x as [s|s| |s m e]; try discriminate Hfinite.
  - destruct s; reflexivity.
  - unfold valid, valid_binary in Hvalid.
    destruct (bounded_canonical _ _ Hvalid) as [Hc Hmax].
    pose proof (D_pos m) as HD.
    unfold abs_diff_lt, truncation, within_1e4, numerator, denominator.
    destruct (Z.leb_spec 0 e) as [He|He].
    + (* no fraction *)
      rewrite Z.max_l, Z.max_r by lia. rewrite Z.pow_0_r, Z.quot_1_r.
      rewrite (float_of_int_integral s m e Hvalid He). cbn [bind].
      rewrite sub_same_exponent, Z.sub_diag. cbn [binary_normalize float_abs SFabs].
      apply lt_0_0001_zero. apply Z.ltb_lt. lia.
    + rewrite Z.max_r, Z.max_l by lia. rewrite Z.pow_0_r, Z.mul_1_r.
      set (Q := 2 ^ (- e)).
      assert (HQ : 0 < Q) by (apply Z.pow_pos_nonneg; lia).
      assert (Hquot : Z.quot (if s then Z.neg m else Z.pos m) Q
                      = if s then - (Z.pos m / Q) else Z.pos m / Q).
      { destruct s.
        - change (Z.neg m) with (- Z.pos m).
          rewrite Z.quot_opp_l, Z.quot_div_nonneg by lia. reflexivity.
        - rewrite Z.quot_div_nonneg by lia. reflexivity. }
      rewrite Hquot.
      pose proof (Z.div_mod (Z.pos m) Q ltac:(lia)) as Hdm.
      pose proof (Z.mod_pos_bound (Z.pos m) Q HQ) as Hr.
      assert (Hq0 : 0 <= Z.pos m / Q) by (apply Z.div_pos; lia).
      assert (Habs : Z.abs ((if s then Z.neg m else Z.pos m)
                            - (if s then - (Z.pos m / Q) else Z.pos m / Q) * Q)
                     = Z.pos m mod Q).
      { destruct s; nia. }
      rewrite Habs.
      destruct (Z.pos m / Q) as [|q|q] eqn:Hq; [| | lia].
      * (* the truncation is zero *)
        replace (if s then - 0 else 0) with 0 by (destruct s; reflexivity).
        cbn [float_of_int binary_normalize is_finite bind float_sub SFsub
             float_abs SFabs].
        rewrite (lt_0_0001 m e (Z.pos m) 0 (- e) Hvalid); try lia.
        f_equal. f_equal. f_equal. nia.
      * (* the truncation is not zero *)
        assert (HDq : D q = D m + e).
        { rewrite (D_quotient m q (- e)); [lia | lia |].
          fold Q. symmetry. exact Hq. }
        assert (HDq53 : D q <= 53) by lia.
        pose proof (D_pos q) as HDq1.
        destruct (float_of_int_small s q HDq53) as (k & Hk & Hconv).
        replace (if s then - Z.pos q else Z.pos q)
          with (if s then Z.neg q else Z.pos q) by (destruct s; reflexivity).
        rewrite Hconv. cbn [bind].
        replace (D q - 53) with e by lia.
        rewrite sub_same_exponent.
        assert (HkQ : Z.pos k = Z.pos q * Q).
        { rewrite Hk. unfold Q. f_equal. f_equal. lia. }
        assert (Hdiff : cond_Zopp s (Z.pos m) - cond_Zopp s (Z.pos k)
                        = cond_Zopp s (Z.pos m mod Q)).
        { unfold cond_Zopp. destruct s; nia. }
        rewrite Hdiff.
        destruct (Z.pos m mod Q) as [|r|r] eqn:Hrem; [| | lia].
        -- destruct s; apply lt_0_0001_zero; apply Z.ltb_lt; lia.
        -- pose proof (D_bounds r) as [Hrlo Hrhi]. pose proof (D_pos r) as HDr.
           assert (HDr_le : D r <= - e).
           { destruct (Z.leb_spec (D r) (- e)) as [Hle|Hgt]; [exact Hle |].
             assert (2 ^ (- e) <= 2 ^ (D r - 1))
               by (apply Z.pow_le_mono_r; lia).
             unfold Q in Hr. lia. }
           assert (Hfr : fexp prec emax (D r + e) = Z.max (D r + e - 53) (-1074)).
           { unfold fexp, SpecFloat.emin, prec, emax. lia. }
           destruct (round_shl s r e) as (k' & Hk' & Hround & Hbounded).
           { rewrite Hfr. lia. }
           { rewrite Hfr. unfold emax, prec. lia. }
           assert (Hnorm : binary_normalize prec emax (cond_Zopp s (Z.pos r)) e false
                           = S754_finite s k' (fexp prec emax (D r + e))).
           { destruct s; exact Hround. }
           rewrite Hnorm. cbn [float_abs SFabs].
           rewrite (lt_0_0001 k' _ (Z.pos r) (e - fexp prec emax (D r + e)) (- e)
                      Hbounded Hk'); try (rewrite ?Hfr; lia).
           reflexivity.
Qed.

(** ** Frame rate text *)

(** C3, as amended. For a finite frame rate [x], the text is the integer
    part of [x] (its truncation toward zero) followed by " fps" when [x]
    is less than 1/10000 away from that integer part, and [x] written with
    two decimals followed by " fps" otherwise; both extractors agree. In
    particular 24000/1001 gives "23.98 fps" and 25/1 gives "25 fps". A
    rate just below an integer is not within 1/10000 of its integer part
    and is written with two decimals. *)
Theorem frame_rate_text_rule (x : float) :
  valid x -> is_finite x = true ->
  let text := if within_1e4 x (truncation x)
              then fmt_d (truncation x) +:+ " fps"
              else fmt_f 2 x +:+ " fps" in
  Video.video_frame_rate_text (Some x) = Ok (Some text) /\
  Legacy.video_frame_rate_text (Some (NFloat x)) = Ok (Some text) /\
  (x ← int_truediv 24000 1001; Video.video_frame_rate_text (Some x))
    = Ok (Some "23.98 fps") /\
  (x ← int_truediv 25 1; Video.video_frame_rate_text (Some x))
    = Ok (Some "25 fps").
Proof.
  intros Hvalid Hfinite text. subst text.
  split; [| split; [| split; vm_compute; reflexivity]].
  - unfold Video.video_frame_rate_text.
    rewrite (int_of_float_truncation x Hfinite). cbn [bind].
    rewrite (near_test x Hvalid Hfinite). cbn [bind].
    destruct (within_1e4 x (truncation x)); reflexivity.
  - unfold Legacy.video_frame_rate_text, int_of_num.
    rewrite (int_of_float_truncation x Hfinite). cbn [bind].
    rewrite (near_test x Hvalid Hfinite). cbn [bind].
    destruct (within_1e4 x (truncation x)); reflexivity.
Qed.

Lemma frame_rate_text_rule_witness :
  let x := S754_finite false 6748650790265479 (-48) in
  int_truediv 24000 1001 = Ok x /\
  valid x /\ is_finite x = true /\
  within_1e4 x (truncation x) = false /\
  Video.video_frame_rate_text (Some x) = Ok (Some "23.98 fps").
Proof.
  intros x.
  assert (Hvalid : valid x) by reflexivity.
  assert (Hfinite : is_finite x = true) by reflexivity.
  destruct (frame_rate_text_rule x Hvalid Hfinite) as (Htext & _).
  split; [vm_compute; reflexivity |]. split; [exact Hvalid |].
  split; [exact Hfinite |]. split; [vm_compute; reflexivity |].
  etransitivity; [exact Htext | vm_compute; reflexivity].
Defined.

(** C3, as stated, fails: the float nearest to 29.99999 is within 1/10000
    of its nearest integer, 30, and its text is "30.00 fps", not
    "30 fps". *)
Lemma frame_rate_just_below_an_integer :
  ~ (forall x : float,
       valid x -> is_finite x = true ->
       Video.video_frame_rate_text (Some x)
         = Ok (Some (if within_1e4 x (nearest_integer x)
                     then fmt_d (nearest_integer x) +:+ " fps"
                     else fmt_f 2 x +:+ " fps"))).
Proof.
  intros Hclaim.
  specialize (Hclaim (S754_finite false 8444246486569913 (-48)) eq_refl eq_refl).
  vm_compute in Hclaim. discriminate Hclaim.
Qed.

(** ** More on the scan type *)

Lemma init_split {B : Builtins} {U : Util}
    (path filename : string) (ffprobe : json) (frame_lines : list string) :
  Video.__init__ path filename ffprobe frame_lines =
    (self ← before_scan path filename ffprobe;
     if negb (Video.has_video_stream (Video.streams self))
     then Ok (Video.set_scan_type self None)
     else scan_type ← Video._get_scan_type frame_lines;
          Ok (Video.set_scan_type self scan_type)).
Proof.
  unfold Video.__init__, before_scan.
  destruct (Video._get_title ffprobe); [| reflexivity].
  destruct (Video._get_format ffprobe path); [| reflexivity].
  destruct (Video._get_size ffprobe) as [[size size_text]|]; [| reflexivity].
  destruct (Video._get_duration ffprobe) as [[duration duration_text]|];
    reflexivity.
Qed.

(** X1. A probe of the frames that prints fewer than two lines makes
    [_get_scan_type] raise [StopIteration]; a [Video] built from such a
    probe therefore has no video stream. *)
Theorem short_probe_output_stops_iteration {B : Builtins} {U : Util}
    (frame_lines : list string) :
  (length frame_lines < 2)%nat ->
  Video._get_scan_type frame_lines = Raise StopIteration /\
  (forall path filename ffprobe v,
     Video.__init__ path filename ffprobe frame_lines = Ok v ->
     Video.has_video_stream (Video.streams v) = false).
Proof.
  intros Hshort.
  assert (Hstop : Video._get_scan_type frame_lines = Raise StopIteration).
  { destruct frame_lines as [|a [|b rest]]; simpl in Hshort; try reflexivity; lia. }
  split; [exact Hstop |].
  intros path filename ffprobe v Hrun. rewrite init_split in Hrun.
  bind_inv Hrun as self Hself.
  destruct (Video.has_video_stream (Video.streams self)) eqn:Hvideo; simpl in Hrun.
  - rewrite Hstop in Hrun. discriminate Hrun.
  - injection Hrun as <-. exact Hvideo.
Qed.

Lemma short_probe_output_stops_iteration_witness :
  (length ["{"] < 2)%nat /\
  Video._get_scan_type (B := Sample.builtins) ["{"] = Raise StopIteration /\
  Video.__init__ (B := Sample.builtins) (U := Sample.util)
    "/home/user/talk.webm" "talk.webm"
    (Sample.container Sample.format_full [Sample.video_hd]) ["{"]
  = Raise StopIteration.
Proof.
  assert (Hshort : (length ["{"] < 2)%nat) by (simpl; lia).
  destruct (short_probe_output_stops_iteration
              (B := Sample.builtins) (U := Sample.util) ["{"] Hshort)
    as [Hstop _].
  split; [exact Hshort |]. split; [exact Hstop |].
  vm_compute. reflexivity.
Defined.

(** X2. A file without a video stream is not probed for its frames: the
    constructor returns the same object whatever the frame probe would
    print, and its scan type is [None]; for a file with a video stream the
    scan type is what [_get_scan_type] returns. *)
Theorem scan_type_probed_only_with_video {B : Builtins} {U : Util}
    (path filename : string) (ffprobe : json) (frame_lines : list string)
    (v : Video.t) :
  Video.__init__ path filename ffprobe frame_lines = Ok v ->
  (Video.has_video_stream (Video.streams v) = false ->
   Video.scan_type v = None /\
   forall other_lines, Video.__init__ path filename ffprobe other_lines = Ok v) /\
  (Video.has_video_stream (Video.streams v) = true ->
   Video._get_scan_type frame_lines = Ok (Video.scan_type v)).
Proof.
  intros Hrun. rewrite init_split in Hrun.
  bind_inv Hrun as self Hself.
  destruct (Video.has_video_stream (Video.streams self)) eqn:Hvideo; simpl in Hrun.
  - bind_inv Hrun as scan_type Hscan. injection Hrun as <-. simpl.
    rewrite Hvideo. split; [discriminate | intros _; exact Hscan].
  - injection Hrun as <-. simpl. rewrite Hvideo.
    split; [| discriminate]. intros _. split; [reflexivity |].
    intros other_lines. rewrite init_split, Hself. simpl.
    rewrite Hvideo. reflexivity.
Qed.

Lemma scan_type_probed_only_with_video_witness :
  exists v,
    Sample.untitled = Ok v /\
    Video.has_video_stream (Video.streams v) = false /\
    Video.scan_type v = None /\
    Video.__init__ (B := Sample.builtins) (U := Sample.util)
      "/home/user/song.ogg" "song.ogg"
      (Sample.container
         [("format_name", JStr "ogg"); ("size", JStr "1536");
          ("duration", JStr "61");
          ("tags", Sample.dict [("title", JStr "")])]
         [Sample.audio_en]) [] = Ok v.
Proof.
  assert (Hrun : (v ← Sample.untitled;
                  Ok (Video.has_video_stream (Video.streams v)))
                 = Ok false)
    by (vm_compute; reflexivity).
  destruct Sample.untitled as [v|e] eqn:Hv; [| discriminate Hrun].
  simpl in Hrun. injection Hrun as Hvideo.
  unfold Sample.untitled in Hv.
  destruct (scan_type_probed_only_with_video _ _ _ _ v Hv) as [Hnone _].
  destruct (Hnone Hvideo) as [Hscan Hany].
  exists v. split; [reflexivity |]. split; [exact Hvideo |].
  split; [exact Hscan | apply Hany].
Defined.

(** X3. The first twenty frame objects play no part in the
    classification: two samples that differ only in them are classified
    alike, whatever those twenty objects are. *)
Theorem first_twenty_frames_are_ignored (pre pre' rest : list json) :
  length pre = 20%nat -> length pre' = 20%nat ->
  Video.classify_frames (pre ++ rest)%list = Video.classify_frames (pre' ++ rest)%list.
Proof.
  intros Hpre Hpre'. unfold Video.classify_frames.
  rewrite !length_app, Hpre, Hpre'.
  rewrite <- Hpre at 2. rewrite drop_app_length.
  rewrite <- Hpre'. rewrite drop_app_length. reflexivity.
Qed.

Lemma first_twenty_frames_are_ignored_witness :
  let junk := repeat (JStr "junk") 20 in
  let interlaced := repeat (Sample.frame 1) 20 in
  let rest := repeat (Sample.frame 0) 20 in
  length junk = 20%nat /\ length interlaced = 20%nat /\
  Video.classify_frames (junk ++ rest)%list = Ok (Some "Progressive scan") /\
  Video.classify_frames (interlaced ++ rest)%list = Ok (Some "Progressive scan").
Proof.
  intros junk interlaced rest.
  assert (Hjunk : length junk = 20%nat) by reflexivity.
  assert (Hinter : length interlaced = 20%nat) by reflexivity.
  pose proof (first_twenty_frames_are_ignored junk interlaced rest Hjunk Hinter)
    as Hsame.
  split; [exact Hjunk |]. split; [exact Hinter |].
  assert (Hrest : Video.classify_frames (interlaced ++ rest)%list
                  = Ok (Some "Progressive scan")) by (vm_compute; reflexivity).
  split; [rewrite Hsame |]; exact Hrest.
Defined.

(** X4. Whenever the classification returns, it returns [None] exactly
    for a sample of fewer than forty frame objects, and otherwise one of
    the three labels. *)
Theorem scan_type_is_one_of_three (objs : list json) (r : option string) :
  Video.classify_frames objs = Ok r ->
  (r = None <-> (length objs < 40)%nat) /\
  (forall s, r = Some s -> s ∈ scan_labels).
Proof.
  unfold Video.classify_frames, scan_labels. intros Hrun.
  destruct (Z.ltb_spec (Z.of_nat (length objs)) 40) as [Hshort|Hlong].
  - injection Hrun as <-. split; [split; [lia | reflexivity] | discriminate].
  - bind_inv Hrun as n Hn.
    assert (Hsome : exists s, r = Some s /\ s ∈ scan_labels).
    { unfold scan_labels.
      destruct (n =? 0); [| destruct (n =? 20); [| destruct (n =? 8)]];
        injection Hrun as <-; eexists; (split; [reflexivity |]);
        apply list_elem_of_In; simpl; auto. }
    destruct Hsome as (s & -> & Hs). split.
    + split; [discriminate | lia].
    + intros s' [= <-]. exact Hs.
Qed.

Lemma scan_type_is_one_of_three_witness :
  let objs := (repeat (Sample.frame 0) 21 ++ repeat (Sample.frame 1) 19)%list in
  Video.classify_frames objs = Ok (Some "Interlaced scan") /\
  "Interlaced scan" ∈ scan_labels.
Proof.
  intros objs.
  assert (Hrun : Video.classify_frames objs = Ok (Some "Interlaced scan"))
    by (vm_compute; reflexivity).
  split; [exact Hrun |].
  exact (proj2 (scan_type_is_one_of_three objs _ Hrun) _ eq_refl).
Defined.

Lemma collect_frames_stops {B : Builtins} (lines more : list string) :
  forall obj_str objs objs',
    (length objs < 40)%nat ->
    Video.collect_frames lines obj_str objs = Ok objs' ->
    length objs' = 40%nat ->
    Video.collect_frames (lines ++ more)%list obj_str objs = Ok objs'.
Proof.
  induction lines as [|line rest IH]; intros obj_str objs objs' Hlen Hrun Hfull.
  - simpl in Hrun. injection Hrun as <-. lia.
  - simpl in Hrun |- *.
    destruct (last_char (obj_str +:+ strip line)) as [c|e]; [| discriminate Hrun].
    cbn [bind] in Hrun |- *.
    destruct (json_loads _) as [obj|].
    + destruct (Z.leb_spec 40 (Z.of_nat (length (append objs obj)))) as [H40|H40].
      * exact Hrun.
      * apply IH; [lia | exact Hrun | exact Hfull].
    + apply IH; assumption.
Qed.

(** X5. The sampling stops at the fortieth frame object: when the lines
    read so far have given forty objects, whatever the probe prints after
    them changes neither the sample nor the scan type. *)
Theorem frames_after_the_fortieth_are_not_read {B : Builtins}
    (a b : string) (lines more : list string) (objs : list json) :
  Video.collect_frames lines "" [] = Ok objs ->
  length objs = 40%nat ->
  Video.collect_frames (lines ++ more)%list "" [] = Ok objs /\
  Video._get_scan_type (a :: b :: lines ++ more)%list
    = Video._get_scan_type (a :: b :: lines).
Proof.
  intros Hrun Hfull.
  assert (Hmore : Video.collect_frames (lines ++ more)%list "" [] = Ok objs)
    by (apply collect_frames_stops; [simpl; lia | exact Hrun | exact Hfull]).
  split; [exact Hmore |].
  unfold Video._get_scan_type. rewrite Hmore, Hrun. reflexivity.
Qed.

Lemma frames_after_the_fortieth_are_not_read_witness :
  let lines := drop 2 (Sample.probe_output (repeat 1 40)) in
  let more := ["this is not a frame"; ""] in
  Video.collect_frames (B := Sample.frame_builtins) lines "" []
    = Ok (repeat (Sample.frame 1) 40) /\
  Video._get_scan_type (B := Sample.frame_builtins) ("{" :: "[" :: lines ++ more)%list
    = Ok (Some "Interlaced scan").
Proof.
  intros lines more.
  assert (Hrun : Video.collect_frames (B := Sample.frame_builtins) lines "" []
                 = Ok (repeat (Sample.frame 1) 40)) by (vm_compute; reflexivity).
  destruct (frames_after_the_fortieth_are_not_read (B := Sample.frame_builtins)
              "{" "[" lines more _ Hrun eq_refl) as [_ Hsame].
  split; [exact Hrun |]. rewrite Hsame. vm_compute. reflexivity.
Defined.

Lemma rstrip_all_space (s : string) : all_space s = true -> rstrip s = "".
Proof.
  induction s as [|c s IH]; simpl; [reflexivity |].
  intros Hs. apply andb_true_iff in Hs. destruct Hs as [Hc Hs].
  rewrite (IH Hs), Hc. reflexivity.
Qed.

Lemma strip_all_space (s : string) : all_space s = true -> strip s = "".
Proof. intros Hs. unfold strip. rewrite (rstrip_all_space s Hs). reflexivity. Qed.

(** X6. A line that is empty or made of white space, met when no text is
    pending (right after the header or right after a complete frame
    object), makes the sampling raise [IndexError], which nothing
    catches. *)
Theorem blank_line_raises_index_error {B : Builtins}
    (line : string) (rest : list string) (objs : list json) (a b : string) :
  all_space line = true ->
  Video.collect_frames (line :: rest) "" objs = Raise IndexError /\
  Video._get_scan_type (a :: b :: line :: rest) = Raise IndexError.
Proof.
  intros Hblank.
  assert (Hraise : forall l, Video.collect_frames (line :: rest) "" l
                             = Raise IndexError).
  { intros l. simpl. rewrite (strip_all_space line Hblank). reflexivity. }
  split; [apply Hraise |].
  unfold Video._get_scan_type. rewrite Hraise. reflexivity.
Qed.

Lemma blank_line_raises_index_error_witness :
  all_space "  " = true /\
  Video._get_scan_type (B := Sample.frame_builtins)
    ("{" :: "[" :: "  " :: drop 2 (Sample.probe_output (repeat 1 40)))
  = Raise IndexError.
Proof.
  assert (Hblank : all_space "  " = true) by reflexivity.
  split; [exact Hblank |].
  exact (proj2 (blank_line_raises_index_error (B := Sample.frame_builtins)
                  "  " _ [] "{" "[" Hblank)).
Defined.

(** ** More on the streams *)

Lemma eq_str_true (v : json) (s : string) : eq_str v s = true -> v = JStr s.
Proof.
  destruct v; simpl; try discriminate.
  intros Heq. apply String.eqb_eq in Heq. congruence.
Qed.

(** What [Video.__init__] does up to the scan type: it runs the loop over
    the records of the probe on an object without streams and without
    mirrored attributes. *)
Lemma init_process_each {B : Builtins} {U : Util}
    (path filename : string) (ffprobe : json) (frame_lines : list string)
    (v : Video.t) :
  Video.__init__ path filename ffprobe frame_lines = Ok v ->
  exists self0 records self scan_type,
    Video.streams self0 = [] /\
    mirrors_streams self0 /\
    records_of ffprobe = Ok records /\
    Video.process_each self0 records = Ok self /\
    v = Video.set_scan_type self scan_type.
Proof.
  unfold Video.__init__. intros Hrun.
  bind_inv Hrun as title Htitle.
  bind_inv Hrun as format Hformat.
  bind_inv Hrun as [size size_text] Hsize.
  bind_inv Hrun as [duration duration_text] Hduration.
  bind_inv Hrun as self Hstreams.
  unfold Video._process_streams in Hstreams.
  bind_inv Hstreams as streams Hget.
  bind_inv Hstreams as records Hrecords.
  simpl in Hget.
  assert (Hrecords_of : records_of ffprobe = Ok records)
    by (unfold records_of; rewrite Hget; exact Hrecords).
  destruct (negb _); [| bind_inv Hrun as scan_type Hscan];
    injection Hrun as <-;
    eexists _, records, self, _;
    (split; [| split; [| split; [exact Hrecords_of | split; [exact Hstreams |]]]]);
    try reflexivity; repeat split.
Qed.

Lemma process_video_stream_type {B : Builtins} {U : Util}
    (self : Video.t) (sdict : json) (s : Stream.t) (self' : Video.t) :
  Video._process_video_stream self sdict = Ok (s, self') ->
  Stream.type s = JStr "video".
Proof.
  intros Hrun. apply process_video_stream_effect in Hrun.
  destruct Hrun as [_ Hvideo]. apply eq_str_true. exact Hvideo.
Qed.

Lemma process_audio_stream_type {B : Builtins} (sdict : json) (s : Stream.t) :
  Video._process_audio_stream sdict = Ok s -> Stream.type s = JStr "audio".
Proof.
  unfold Video._process_audio_stream. intros Hrun.
  bind_inv Hrun as codec_type Hcodec_type.
  destruct (negb _); [discriminate Hrun |].
  bind_inv Hrun as has_name Hhas.
  bind_inv Hrun as codec Hcodec.
  bind_inv Hrun as [bit_rate bit_rate_text] Hbit.
  bind_inv Hrun as language_code Hlanguage.
  injection Hrun as <-. reflexivity.
Qed.

Lemma process_subtitle_stream_type {B : Builtins} (sdict : json) (s : Stream.t) :
  Video._process_subtitle_stream sdict = Ok s -> Stream.type s = JStr "subtitle".
Proof.
  unfold Video._process_subtitle_stream. intros Hrun.
  bind_inv Hrun as codec_type Hcodec_type.
  destruct (negb _); [discriminate Hrun |].
  bind_inv Hrun as has_name Hhas.
  bind_inv Hrun as codec Hcodec.
  bind_inv Hrun as language_code Hlanguage.
  injection Hrun as <-. reflexivity.
Qed.

Lemma process_stream_stands_for {B : Builtins} {U : Util}
    (self : Video.t) (record : json) (s : Stream.t) (self' : Video.t) :
  Video._process_stream self record = Ok (s, self') -> stands_for record s.
Proof.
  unfold Video._process_stream, stands_for, type_of_record. intros Hrun.
  bind_inv Hrun as has_type Hhas.
  bind_inv Hrun as [stream self1] Hbranch.
  bind_inv Hrun as index Hindex. injection Hrun as <- <-.
  split; [exact Hindex |].
  rewrite Hhas. cbn [bind]. change (Stream.type (Stream.set_index stream index))
    with (Stream.type stream).
  destruct has_type; simpl in Hbranch |- *.
  - bind_inv Hbranch as codec_type Hcodec_type. rewrite Hcodec_type. f_equal.
    destruct (eq_str codec_type "video") eqn:Hvideo.
    { rewrite (process_video_stream_type _ _ _ _ Hbranch).
      apply eq_str_true. exact Hvideo. }
    destruct (eq_str codec_type "audio") eqn:Haudio.
    { bind_inv Hbranch as a Ha. injection Hbranch as <- <-.
      rewrite (process_audio_stream_type _ _ Ha).
      apply eq_str_true. exact Haudio. }
    destruct (eq_str codec_type "subtitle") eqn:Hsubtitle.
    { bind_inv Hbranch as a Ha. injection Hbranch as <- <-.
      rewrite (process_subtitle_stream_type _ _ Ha).
      apply eq_str_true. exact Hsubtitle. }
    injection Hbranch as <- <-. reflexivity.
  - injection Hbranch as <- <-. reflexivity.
Qed.

Lemma process_each_streams {B : Builtins} {U : Util} (P : json -> Stream.t -> Prop) :
  (forall self record s self',
     Video._process_stream self record = Ok (s, self') -> P record s) ->
  forall records self self',
    Video.process_each self records = Ok self' ->
    exists l, Video.streams self' = (Video.streams self ++ l)%list /\
              Forall2 P records l.
Proof.
  intros Hstep. induction records as [|record rest IH]; intros self self' Hrun;
    simpl in Hrun.
  - injection Hrun as <-. exists []. rewrite app_nil_r. split; constructor.
  - bind_inv Hrun as [s self1] Hs.
    pose proof (process_stream_effect _ _ _ _ Hs) as [Hsame _].
    apply IH in Hrun. destruct Hrun as (l & Hl & Hall).
    exists (s :: l). split.
    + rewrite Hl. simpl. unfold append. rewrite Hsame, <- app_assoc. reflexivity.
    + constructor; [exact (Hstep _ _ _ _ Hs) | exact Hall].
Qed.

(** X7. The constructor makes one stream per record of the probe, in the
    order of the records: the stream has the index of its record, and as
    its type the [codec_type] of the record as it is, or the word
    "unknown" when the record has none. *)
Theorem one_stream_per_record {B : Builtins} {U : Util}
    (path filename : string) (ffprobe : json) (frame_lines : list string)
    (v : Video.t) :
  Video.__init__ path filename ffprobe frame_lines = Ok v ->
  exists records,
    records_of ffprobe = Ok records /\
    Forall2 stands_for records (Video.streams v).
Proof.
  intros Hrun. apply init_process_each in Hrun.
  destruct Hrun as (self0 & records & self & scan_type
                    & Hempty & _ & Hrecords & Heach & ->).
  exists records. split; [exact Hrecords |].
  apply (process_each_streams stands_for process_stream_stands_for) in Heach.
  destruct Heach as (l & Hl & Hall).
  simpl. rewrite Hl, Hempty. exact Hall.
Qed.

Lemma one_stream_per_record_witness :
  exists v records,
    Sample.talk = Ok v /\
    records_of (Sample.container Sample.format_full
                  [Sample.video_hd; Sample.video_sd; Sample.audio_en])
      = Ok records /\
    Forall2 stands_for records (Video.streams v) /\
    (Stream.type <$> Video.streams v) = [JStr "video"; JStr "video"; JStr "audio"].
Proof.
  assert (Hrun : (v ← Sample.talk; Ok (Stream.type <$> Video.streams v))
                 = Ok [JStr "video"; JStr "video"; JStr "audio"])
    by (vm_compute; reflexivity).
  destruct Sample.talk as [v|e] eqn:Hv; [| discriminate Hrun].
  injection Hrun as Htypes.
  destruct (one_stream_per_record (B := Sample.builtins) (U := Sample.util)
              _ _ _ _ v Hv) as (records & Hrecords & Hall).
  exists v, records. repeat split; assumption.
Defined.

Lemma stream_bit_rate_set {B : Builtins} (sdict : json)
    (bit_rate : option float) (text : option string) :
  Video.stream_bit_rate sdict = Ok (bit_rate, text) ->
  is_set text = is_set bit_rate.
Proof.
  unfold Video.stream_bit_rate. intros Hrun.
  bind_inv Hrun as has Hhas. destruct has.
  - bind_inv Hrun as v Hv. bind_inv Hrun as x Hx.
    bind_inv Hrun as k Hk. bind_inv Hrun as n Hn.
    injection Hrun as <- <-. reflexivity.
  - injection Hrun as <- <-. reflexivity.
Qed.

Lemma video_frame_rate_text_set (frame_rate : option float) (text : option string) :
  Video.video_frame_rate_text frame_rate = Ok text ->
  is_set text = is_set frame_rate.
Proof.
  unfold Video.video_frame_rate_text. intros Hrun.
  destruct frame_rate as [fps|]; [| injection Hrun as <-; reflexivity].
  bind_inv Hrun as n Hn. bind_inv Hrun as near Hnear.
  destruct near; injection Hrun as <-; reflexivity.
Qed.

Lemma process_video_stream_well_formed {B : Builtins} {U : Util}
    (self : Video.t) (sdict : json) (s : Stream.t) (self' : Video.t) :
  Video._process_video_stream self sdict = Ok (s, self') -> well_formed s.
Proof.
  unfold Video._process_video_stream. intros Hrun.
  bind_inv Hrun as codec_type Hcodec_type.
  destruct (negb (eq_str codec_type "video")); [discriminate Hrun |].
  bind_inv Hrun as codec Hcodec.
  bind_inv Hrun as width Hwidth.
  bind_inv Hrun as height Hheight.
  bind_inv Hrun as w Hw.
  bind_inv Hrun as h Hh.
  bind_inv Hrun as [dar dar_text] Hdar.
  bind_inv Hrun as frame_rate Hrate.
  bind_inv Hrun as frame_rate_text Htext.
  bind_inv Hrun as [bit_rate bit_rate_text] Hbit.
  injection Hrun as <- _.
  unfold well_formed, is_video. cbn.
  repeat split.
  - exact (stream_bit_rate_set _ _ _ Hbit).
  - exact (video_frame_rate_text_set _ _ Htext).
  - exact (video_dar_is_set _ _ _ _ _ Hdar).
Qed.

Lemma process_audio_stream_well_formed {B : Builtins} (sdict : json) (s : Stream.t) :
  Video._process_audio_stream sdict = Ok s -> well_formed s.
Proof.
  unfold Video._process_audio_stream. intros Hrun.
  bind_inv Hrun as codec_type Hcodec_type.
  destruct (negb _); [discriminate Hrun |].
  bind_inv Hrun as has_name Hhas.
  bind_inv Hrun as codec Hcodec.
  bind_inv Hrun as [bit_rate bit_rate_text] Hbit.
  bind_inv Hrun as language_code Hlanguage.
  injection Hrun as <-.
  unfold well_formed, is_video. cbn.
  repeat split. exact (stream_bit_rate_set _ _ _ Hbit).
Qed.

Lemma process_subtitle_stream_well_formed {B : Builtins} (sdict : json) (s : Stream.t) :
  Video._process_subtitle_stream sdict = Ok s -> well_formed s.
Proof.
  unfold Video._process_subtitle_stream. intros Hrun.
  bind_inv Hrun as codec_type Hcodec_type.
  destruct (negb _); [discriminate Hrun |].
  bind_inv Hrun as has_name Hhas.
  bind_inv Hrun as codec Hcodec.
  bind_inv Hrun as language_code Hlanguage.
  injection Hrun as <-.
  unfold well_formed, is_video. cbn. repeat split.
Qed.

Lemma data_stream_well_formed (type : json) :
  eq_str type "video" = false -> well_formed (Video.data_stream type).
Proof.
  intros Htype. unfold well_formed, is_video. cbn. rewrite Htype. repeat split.
Qed.

Lemma process_stream_well_formed {B : Builtins} {U : Util}
    (self : Video.t) (record : json) (s : Stream.t) (self' : Video.t) :
  Video._process_stream self record = Ok (s, self') -> well_formed s.
Proof.
  unfold Video._process_stream. intros Hrun.
  bind_inv Hrun as has_type Hhas.
  bind_inv Hrun as [stream self1] Hbranch.
  bind_inv Hrun as index Hindex. injection Hrun as <- <-.
  change (well_formed stream).
  destruct has_type; simpl in Hbranch.
  - bind_inv Hbranch as codec_type Hcodec_type.
    destruct (eq_str codec_type "video") eqn:Hvideo.
    { exact (process_video_stream_well_formed _ _ _ _ Hbranch). }
    destruct (eq_str codec_type "audio").
    { bind_inv Hbranch as a Ha. injection Hbranch as <- <-.
      exact (process_audio_stream_well_formed _ _ Ha). }
    destruct (eq_str codec_type "subtitle").
    { bind_inv Hbranch as a Ha. injection Hbranch as <- <-.
      exact (process_subtitle_stream_well_formed _ _ Ha). }
    injection Hbranch as <- <-. exact (data_stream_well_formed _ Hvideo).
  - injection Hbranch as <- <-. apply data_stream_well_formed. reflexivity.
Qed.

Lemma init_streams_well_formed {B : Builtins} {U : Util}
    (path filename : string) (ffprobe : json) (frame_lines : list string)
    (v : Video.t) :
  Video.__init__ path filename ffprobe frame_lines = Ok v ->
  Forall well_formed (Video.streams v).
Proof.
  intros Hrun. apply init_process_each in Hrun.
  destruct Hrun as (self0 & records & self & scan_type
                    & Hempty & _ & _ & Heach & ->).
  apply (process_each_streams (fun _ => well_formed)) in Heach;
    [| intros ? ? ? ?; apply process_stream_well_formed].
  destruct Heach as (l & Hl & Hall).
  simpl. rewrite Hl, Hempty. simpl.
  clear Hl. induction Hall; constructor; assumption.
Qed.

(** X8. The attributes of every stream of a constructed [Video] fit
    together: the information string is set; the text of the bit rate, of
    the frame rate and of the dimension is set exactly when the value is;
    a video stream has the pair of its width and height as dimension and
    has an aspect ratio; any other stream has no dimension, no aspect
    ratio and no frame rate. *)
Theorem streams_are_well_formed {B : Builtins} {U : Util}
    (path filename : string) (ffprobe : json) (frame_lines : list string)
    (v : Video.t) :
  Video.__init__ path filename ffprobe frame_lines = Ok v ->
  forall s, s ∈ Video.streams v -> well_formed s.
Proof.
  intros Hrun. apply Forall_forall. exact (init_streams_well_formed _ _ _ _ _ Hrun).
Qed.

Lemma streams_are_well_formed_witness :
  exists v s,
    Sample.talk = Ok v /\
    Video.streams v !! 2%nat = Some s /\
    Stream.type s = JStr "audio" /\
    well_formed s.
Proof.
  assert (Hrun : (v ← Sample.talk;
                  Ok (Stream.type <$> Video.streams v !! 2%nat))
                 = Ok (Some (JStr "audio"))) by (vm_compute; reflexivity).
  destruct Sample.talk as [v|e] eqn:Hv; [| discriminate Hrun].
  injection Hrun as Hthird.
  destruct (Video.streams v !! 2%nat) as [s|] eqn:Hs; [| discriminate Hthird].
  injection Hthird as Htype.
  exists v, s.
  split; [reflexivity |]. split; [exact Hs |]. split; [exact Htype |].
  apply (streams_are_well_formed (B := Sample.builtins) (U := Sample.util)
           _ _ _ _ v Hv).
  apply list_elem_of_lookup. exists 2%nat. exact Hs.
Defined.

Lemma mirror_is_set {A C : Type} (value : Stream.t -> option A)
    (text : Stream.t -> C) (none : C) (l : list Stream.t) :
  Forall (fun s => is_video s = true -> is_set (value s) = true) l ->
  is_set (fst (mirror_of value text none l)) = Video.has_video_stream l.
Proof.
  unfold mirror_of, Video.has_video_stream.
  induction 1 as [|s l Hs Hl IH]; simpl; [reflexivity |].
  fold (is_video s). destruct (is_video s) eqn:Hvideo; simpl.
  - rewrite (Hs eq_refl). simpl. exact (Hs eq_refl).
  - exact IH.
Qed.

Lemma mirror_set_has_video {A C : Type} (value : Stream.t -> option A)
    (text : Stream.t -> C) (none : C) (l : list Stream.t) :
  is_set (fst (mirror_of value text none l)) = true ->
  Video.has_video_stream l = true.
Proof.
  unfold mirror_of, Video.has_video_stream.
  induction l as [|s l IH]; simpl; [discriminate |].
  fold (is_video s). destruct (is_video s); simpl; [reflexivity | exact IH].
Qed.

(** X9. A constructed [Video] has a dimension exactly when it has a video
    stream, and likewise an aspect ratio; it has a frame rate or a scan
    type only if it has a video stream. *)
Theorem video_attributes_need_a_video_stream {B : Builtins} {U : Util}
    (path filename : string) (ffprobe : json) (frame_lines : list string)
    (v : Video.t) :
  Video.__init__ path filename ffprobe frame_lines = Ok v ->
  is_set (Video.dimension v) = Video.has_video_stream (Video.streams v) /\
  is_set (Video.dar v) = Video.has_video_stream (Video.streams v) /\
  (is_set (Video.frame_rate v) = true ->
   Video.has_video_stream (Video.streams v) = true) /\
  (is_set (Video.scan_type v) = true ->
   Video.has_video_stream (Video.streams v) = true).
Proof.
  intros Hrun.
  pose proof (init_streams_well_formed _ _ _ _ _ Hrun) as Hwf.
  pose proof Hrun as Hinit. apply init_process_each in Hinit.
  destruct Hinit as (self0 & records & self & scan_type
                     & Hempty & Hblank & _ & Heach & Hv).
  apply (process_each_mirrors _ _ _ Hblank) in Heach.
  assert (Hmirrors : mirrors_streams v) by (rewrite Hv; exact Heach).
  destruct Hmirrors as (Hdim & Hdar & Hrate).
  apply (f_equal fst) in Hdim, Hdar, Hrate. simpl in Hdim, Hdar, Hrate.
  rewrite Hdim, Hdar, Hrate.
  split; [| split; [| split]].
  - apply mirror_is_set. eapply Forall_impl; [exact Hwf |].
    intros s (_ & _ & _ & _ & Hs) Hvideo. rewrite Hvideo in Hs.
    destruct Hs as [-> _]. reflexivity.
  - apply mirror_is_set. eapply Forall_impl; [exact Hwf |].
    intros s (_ & _ & _ & _ & Hs) Hvideo. rewrite Hvideo in Hs.
    apply Hs.
  - apply mirror_set_has_video.
  - clear Hdim Hdar Hrate Hwf Heach Hv.
    rewrite init_split in Hrun. bind_inv Hrun as self1 Hself.
    destruct (Video.has_video_stream (Video.streams self1)) eqn:Hhas; simpl in Hrun.
    + bind_inv Hrun as scan Hscan. injection Hrun as <-. intros _. exact Hhas.
    + injection Hrun as <-. discriminate.
Qed.

Lemma video_attributes_need_a_video_stream_witness :
  exists v,
    Sample.untitled = Ok v /\
    Video.has_video_stream (Video.streams v) = false /\
    Video.dimension v = None /\ Video.dar v = None.
Proof.
  assert (Hrun : (v ← Sample.untitled; Ok (Video.has_video_stream (Video.streams v)))
                 = Ok false) by (vm_compute; reflexivity).
  destruct Sample.untitled as [v|e] eqn:Hv; [| discriminate Hrun].
  injection Hrun as Hhas.
  destruct (video_attributes_need_a_video_stream
              (B := Sample.builtins) (U := Sample.util) _ _ _ _ v Hv)
    as (Hdim & Hdar & _).
  rewrite Hhas in Hdim, Hdar.
  exists v. repeat split; try assumption.
  - destruct (Video.dimension v); [discriminate Hdim | reflexivity].
  - destruct (Video.dar v); [discriminate Hdar | reflexivity].
Defined.

(** ** More on the video streams *)

Lemma getitem_ok (v x : json) (k : string) :
  getitem v k = Ok x -> exists d, v = JDict d /\ d !! k = Some x.
Proof.
  destruct v as [| | | | |d]; simpl; try discriminate.
  destruct (d !! k) as [y|] eqn:Hy; [| discriminate].
  intros [= <-]. exists d. split; [reflexivity | exact Hy].
Qed.

(** X10. A display aspect ratio that evaluates is kept as the probe wrote
    it: the aspect ratio of the stream is its value and the text is the
    record's own, whatever the width and the height, zero included. *)
Theorem evaluated_dar_is_kept_verbatim {U : Util}
    (sdict v : json) (x : float) (w h : Z) :
  getitem sdict "display_aspect_ratio" = Ok v ->
  evaluate_ratio v = Ok (Some x) ->
  Video.video_dar sdict w h = Ok (Some x, v).
Proof.
  intros Hget Heval. unfold Video.video_dar.
  destruct (getitem_ok _ _ _ Hget) as (d & -> & Hd).
  rewrite (contains_present d _ v Hd). cbn [bind].
  rewrite Hget. cbn [bind]. rewrite Heval. cbn [bind]. reflexivity.
Qed.

Lemma evaluated_dar_is_kept_verbatim_witness :
  exists x,
    Video.video_dar (U := Sample.util) Sample.video_sd 0 0 = Ok (Some x, JStr "4:3").
Proof.
  assert (Hget : getitem Sample.video_sd "display_aspect_ratio" = Ok (JStr "4:3"))
    by (vm_compute; reflexivity).
  destruct (evaluate_ratio (Util := Sample.util) (JStr "4:3")) as [[x|]|e] eqn:Heval;
    try (vm_compute in Heval; discriminate Heval).
  exists x.
  exact (evaluated_dar_is_kept_verbatim (U := Sample.util) _ _ x 0 0 Hget Heval).
Defined.

Lemma video_dar_zero_height {U : Util} (sdict : json) (w : Z) :
  no_aspect_ratio sdict -> Video.video_dar sdict w 0 = Raise ZeroDivisionError.
Proof.
  intros Hnone. unfold Video.video_dar.
  assert (Hdar : (has ← contains "display_aspect_ratio" sdict;
                  if has
                  then v ← getitem sdict "display_aspect_ratio"; evaluate_ratio v
                  else Ok None) = Ok None).
  { destruct Hnone as [Habsent | (v & Hpresent & Hget & Heval)].
    - rewrite Habsent. reflexivity.
    - rewrite Hpresent. cbn [bind]. rewrite Hget. cbn [bind]. exact Heval. }
  destruct (contains "display_aspect_ratio" sdict) as [has|e];
    [| discriminate Hdar].
  cbn [bind] in Hdar |- *. rewrite Hdar. cbn [bind].
  change (gcd w 0) with w.
  destruct (Z.eqb_spec w 0) as [->|Hw]; [reflexivity |].
  rewrite Z.div_same by exact Hw. rewrite Z.div_0_l by exact Hw. reflexivity.
Qed.

(** X11. A video stream of height zero whose record has no display aspect
    ratio that evaluates makes the aspect ratio block divide by zero:
    [ZeroDivisionError] is raised, and the processing of the record never
    returns a stream. *)
Theorem zero_height_divides_by_zero {B : Builtins} {U : Util}
    (self : Video.t) (sdict : json) :
  getitem sdict "height" = Ok (JInt 0) ->
  no_aspect_ratio sdict ->
  (forall w, Video.video_dar sdict w 0 = Raise ZeroDivisionError) /\
  (forall r, Video._process_video_stream self sdict <> Ok r).
Proof.
  intros Hheight Hnone.
  split; [intros w; exact (video_dar_zero_height sdict w Hnone) |].
  intros r Hrun. unfold Video._process_video_stream in Hrun.
  bind_inv Hrun as codec_type Hcodec_type.
  destruct (negb (eq_str codec_type "video")); [discriminate Hrun |].
  bind_inv Hrun as codec Hcodec.
  bind_inv Hrun as width Hwidth.
  bind_inv Hrun as height Hheight'.
  rewrite Hheight in Hheight'. injection Hheight' as <-.
  bind_inv Hrun as w Hw.
  bind_inv Hrun as h Hh. injection Hh as <-.
  rewrite (video_dar_zero_height sdict w Hnone) in Hrun.
  discriminate Hrun.
Qed.

Lemma zero_height_divides_by_zero_witness :
  let sdict := Sample.dict [("index", JInt 0); ("codec_type", JStr "video");
                            ("codec_name", JStr "mjpeg");
                            ("width", JInt 640); ("height", JInt 0)] in
  Video.video_dar (U := Sample.util) sdict 640 0 = Raise ZeroDivisionError /\
  Video._process_video_stream (B := Sample.builtins) (U := Sample.util)
    Sample.blank sdict = Raise ZeroDivisionError.
Proof.
  intros sdict.
  assert (Hheight : getitem sdict "height" = Ok (JInt 0)) by (vm_compute; reflexivity).
  assert (Hnone : no_aspect_ratio (U := Sample.util) sdict)
    by (left; vm_compute; reflexivity).
  destruct (zero_height_divides_by_zero (B := Sample.builtins) (U := Sample.util)
              Sample.blank sdict Hheight Hnone) as [Hdar _].
  split; [exact (Hdar 640) |]. vm_compute. reflexivity.
Defined.

Lemma lookup_besides_average (d : gmap string json) (x : json) (k : string) :
  k <> "avg_frame_rate" -> <["avg_frame_rate" := x]> d !! k = d !! k.
Proof. intros Hk. apply lookup_insert_ne. congruence. Qed.

(** X12. The average frame rate of a record is consulted only when the
    record has no [r_frame_rate]: for a record that has one, setting
    [avg_frame_rate] to any value changes nothing in what the processing
    of the record returns or raises. *)
Theorem average_frame_rate_is_a_fallback {B : Builtins} {U : Util}
    (self : Video.t) (d : gmap string json) (x : json) :
  is_Some (d !! "r_frame_rate") ->
  Video._process_video_stream self (JDict (<["avg_frame_rate" := x]> d))
  = Video._process_video_stream self (JDict d).
Proof.
  intros [r Hr].
  unfold Video._process_video_stream, Video.video_codec, Video.video_dar,
    Video.video_frame_rate, Video.stream_bit_rate, contains, getitem.
  rewrite (lookup_besides_average d x "codec_type") by discriminate.
  rewrite (lookup_besides_average d x "codec_name") by discriminate.
  rewrite (lookup_besides_average d x "profile") by discriminate.
  rewrite (lookup_besides_average d x "level") by discriminate.
  rewrite (lookup_besides_average d x "codec_long_name") by discriminate.
  rewrite (lookup_besides_average d x "width") by discriminate.
  rewrite (lookup_besides_average d x "height") by discriminate.
  rewrite (lookup_besides_average d x "display_aspect_ratio") by discriminate.
  rewrite (lookup_besides_average d x "r_frame_rate") by discriminate.
  rewrite (lookup_besides_average d x "bit_rate") by discriminate.
  rewrite Hr.
  reflexivity.
Qed.

Lemma average_frame_rate_is_a_fallback_witness :
  let d : gmap string json :=
    list_to_map [("index", JInt 0); ("codec_type", JStr "video");
                 ("codec_name", JStr "mjpeg");
                 ("width", JInt 640); ("height", JInt 480);
                 ("r_frame_rate", JStr "25/1")] in
  is_Some (d !! "r_frame_rate") /\
  Video._process_video_stream (B := Sample.builtins) (U := Sample.util)
    Sample.blank (JDict (<["avg_frame_rate" := JStr "24000/1001"]> d))
  = Video._process_video_stream (B := Sample.builtins) (U := Sample.util)
      Sample.blank (JDict d).
Proof.
  intros d.
  assert (Hr : is_Some (d !! "r_frame_rate"))
    by (exists (JStr "25/1"); vm_compute; reflexivity).
  split; [exact Hr |].
  exact (average_frame_rate_is_a_fallback (B := Sample.builtins) (U := Sample.util)
           Sample.blank d (JStr "24000/1001") Hr).
Defined.

Lemma process_video_stream_any_object {B : Builtins} {U : Util}
    (self other : Video.t) (sdict : json) (s : Stream.t) (self' : Video.t) :
  Video._process_video_stream self sdict = Ok (s, self') ->
  exists other', Video._process_video_stream other sdict = Ok (s, other').
Proof.
  unfold Video._process_video_stream. intros Hrun.
  bind_inv Hrun as codec_type Hcodec_type. rewrite Hcodec_type. cbn [bind].
  destruct (negb (eq_str codec_type "video")); [discriminate Hrun |].
  bind_inv Hrun as codec Hcodec. rewrite Hcodec. cbn [bind].
  bind_inv Hrun as width Hwidth. rewrite Hwidth. cbn [bind].
  bind_inv Hrun as height Hheight. rewrite Hheight. cbn [bind].
  bind_inv Hrun as w Hw. rewrite Hw. cbn [bind].
  bind_inv Hrun as h Hh. rewrite Hh. cbn [bind].
  bind_inv Hrun as [dar dar_text] Hdar. rewrite Hdar. cbn [bind].
  bind_inv Hrun as frame_rate Hrate. rewrite Hrate. cbn [bind].
  bind_inv Hrun as frame_rate_text Htext. rewrite Htext. cbn [bind].
  bind_inv Hrun as [bit_rate bit_rate_text] Hbit. rewrite Hbit. cbn [bind].
  injection Hrun as <- _. eexists. reflexivity.
Qed.

(** X13. The stream that is made from a record depends on the record
    alone: if processing a record returns a stream for one object, it
    returns the same stream for any other, whatever was processed before;
    and a stream that is not a video stream leaves the object as it
    was. *)
Theorem stream_depends_on_its_record_alone {B : Builtins} {U : Util}
    (self : Video.t) (record : json) (s : Stream.t) (self' : Video.t) :
  Video._process_stream self record = Ok (s, self') ->
  (forall other, exists other', Video._process_stream other record = Ok (s, other')) /\
  (is_video s = false -> self' = self).
Proof.
  unfold Video._process_stream. intros Hrun.
  bind_inv Hrun as has_type Hhas. rewrite Hhas. cbn [bind].
  bind_inv Hrun as [stream self1] Hbranch.
  bind_inv Hrun as index Hindex. rewrite Hindex. injection Hrun as <- <-.
  change (is_video (Stream.set_index stream index)) with (is_video stream).
  destruct has_type; simpl in Hbranch |- *.
  - bind_inv Hbranch as codec_type Hcodec_type. rewrite Hcodec_type. cbn [bind].
    destruct (eq_str codec_type "video") eqn:Hvideo.
    { split.
      - intros other.
        destruct (process_video_stream_any_object self other _ _ _ Hbranch)
          as (other' & ->).
        cbn [bind]. eexists. reflexivity.
      - apply process_video_stream_type in Hbranch.
        unfold is_video. rewrite Hbranch. discriminate. }
    destruct (eq_str codec_type "audio").
    { bind_inv Hbranch as a Ha. rewrite Ha. injection Hbranch as <- <-.
      split; [intros other; eexists |]; reflexivity. }
    destruct (eq_str codec_type "subtitle").
    { bind_inv Hbranch as a Ha. rewrite Ha. injection Hbranch as <- <-.
      split; [intros other; eexists |]; reflexivity. }
    injection Hbranch as <- <-.
    split; [intros other; eexists |]; reflexivity.
  - injection Hbranch as <- <-.
    split; [intros other; eexists |]; reflexivity.
Qed.

Lemma stream_depends_on_its_record_alone_witness :
  exists s v other',
    Video._process_stream (B := Sample.builtins) (U := Sample.util)
      Sample.blank Sample.video_sd = Ok (s, v) /\
    Video._process_stream (B := Sample.builtins) (U := Sample.util)
      v Sample.video_sd = Ok (s, other').
Proof.
  assert (Hok : returns (Video._process_stream (B := Sample.builtins)
                           (U := Sample.util) Sample.blank Sample.video_sd))
    by (vm_compute; exact I).
  destruct (Video._process_stream (B := Sample.builtins) (U := Sample.util)
              Sample.blank Sample.video_sd) as [[s v]|e] eqn:Hrun;
    [| destruct Hok].
  destruct (proj1 (stream_depends_on_its_record_alone
                     (B := Sample.builtins) (U := Sample.util) _ _ _ _ Hrun) v)
    as (other' & Hother).
  exists s, v, other'. split; [reflexivity | exact Hother].
Defined.

(** ** The digest *)

(** X14. The digest is computed on the first request only: what
    [compute_sha1sum] returns is stored in the object, and a later
    request on that object returns the stored digest and leaves the
    object as it is, whatever the content of the file has become. *)
Theorem stored_digest_is_reused (B B' : Builtins)
    (self : Video.t) (d : string) (self' : Video.t) :
  Video.compute_sha1sum (B := B) self = (d, self') ->
  Video.sha1sum self' = Some d /\
  Video.compute_sha1sum (B := B') self' = (d, self').
Proof.
  unfold Video.compute_sha1sum, Video._get_sha1sum.
  destruct (Video.sha1sum self) as [d0|] eqn:Hstored.
  - intros [= <- <-]. rewrite Hstored. split; reflexivity.
  - intros [= <- <-]. split; reflexivity.
Qed.

Lemma stored_digest_is_reused_witness :
  let changed : Builtins := {|
    json_loads := fun _ => None;
    int_of_str := parse_literal;
    float_of_str := Sample.float_of_decimal;
    repr_container := fun _ => "[...]";
    sha1_hexdigest := fun _ => "2fd4e1c67a2d28fced849ee1bb76e7391b93eb12" |} in
  let first := Video.compute_sha1sum (B := Sample.builtins) Sample.blank in
  fst first = "da39a3ee5e6b4b0d3255bfef95601890afd80709" /\
  Video.compute_sha1sum (B := changed) (snd first) = first.
Proof.
  intros changed first.
  split; [reflexivity |].
  exact (proj2 (stored_digest_is_reused Sample.builtins changed Sample.blank
                  (fst first) (snd first) eq_refl)).
Defined.

(** ** More on the flat extractor *)

(** X15. The flat extractor shows a size below 1024 bytes as the number
    of bytes itself with one decimal, which is zero, and the unit B. *)
Theorem size_human_below_one_kibibyte (size : Z) :
  0 <= size < 1024 ->
  Legacy.size_human size = Ok (fmt_d size +:+ ".0B").
Proof.
  intros Hsize.
  assert (Hall : forallb
            (fun n => match Legacy.size_human (Z.of_nat n) with
                      | Ok t => String.eqb t (fmt_d (Z.of_nat n) +:+ ".0B")
                      | Raise _ => false
                      end) (seq 0 1024) = true) by (vm_compute; reflexivity).
  rewrite forallb_forall in Hall.
  specialize (Hall (Z.to_nat size)).
  rewrite Z2Nat.id in Hall by lia.
  destruct (Legacy.size_human size) as [t|e].
  - f_equal. apply String.eqb_eq. apply Hall. apply in_seq. lia.
  - discriminate Hall. apply in_seq. lia.
Qed.

Lemma size_human_below_one_kibibyte_witness :
  Legacy.size_human 1023 = Ok "1023.0B".
Proof. apply (size_human_below_one_kibibyte 1023). lia. Defined.

(** X16. A stream record without [codec_type] is rejected by the flat
    extractor, which raises [KeyError], and accepted by the packaged one,
    which makes of it a data stream of type "unknown" and leaves the
    object as it is. *)
Theorem record_without_codec_type {B : Builtins} {U : Util}
    (self : Video.t) (d : gmap string json) (i : json) :
  d !! "codec_type" = None ->
  d !! "index" = Some i ->
  Legacy._process_stream (JDict d) = Raise (KeyError "codec_type") /\
  Video._process_stream self (JDict d)
    = Ok (Stream.set_index (Video.data_stream (JStr "unknown")) i, self).
Proof.
  intros Htype Hindex. split.
  - unfold Legacy._process_stream.
    rewrite (getitem_present d _ i Hindex). cbn [bind].
    rewrite (getitem_absent d _ Htype). reflexivity.
  - unfold Video._process_stream.
    rewrite (contains_absent d _ Htype). cbn [bind negb].
    rewrite (getitem_present d _ i Hindex). reflexivity.
Qed.

Lemma record_without_codec_type_witness :
  let d : gmap string json := list_to_map [("index", JInt 3)] in
  Legacy._process_stream (B := Sample.builtins) (JDict d)
    = Raise (KeyError "codec_type") /\
  (r ← Video._process_stream (B := Sample.builtins) (U := Sample.util)
         Sample.blank (JDict d);
   Ok (Stream.info_string (fst r), Stream.type (fst r)))
    = Ok (Some "Data", JStr "unknown").
Proof.
  intros d.
  assert (Htype : d !! "codec_type" = None) by (vm_compute; reflexivity).
  assert (Hindex : d !! "index" = Some (JInt 3)) by (vm_compute; reflexivity).
  destruct (record_without_codec_type (B := Sample.builtins) (U := Sample.util)
              Sample.blank d (JInt 3) Htype Hindex) as [Hflat Hpackaged].
  split; [exact Hflat |]. rewrite Hpackaged. reflexivity.
Defined.

(** X17. An H.264 video record without [profile] is rejected by the flat
    extractor, which raises [KeyError], whereas the packaged one names
    its codec "H.264". *)
Theorem h264_record_without_profile {B : Builtins}
    (d : gmap string json) (i : json) :
  d !! "index" = Some i ->
  d !! "codec_type" = Some (JStr "video") ->
  d !! "codec_name" = Some (JStr "h264") ->
  d !! "profile" = None ->
  Legacy._process_stream (JDict d) = Raise (KeyError "profile") /\
  Video.video_codec (JDict d) = Ok (JStr "H.264").
Proof.
  intros Hindex Htype Hname Hprofile. split.
  - unfold Legacy._process_stream, Legacy.video_codec.
    rewrite (getitem_present d _ i Hindex). cbn [bind].
    rewrite (getitem_present d _ _ Htype). cbn [bind].
    change (eq_str (JStr "video") "video") with true. cbv iota.
    rewrite (getitem_present d _ _ Hname). cbn [bind].
    change (eq_str (JStr "h264") "h264") with true. cbv iota.
    rewrite (getitem_absent d _ Hprofile). reflexivity.
  - unfold Video.video_codec.
    rewrite (contains_present d _ _ Hname). cbn [bind negb].
    rewrite (getitem_present d _ _ Hname). cbn [bind].
    change (eq_str (JStr "h264") "h264") with true. cbv iota.
    rewrite (contains_absent d _ Hprofile). reflexivity.
Qed.

Lemma h264_record_without_profile_witness :
  let d : gmap string json :=
    list_to_map [("index", JInt 0); ("codec_type", JStr "video");
                 ("codec_name", JStr "h264");
                 ("width", JInt 640); ("height", JInt 480)] in
  Legacy._process_stream (B := Sample.builtins) (JDict d)
    = Raise (KeyError "profile") /\
  Video.video_codec (B := Sample.builtins) (JDict d) = Ok (JStr "H.264").
Proof.
  intros d.
  apply (h264_record_without_profile (B := Sample.builtins) d (JInt 0));
    vm_compute; reflexivity.
Defined.

(** ** The sheet of thumbnails *)

Lemma elem_of_range (a b j : Z) : j ∈ Board.range a b <-> a <= j < b.
Proof.
  rewrite list_elem_of_In. unfold Board.range. rewrite in_map_iff. split.
  - intros (k & <- & Hk). apply in_seq in Hk. lia.
  - intros Hj. exists (Z.to_nat (j - a)). split; [lia | apply in_seq; lia].
Qed.

Lemma length_range (a b : Z) : length (Board.range a b) = Z.to_nat (b - a).
Proof. unfold Board.range. rewrite length_map, length_seq. reflexivity. Qed.

Lemma list_getitem_in_range {A : Type} (l : list A) (k : Z) :
  0 <= k < Z.of_nat (length l) -> exists x, Board.list_getitem l k = Ok x.
Proof.
  intros Hk. unfold Board.list_getitem.
  destruct (Z.leb_spec 0 k) as [_|Hneg]; [| lia].
  destruct (Z.ltb_spec k 0) as [Hneg|_]; [lia |].
  destruct (nth_error l (Z.to_nat k)) as [x|] eqn:Hnth; [eexists; reflexivity |].
  apply nth_error_None in Hnth. lia.
Qed.

Lemma list_getitem_ok {A : Type} (l : list A) (k : Z) (x : A) :
  Board.list_getitem l k = Ok x ->
  - Z.of_nat (length l) <= k < Z.of_nat (length l).
Proof.
  unfold Board.list_getitem.
  destruct (Z.leb_spec 0 k) as [Hpos|Hneg].
  - destruct (Z.ltb_spec k 0) as [Hlt|_]; [discriminate |].
    destruct (nth_error l (Z.to_nat k)) as [y|] eqn:Hnth; [| discriminate].
    intros _. assert (Hsome : nth_error l (Z.to_nat k) <> None) by congruence.
    apply nth_error_Some in Hsome. lia.
  - destruct (Z.ltb_spec (Z.of_nat (length l) + k) 0) as [Hlt|Hge]; [discriminate |].
    intros _. lia.
Qed.

Lemma list_getitem_raises {A : Type} (l : list A) (k : Z) (e : exn) :
  Board.list_getitem l k = Raise e -> e = IndexError.
Proof.
  unfold Board.list_getitem.
  destruct (_ <? 0); [congruence |].
  destruct (nth_error l _); [discriminate | congruence].
Qed.

Lemma Forall2_elem_of_l {A C : Type} (P : A -> C -> Prop) (l : list A) (k : list C) :
  Forall2 P l k -> forall x, x ∈ l -> exists y, y ∈ k /\ P x y.
Proof.
  induction 1 as [|x y l k Hxy _ IH]; intros z Hz.
  - apply elem_of_nil in Hz. destruct Hz.
  - apply elem_of_cons in Hz. destruct Hz as [-> | Hz].
    + exists y. split; [apply list_elem_of_here | exact Hxy].
    + destruct (IH z Hz) as (y' & Hy' & Hzy).
      exists y'. split; [apply list_elem_of_further; exact Hy' | exact Hzy].
Qed.

Lemma Forall2_elem_of_r {A C : Type} (P : A -> C -> Prop) (l : list A) (k : list C) :
  Forall2 P l k -> forall y, y ∈ k -> exists x, x ∈ l /\ P x y.
Proof.
  induction 1 as [|x y l k Hxy _ IH]; intros z Hz.
  - apply elem_of_nil in Hz. destruct Hz.
  - apply elem_of_cons in Hz. destruct Hz as [-> | Hz].
    + exists x. split; [apply list_elem_of_here | exact Hxy].
    + destruct (IH z Hz) as (x' & Hx' & Hxz).
      exists x'. split; [apply list_elem_of_further; exact Hx' | exact Hxz].
Qed.

Section Sheet.
Context {frame : Type}.
Variables (frames : list frame) (n tw th hs vs : Z).

Lemma draw_column_ok (i : Z) :
  forall js canvas canvas',
    Board.draw_column frames n tw th hs vs i js canvas = Ok canvas' ->
    exists tiles, canvas' = (canvas ++ tiles)%list /\
                  Forall2 (tile_at frames n tw th hs vs i) js tiles.
Proof.
  induction js as [|j js IH]; intros canvas canvas' Hrun; simpl in Hrun.
  - injection Hrun as <-. exists []. rewrite app_nil_r. split; constructor.
  - bind_inv Hrun as f Hf. apply IH in Hrun. destruct Hrun as (tiles & -> & Hall).
    eexists (_ :: tiles). split.
    + unfold append. rewrite <- app_assoc. reflexivity.
    + constructor; [| exact Hall].
      split; [exact Hf |]. split; [reflexivity |].
      simpl. f_equal; ring.
Qed.

Lemma draw_column_returns (i : Z) :
  forall js canvas,
    (forall j, j ∈ js -> 0 <= j * n + i < Z.of_nat (length frames)) ->
    exists canvas', Board.draw_column frames n tw th hs vs i js canvas = Ok canvas'.
Proof.
  induction js as [|j js IH]; intros canvas Hin; simpl.
  - eexists. reflexivity.
  - destruct (list_getitem_in_range frames (j * n + i)) as (f & ->);
      [apply Hin; apply list_elem_of_here |].
    cbn [bind]. apply IH. intros j' Hj'. apply Hin.
    apply list_elem_of_further. exact Hj'.
Qed.

Lemma draw_column_raises (i : Z) :
  forall js canvas e,
    Board.draw_column frames n tw th hs vs i js canvas = Raise e -> e = IndexError.
Proof.
  induction js as [|j js IH]; intros canvas e Hrun; simpl in Hrun;
    [discriminate Hrun |].
  destruct (Board.list_getitem frames (j * n + i)) as [f|e'] eqn:Hf;
    cbn [bind] in Hrun.
  - exact (IH _ _ Hrun).
  - injection Hrun as <-. exact (list_getitem_raises _ _ _ Hf).
Qed.

Lemma draw_columns_ok :
  forall cols canvas canvas',
    Board.draw_columns frames n tw th hs vs cols canvas = Ok canvas' ->
    exists tiles,
      canvas' = (canvas ++ tiles)%list /\
      length tiles = (length cols * Z.to_nat n)%nat /\
      (forall p, p ∈ tiles ->
         exists i j, i ∈ cols /\ 0 <= j < n /\ tile_at frames n tw th hs vs i j p) /\
      (forall i j, i ∈ cols -> 0 <= j < n ->
         exists p, p ∈ tiles /\ tile_at frames n tw th hs vs i j p).
Proof.
  induction cols as [|i cols IH]; intros canvas canvas' Hrun; simpl in Hrun.
  - injection Hrun as <-. exists []. rewrite app_nil_r.
    split; [reflexivity |]. split; [reflexivity |]. split.
    + intros p Hp. apply elem_of_nil in Hp. destruct Hp.
    + intros i j Hi. apply elem_of_nil in Hi. destruct Hi.
  - bind_inv Hrun as canvas1 Hcolumn.
    apply draw_column_ok in Hcolumn. destruct Hcolumn as (column & -> & Hcolumn).
    apply IH in Hrun. destruct Hrun as (tiles & -> & Hlength & Hsound & Hcomplete).
    exists (column ++ tiles)%list.
    split; [rewrite app_assoc; reflexivity |].
    split; [| split].
    + rewrite length_app, Hlength, <- (Forall2_length _ _ _ Hcolumn), length_range.
      simpl. f_equal. f_equal. lia.
    + intros p Hp. apply elem_of_app in Hp. destruct Hp as [Hp | Hp].
      * destruct (Forall2_elem_of_r _ _ _ Hcolumn p Hp) as (j & Hj & Htile).
        apply elem_of_range in Hj.
        exists i, j. split; [apply list_elem_of_here |]. split; [lia | exact Htile].
      * destruct (Hsound p Hp) as (i' & j & Hi' & Hj & Htile).
        exists i', j. split; [apply list_elem_of_further; exact Hi' |].
        split; assumption.
    + intros i' j Hi' Hj. apply elem_of_cons in Hi'. destruct Hi' as [-> | Hi'].
      * destruct (Forall2_elem_of_l _ _ _ Hcolumn j) as (p & Hp & Htile);
          [apply elem_of_range; lia |].
        exists p. split; [apply elem_of_app; left; exact Hp | exact Htile].
      * destruct (Hcomplete i' j Hi' Hj) as (p & Hp & Htile).
        exists p. split; [apply elem_of_app; right; exact Hp | exact Htile].
Qed.

Lemma draw_columns_returns :
  forall cols canvas,
    (forall i j, i ∈ cols -> 0 <= j < n ->
       0 <= j * n + i < Z.of_nat (length frames)) ->
    exists canvas', Board.draw_columns frames n tw th hs vs cols canvas = Ok canvas'.
Proof.
  induction cols as [|i cols IH]; intros canvas Hin; simpl.
  - eexists. reflexivity.
  - destruct (draw_column_returns i (Board.range 0 n) canvas) as (canvas1 & ->).
    { intros j Hj. apply elem_of_range in Hj.
      apply Hin; [apply list_elem_of_here | lia]. }
    cbn [bind]. apply IH. intros i' j Hi' Hj. apply Hin; [| exact Hj].
    apply list_elem_of_further. exact Hi'.
Qed.

Lemma draw_columns_raises :
  forall cols canvas e,
    Board.draw_columns frames n tw th hs vs cols canvas = Raise e -> e = IndexError.
Proof.
  induction cols as [|i cols IH]; intros canvas e Hrun; simpl in Hrun;
    [discriminate Hrun |].
  destruct (Board.draw_column frames n tw th hs vs i (Board.range 0 n) canvas)
    as [canvas1|e'] eqn:Hcolumn; cbn [bind] in Hrun.
  - exact (IH _ _ Hrun).
  - injection Hrun as <-. exact (draw_column_raises _ _ _ _ Hcolumn).
Qed.

End Sheet.

Lemma draw_storyboard_unfold {frame : Type} (frames : list frame)
    (m n tw : Z) (ratio q : float) (th hs vs : Z) :
  num_div_float (NInt tw) ratio = Ok q ->
  int_of_float q = Ok th ->
  Board._draw_storyboard frames (m, n) tw ratio (hs, vs) =
    (canvas ← Board.draw_columns frames n tw th hs vs (Board.range 0 m) [];
     Ok (m * (tw + 2 * hs), n * (th + 2 * vs), canvas)).
Proof.
  intros Hq Hth. unfold Board._draw_storyboard.
  rewrite Hq. cbn [bind]. rewrite Hth. reflexivity.
Qed.

(** X18. What [_draw_storyboard] returns for a tiling of [m] columns and
    [n] rows: a sheet of [m] by [n] cells, each of the size of a tile
    plus twice the spacing, and one tile per cell and no other tile. The
    tile of column [i] and row [j] shows the frame of index [j * n + i]
    and sits at the distance of the spacing from the left and the top of
    its cell. *)
Theorem tiles_fill_the_grid {frame : Type} (frames : list frame)
    (m n tw : Z) (ratio q : float) (th hs vs : Z)
    (width height : Z) (canvas : list (Board.paste frame)) :
  num_div_float (NInt tw) ratio = Ok q ->
  int_of_float q = Ok th ->
  Board._draw_storyboard frames (m, n) tw ratio (hs, vs) = Ok (width, height, canvas) ->
  width = m * (tw + 2 * hs) /\
  height = n * (th + 2 * vs) /\
  length canvas = (Z.to_nat m * Z.to_nat n)%nat /\
  (forall p, p ∈ canvas ->
     exists i j, 0 <= i < m /\ 0 <= j < n /\ tile_at frames n tw th hs vs i j p) /\
  (forall i j, 0 <= i < m -> 0 <= j < n ->
     exists p, p ∈ canvas /\ tile_at frames n tw th hs vs i j p).
Proof.
  intros Hq Hth Hrun. rewrite (draw_storyboard_unfold _ _ _ _ _ _ _ _ _ Hq Hth) in Hrun.
  bind_inv Hrun as tiles Htiles. injection Hrun as <- <- <-.
  apply draw_columns_ok in Htiles.
  destruct Htiles as (tiles' & -> & Hlength & Hsound & Hcomplete). simpl.
  split; [reflexivity |]. split; [reflexivity |]. split; [| split].
  - rewrite Hlength, length_range. f_equal. lia.
  - intros p Hp. destruct (Hsound p Hp) as (i & j & Hi & Hj & Htile).
    apply elem_of_range in Hi. exists i, j. repeat split; try lia; apply Htile.
  - intros i j Hi Hj. apply Hcomplete; [apply elem_of_range; lia | exact Hj].
Qed.

Lemma tiles_fill_the_grid_witness :
  exists canvas,
    Board._draw_storyboard ["a"; "b"; "c"; "d"; "e"; "f"] (3, 2) 480 Board.f2 (4, 3)
      = Ok (1464, 492, canvas) /\
    length canvas = 6%nat /\
    exists p, p ∈ canvas /\
      Board.list_getitem ["a"; "b"; "c"; "d"; "e"; "f"] 4 = Ok (Board.pasted p) /\
      Board.upperleft p = (980, 249).
Proof.
  assert (Hq : num_div_float (NInt 480) Board.f2
               = Ok (S754_finite false 8444249301319680 (-45))) by reflexivity.
  assert (Hth : int_of_float (S754_finite false 8444249301319680 (-45)) = Ok 240)
    by reflexivity.
  destruct (Board._draw_storyboard ["a"; "b"; "c"; "d"; "e"; "f"] (3, 2) 480
              Board.f2 (4, 3)) as [[[width height] canvas]|e] eqn:Hrun;
    [| vm_compute in Hrun; discriminate Hrun].
  destruct (tiles_fill_the_grid _ _ _ _ _ _ _ _ _ _ _ _ Hq Hth Hrun)
    as (-> & -> & Hlength & _ & Hcomplete).
  exists canvas. split; [reflexivity |]. split; [exact Hlength |].
  destruct (Hcomplete 2 1) as (p & Hp & Hframe & _ & Hplace); [lia | lia |].
  exists p. split; [exact Hp |]. split; [exact Hframe | exact Hplace].
Defined.

(** X19. On a sheet of tiles of non-negative size and spacing, every tile
    lies inside the sheet, at least the spacing away from each edge, and
    two tiles at different places do not overlap. *)
Theorem tiles_lie_inside_the_sheet {frame : Type} (frames : list frame)
    (m n tw : Z) (ratio q : float) (th hs vs : Z)
    (width height : Z) (canvas : list (Board.paste frame)) :
  num_div_float (NInt tw) ratio = Ok q ->
  int_of_float q = Ok th ->
  0 <= tw -> 0 <= th -> 0 <= hs -> 0 <= vs ->
  Board._draw_storyboard frames (m, n) tw ratio (hs, vs) = Ok (width, height, canvas) ->
  (forall p, p ∈ canvas ->
     hs <= fst (Board.upperleft p) /\
     fst (Board.upperleft p) + tw + hs <= width /\
     vs <= snd (Board.upperleft p) /\
     snd (Board.upperleft p) + th + vs <= height) /\
  (forall p p', p ∈ canvas -> p' ∈ canvas ->
     Board.upperleft p <> Board.upperleft p' -> apart tw th p p').
Proof.
  intros Hq Hth Htw Hth0 Hhs Hvs Hrun.
  rewrite (draw_storyboard_unfold _ _ _ _ _ _ _ _ _ Hq Hth) in Hrun.
  bind_inv Hrun as tiles Htiles. injection Hrun as <- <- <-.
  apply draw_columns_ok in Htiles.
  destruct Htiles as (tiles' & -> & _ & Hsound & _). simpl.
  assert (Hplace : forall p, p ∈ tiles' ->
            exists i j, 0 <= i < m /\ 0 <= j < n /\
              Board.upperleft p = (i * (tw + 2 * hs) + hs, j * (th + 2 * vs) + vs)).
  { intros p Hp. destruct (Hsound p Hp) as (i & j & Hi & Hj & _ & _ & Hplace).
    apply elem_of_range in Hi. exists i, j. repeat split; try lia; exact Hplace. }
  split.
  - intros p Hp. destruct (Hplace p Hp) as (i & j & Hi & Hj & ->). simpl. nia.
  - intros p p' Hp Hp' Hne. unfold apart.
    destruct (Hplace p Hp) as (i & j & Hi & Hj & Hpp).
    destruct (Hplace p' Hp') as (i' & j' & Hi' & Hj' & Hpp').
    rewrite Hpp, Hpp' in Hne |- *. simpl.
    destruct (Z.lt_trichotomy i i') as [Hlt | [-> | Hgt]].
    + left. nia.
    + destruct (Z.lt_trichotomy j j') as [Hlt | [-> | Hgt]].
      * right. right. left. nia.
      * contradict Hne. reflexivity.
      * right. right. right. nia.
    + right. left. nia.
Qed.

Lemma tiles_lie_inside_the_sheet_witness :
  exists canvas,
    Board._draw_storyboard ["a"; "b"; "c"; "d"] (2, 2) 480 Board.f2 (4, 3)
      = Ok (976, 492, canvas) /\
    forall p, p ∈ canvas ->
      4 <= fst (Board.upperleft p) /\ fst (Board.upperleft p) + 480 + 4 <= 976 /\
      3 <= snd (Board.upperleft p) /\ snd (Board.upperleft p) + 240 + 3 <= 492.
Proof.
  assert (Hq : num_div_float (NInt 480) Board.f2
               = Ok (S754_finite false 8444249301319680 (-45))) by reflexivity.
  assert (Hth : int_of_float (S754_finite false 8444249301319680 (-45)) = Ok 240)
    by reflexivity.
  assert (Hrun : exists canvas,
            Board._draw_storyboard ["a"; "b"; "c"; "d"] (2, 2) 480 Board.f2 (4, 3)
            = Ok (976, 492, canvas)) by (eexists; vm_compute; reflexivity).
  destruct Hrun as (canvas & Hrun).
  exists canvas. split; [exact Hrun |].
  exact (proj1 (tiles_lie_inside_the_sheet ["a"; "b"; "c"; "d"] 2 2 480 Board.f2
                  _ 240 4 3 976 492 canvas Hq Hth
                  ltac:(lia) ltac:(lia) ltac:(lia) ltac:(lia) Hrun)).
Defined.

(** X20. A tiling with more rows than columns cannot be drawn from a list
    of as many frames as it has cells, or fewer: for tiles of positive
    size, the first column already asks for a frame beyond the end of the
    list, and [IndexError] is raised. *)
Theorem tall_tiling_raises_index_error {frame : Type} (frames : list frame)
    (m n tw : Z) (ratio q : float) (th hs vs : Z) :
  num_div_float (NInt tw) ratio = Ok q ->
  int_of_float q = Ok th ->
  0 < tw -> 0 < th -> 0 <= hs -> 0 <= vs ->
  1 <= m < n ->
  Z.of_nat (length frames) <= m * n ->
  Board._draw_storyboard frames (m, n) tw ratio (hs, vs) = Raise IndexError.
Proof.
  intros Hq Hth _ _ _ _ Hmn Hframes.
  rewrite (draw_storyboard_unfold _ _ _ _ _ _ _ _ _ Hq Hth).
  destruct (Board.draw_columns frames n tw th hs vs (Board.range 0 m) [])
    as [canvas|e] eqn:Hrun; cbn [bind].
  - apply draw_columns_ok in Hrun. destruct Hrun as (tiles & _ & _ & _ & Hcomplete).
    destruct (Hcomplete 0 m) as (p & _ & Hframe & _);
      [apply elem_of_range; lia | lia |].
    apply list_getitem_ok in Hframe. lia.
  - rewrite (draw_columns_raises _ _ _ _ _ _ _ _ _ Hrun). reflexivity.
Qed.

Lemma tall_tiling_raises_index_error_witness :
  Board._draw_storyboard ["a"; "b"; "c"; "d"; "e"; "f"] (2, 3) 480 Board.f2 (4, 3)
  = Raise IndexError.
Proof.
  assert (Hq : num_div_float (NInt 480) Board.f2
               = Ok (S754_finite false 8444249301319680 (-45))) by reflexivity.
  assert (Hth : int_of_float (S754_finite false 8444249301319680 (-45)) = Ok 240)
    by reflexivity.
  apply (tall_tiling_raises_index_error _ 2 3 480 _ _ 240 4 3 Hq Hth);
    simpl; lia.
Defined.

Lemma draw_storyboard_returns {frame : Type} (frames : list frame)
    (m n tw : Z) (ratio q : float) (th hs vs : Z) :
  num_div_float (NInt tw) ratio = Ok q ->
  int_of_float q = Ok th ->
  n <= m ->
  Z.of_nat (length frames) = m * n ->
  exists canvas,
    Board._draw_storyboard frames (m, n) tw ratio (hs, vs)
    = Ok (m * (tw + 2 * hs), n * (th + 2 * vs), canvas).
Proof.
  intros Hq Hth Hnm Hframes.
  rewrite (draw_storyboard_unfold _ _ _ _ _ _ _ _ _ Hq Hth).
  destruct (draw_columns_returns frames n tw th hs vs (Board.range 0 m) [])
    as (canvas & ->).
  { intros i j Hi Hj. apply elem_of_range in Hi. nia. }
  exists canvas. reflexivity.
Qed.

(** X21. A tiling with fewer rows than columns, the rows being two or
    more, is drawn from as many frames as it has cells without an error,
    for tiles of positive size, but not with one frame per cell: the
    frame of index [n] is shown twice, at the top of column [n] and in
    the second row of the first column, and the last frame of the list is
    asked for by no cell. *)
Theorem wide_tiling_repeats_a_frame {frame : Type} (frames : list frame)
    (m n tw : Z) (ratio q : float) (th hs vs : Z) :
  num_div_float (NInt tw) ratio = Ok q ->
  int_of_float q = Ok th ->
  0 < tw -> 0 < th -> 0 <= hs -> 0 <= vs ->
  2 <= n < m ->
  Z.of_nat (length frames) = m * n ->
  exists canvas,
    Board._draw_storyboard frames (m, n) tw ratio (hs, vs)
      = Ok (m * (tw + 2 * hs), n * (th + 2 * vs), canvas) /\
    (exists f p p',
       Board.list_getitem frames n = Ok f /\
       p ∈ canvas /\ p' ∈ canvas /\
       Board.pasted p = f /\ Board.pasted p' = f /\
       Board.upperleft p = (n * (tw + 2 * hs) + hs, vs) /\
       Board.upperleft p' = (hs, th + 2 * vs + vs)) /\
    (forall p, p ∈ canvas ->
       exists k, 0 <= k < m * n - 1 /\
                 Board.list_getitem frames k = Ok (Board.pasted p)).
Proof.
  intros Hq Hth _ _ _ _ Hnm Hframes.
  destruct (draw_storyboard_returns frames m n tw ratio q th hs vs Hq Hth)
    as (canvas & Hrun); [lia | exact Hframes |].
  exists canvas. split; [exact Hrun |].
  rewrite (draw_storyboard_unfold _ _ _ _ _ _ _ _ _ Hq Hth) in Hrun.
  bind_inv Hrun as tiles Htiles. injection Hrun as <-.
  apply draw_columns_ok in Htiles.
  destruct Htiles as (tiles' & -> & _ & Hsound & Hcomplete). simpl.
  split.
  - destruct (Hcomplete n 0) as (p & Hp & Hframe & _ & Hplace);
      [apply elem_of_range; lia | lia |].
    destruct (Hcomplete 0 1) as (p' & Hp' & Hframe' & _ & Hplace');
      [apply elem_of_range; lia | lia |].
    replace (0 * n + n) with n in Hframe by ring.
    replace (1 * n + 0) with n in Hframe' by ring.
    exists (Board.pasted p), p, p'.
    split; [exact Hframe |]. split; [exact Hp |]. split; [exact Hp' |].
    split; [reflexivity |]. split; [congruence |].
    split; [rewrite Hplace | rewrite Hplace']; f_equal; ring.
  - intros p Hp. destruct (Hsound p Hp) as (i & j & Hi & Hj & Hframe & _).
    apply elem_of_range in Hi.
    exists (j * n + i). split; [nia | exact Hframe].
Qed.

Lemma wide_tiling_repeats_a_frame_witness :
  exists canvas p p',
    Board._draw_storyboard ["a"; "b"; "c"; "d"; "e"; "f"] (3, 2) 480 Board.f2 (4, 3)
      = Ok (1464, 492, canvas) /\
    p ∈ canvas /\ p' ∈ canvas /\
    Board.pasted p = "c" /\ Board.pasted p' = "c" /\
    Board.upperleft p = (980, 3) /\ Board.upperleft p' = (4, 249).
Proof.
  assert (Hq : num_div_float (NInt 480) Board.f2
               = Ok (S754_finite false 8444249301319680 (-45))) by reflexivity.
  assert (Hth : int_of_float (S754_finite false 8444249301319680 (-45)) = Ok 240)
    by reflexivity.
  destruct (wide_tiling_repeats_a_frame ["a"; "b"; "c"; "d"; "e"; "f"]
              3 2 480 _ _ 240 4 3 Hq Hth
              ltac:(lia) ltac:(lia) ltac:(lia) ltac:(lia) ltac:(lia) eq_refl)
    as (canvas & Hrun & (f & p & p' & Hf & Hp & Hp' & Hshown & Hshown' & Hat & Hat') & _).
  injection Hf as <-.
  exists canvas, p, p'. repeat split; assumption.
Defined.

(** X22. A square tiling drawn from as many frames as it has cells shows
    every frame, in reading order: the frame of index [k] is at row
    [k / n] and column [k mod n], and the sheet has as many tiles as
    there are frames. *)
Theorem square_tiling_shows_every_frame {frame : Type} (frames : list frame)
    (n tw : Z) (ratio q : float) (th hs vs : Z) :
  num_div_float (NInt tw) ratio = Ok q ->
  int_of_float q = Ok th ->
  0 < tw -> 0 < th -> 0 <= hs -> 0 <= vs ->
  0 < n ->
  Z.of_nat (length frames) = n * n ->
  exists canvas,
    Board._draw_storyboard frames (n, n) tw ratio (hs, vs)
      = Ok (n * (tw + 2 * hs), n * (th + 2 * vs), canvas) /\
    length canvas = length frames /\
    (forall k, 0 <= k < n * n ->
       exists p, p ∈ canvas /\
         Board.list_getitem frames k = Ok (Board.pasted p) /\
         Board.upperleft p = (k mod n * (tw + 2 * hs) + hs,
                              k / n * (th + 2 * vs) + vs)).
Proof.
  intros Hq Hth _ _ _ _ Hn Hframes.
  destruct (draw_storyboard_returns frames n n tw ratio q th hs vs Hq Hth)
    as (canvas & Hrun); [lia | exact Hframes |].
  exists canvas. split; [exact Hrun |].
  rewrite (draw_storyboard_unfold _ _ _ _ _ _ _ _ _ Hq Hth) in Hrun.
  bind_inv Hrun as tiles Htiles. injection Hrun as <-.
  apply draw_columns_ok in Htiles.
  destruct Htiles as (tiles' & -> & Hlength & _ & Hcomplete). simpl.
  split.
  - rewrite Hlength, length_range. apply Nat2Z.inj. rewrite Hframes.
    rewrite Nat2Z.inj_mul, !Z2Nat.id by lia. f_equal; lia.
  - intros k Hk.
    pose proof (Z.mod_pos_bound k n Hn) as Hcolumn.
    assert (Hrow : 0 <= k / n < n)
      by (split; [apply Z.div_pos; lia | apply Z.div_lt_upper_bound; lia]).
    destruct (Hcomplete (k mod n) (k / n)) as (p & Hp & Hframe & _ & Hplace);
      [apply elem_of_range; lia | exact Hrow |].
    replace (k / n * n + k mod n) with k in Hframe
      by (rewrite (Z.div_mod k n) at 1 by lia; ring).
    exists p. split; [exact Hp |]. split; [exact Hframe | exact Hplace].
Qed.

Lemma square_tiling_shows_every_frame_witness :
  exists canvas p,
    Board._draw_storyboard ["a"; "b"; "c"; "d"] (2, 2) 480 Board.f2 (4, 3)
      = Ok (976, 492, canvas) /\
    length canvas = 4%nat /\
    p ∈ canvas /\ Board.pasted p = "c" /\ Board.upperleft p = (4, 249).
Proof.
  assert (Hq : num_div_float (NInt 480) Board.f2
               = Ok (S754_finite false 8444249301319680 (-45))) by reflexivity.
  assert (Hth : int_of_float (S754_finite false 8444249301319680 (-45)) = Ok 240)
    by reflexivity.
  destruct (square_tiling_shows_every_frame ["a"; "b"; "c"; "d"]
              2 480 _ _ 240 4 3 Hq Hth
              ltac:(lia) ltac:(lia) ltac:(lia) ltac:(lia) ltac:(lia) eq_refl)
    as (canvas & Hrun & Hlength & Hall).
  destruct (Hall 2) as (p & Hp & Hframe & Hplace); [lia |].
  injection Hframe as Hframe.
  exists canvas, p. repeat split; try assumption. symmetry. exact Hframe.
Defined.

(** ** The timestamps of the thumbnails *)

Lemma list_getitem_last {A : Type} (l : list A) :
  l <> [] -> exists x, Board.list_getitem l (-1) = Ok x.
Proof.
  intros Hl. unfold Board.list_getitem.
  assert (Hlen : (0 < length l)%nat) by (destruct l; [congruence | simpl; lia]).
  change (0 <=? -1) with false. cbv iota.
  destruct (Z.ltb_spec (Z.of_nat (length l) + -1) 0) as [Hneg|_]; [lia |].
  destruct (nth_error l (Z.to_nat (Z.of_nat (length l) + -1))) as [x|] eqn:Hnth;
    [eexists; reflexivity |].
  apply nth_error_None in Hnth. lia.
Qed.

Lemma more_timestamps_returns (interval : float) :
  forall count timestamps,
    timestamps <> [] ->
    exists l, Board.more_timestamps count timestamps interval = Ok l /\
              length l = (length timestamps + count)%nat.
Proof.
  induction count as [|count IH]; intros timestamps Hne; simpl.
  - exists timestamps. split; [reflexivity | lia].
  - destruct (list_getitem_last timestamps Hne) as (t & ->). cbn [bind].
    destruct (IH (append timestamps (Board.float_add t interval))) as (l & Hl & Hlen).
    { unfold append. destruct timestamps; discriminate. }
    exists l. split; [exact Hl |].
    rewrite Hlen. unfold append. rewrite length_app. simpl. lia.
Qed.

Lemma extract_all_length {frame : Type} (extract_frame : string -> float -> result frame)
    (video : string) :
  forall timestamps frames frames',
    Board.extract_all extract_frame video timestamps frames = Ok frames' ->
    length frames' = (length frames + length timestamps)%nat.
Proof.
  induction timestamps as [|t rest IH]; intros frames frames' Hrun; simpl in Hrun.
  - injection Hrun as <-. simpl. lia.
  - bind_inv Hrun as f Hf. apply IH in Hrun. rewrite Hrun.
    unfold append. rewrite length_app. simpl. lia.
Qed.

Lemma float_of_int_nonzero (n : Z) :
  n <> 0 -> - 9007199254740992 < n < 9007199254740992 ->
  exists s m e, float_of_int n = Ok (S754_finite s m e).
Proof.
  intros Hn Hrange.
  assert (Hdigits : forall q, Zpos q < 9007199254740992 -> D q <= 53).
  { intros q Hq. destruct (Z.le_gt_cases (D q) 53) as [Hle|Hgt]; [exact Hle |].
    pose proof (D_bounds q) as [Hlow _].
    assert (Hpow : 2 ^ 53 <= 2 ^ (D q - 1)) by (apply Z.pow_le_mono_r; lia).
    change (2 ^ 53) with 9007199254740992 in Hpow. lia. }
  destruct n as [|q|q]; [congruence | |].
  - destruct (float_of_int_small false q) as (k & _ & Hk); [apply Hdigits; lia |].
    eauto.
  - destruct (float_of_int_small true q) as (k & _ & Hk); [apply Hdigits; lia |].
    eauto.
Qed.

Lemma timestamps_of_returns (duration : float) (N : Z) :
  N <> 0 -> - 9007199254740992 < N < 9007199254740992 ->
  exists timestamps,
    Board.timestamps_of duration N = Ok timestamps /\
    length timestamps = Z.to_nat (Z.max 1 N).
Proof.
  intros Hn Hrange. unfold Board.timestamps_of.
  destruct (float_of_int_nonzero N Hn Hrange) as (s & m & e & ->). cbn [bind].
  unfold float_div at 1. cbn [bind].
  unfold float_div, Board.f2. cbn [bind].
  destruct (more_timestamps_returns
              (SFdiv prec emax duration (S754_finite s m e))
              (length (Board.range 1 N))
              [SFdiv prec emax (SFdiv prec emax duration (S754_finite s m e))
                 (S754_finite false 4503599627370496 (-51))])
    as (l & Hl & Hlen); [discriminate |].
  exists l. split; [exact Hl |].
  rewrite Hlen, length_range. simpl. lia.
Qed.

(** X23. For a number [N] of thumbnails from 1 up to 2^53, and whatever
    the duration, the constructor of the sheet computes [N] timestamps,
    and the frames that it holds when it returns are [N]. *)
Theorem one_timestamp_per_thumbnail {frame : Type} (duration : float) (N : Z) :
  1 <= N < 9007199254740992 ->
  (exists timestamps,
     Board.timestamps_of duration N = Ok timestamps /\
     length timestamps = Z.to_nat N) /\
  (forall (extract_frame : string -> float -> result frame) video frames,
     Board.__init__ extract_frame video duration N = Ok frames ->
     length frames = Z.to_nat N).
Proof.
  intros HN.
  destruct (timestamps_of_returns duration N) as (timestamps & Hrun & Hlen);
    [lia | lia |].
  replace (Z.to_nat (Z.max 1 N)) with (Z.to_nat N) in Hlen by lia.
  split; [exists timestamps; split; assumption |].
  intros extract_frame video frames Hinit. unfold Board.__init__ in Hinit.
  rewrite Hrun in Hinit. cbn [bind] in Hinit.
  apply extract_all_length in Hinit. rewrite Hinit, Hlen. reflexivity.
Qed.

Lemma one_timestamp_per_thumbnail_witness :
  Board.__init__ (fun _ t => Ok t) "talk.webm"
    (S754_finite false 4503599627370496 (-48)) 4
  = Ok [S754_finite false 4503599627370496 (-51);
        S754_finite false 6755399441055744 (-50);
        S754_finite false 5629499534213120 (-49);
        S754_finite false 7881299347898368 (-49)] /\
  exists timestamps,
    Board.timestamps_of (S754_finite false 4503599627370496 (-48)) 4
      = Ok timestamps /\
    length timestamps = 4%nat.
Proof.
  split; [vm_compute; reflexivity |].
  exact (proj1 (one_timestamp_per_thumbnail (frame := float)
                  (S754_finite false 4503599627370496 (-48)) 4 ltac:(lia))).
Defined.

(** X24. The constructor of the sheet does not reject a number of
    thumbnails below one: zero makes it divide by zero, and a negative
    number, down to -2^53, makes it compute one timestamp. *)
Theorem thumbnail_count_below_one (duration : float) (N : Z) :
  - 9007199254740992 < N <= 0 ->
  (N = 0 -> Board.timestamps_of duration N = Raise ZeroDivisionError) /\
  (N < 0 -> exists t, Board.timestamps_of duration N = Ok [t]).
Proof.
  intros HN. split.
  - intros ->. reflexivity.
  - intros Hneg.
    destruct (timestamps_of_returns duration N) as (timestamps & Hrun & Hlen);
      [lia | lia |].
    replace (Z.to_nat (Z.max 1 N)) with 1%nat in Hlen by lia.
    destruct timestamps as [|t [|t' rest]]; try discriminate Hlen.
    exists t. exact Hrun.
Qed.

Lemma thumbnail_count_below_one_witness :
  Board.timestamps_of (S754_finite false 4503599627370496 (-48)) 0
    = Raise ZeroDivisionError /\
  exists t, Board.timestamps_of (S754_finite false 4503599627370496 (-48)) (-4)
            = Ok [t].
Proof.
  split.
  - exact (proj1 (thumbnail_count_below_one
                    (S754_finite false 4503599627370496 (-48)) 0 ltac:(lia))
             eq_refl).
  - exact (proj2 (thumbnail_count_below_one
                    (S754_finite false 4503599627370496 (-48)) (-4) ltac:(lia))
             ltac:(lia)).
Defined.

(** ** The text of the sheet *)

Lemma draw_lines_spec (textsize : string -> Z * Z) (x lh : Z) :
  forall lines y width height drawn w h drawn',
    Board.draw_lines textsize lines x y lh width height drawn = (w, h, drawn') ->
    h = height + lh * Z.of_nat (length lines) /\
    width <= w /\
    (forall line, line ∈ lines -> fst (textsize line) <= w) /\
    exists new,
      drawn' = (drawn ++ new)%list /\
      Board.content <$> new = lines /\
      (forall k d, new !! k = Some d ->
         Board.position d = (x, y + Z.of_nat k * lh)).
Proof.
  induction lines as [|line rest IH]; intros y width height drawn w h drawn' Hrun;
    simpl in Hrun.
  - injection Hrun as <- <- <-.
    split; [simpl; lia |]. split; [lia |]. split.
    + intros line Hline. apply elem_of_nil in Hline. destruct Hline.
    + exists []. rewrite app_nil_r. split; [reflexivity |].
      split; [reflexivity |]. intros k d Hk. discriminate Hk.
  - destruct (textsize line) as [w0 h0] eqn:Hsize.
    apply IH in Hrun. destruct Hrun as (-> & Hwidth & Hlines & new & -> & Hcontent & Hat).
    split; [rewrite length_cons; lia |].
    split; [destruct (Z.ltb_spec width w0); lia |].
    split.
    + intros line' Hline'. apply elem_of_cons in Hline'.
      destruct Hline' as [-> | Hline']; [| exact (Hlines _ Hline')].
      rewrite Hsize. simpl. destruct (Z.ltb_spec width w0); lia.
    + eexists (_ :: new). split; [unfold append; rewrite <- app_assoc; reflexivity |].
      split; [rewrite fmap_cons, Hcontent; reflexivity |].
      intros [|k] d Hk; simpl in Hk.
      * injection Hk as <-. simpl. f_equal. lia.
      * rewrite (Hat k d Hk). f_equal. lia.
Qed.

(** X25. The block of text that [_draw_text_block] draws: its lines are
    written in order, one line height below one another from the given
    corner; the height of the block is the line height times the number
    of lines, and its width is at least zero and at least the width of
    every line. *)
Theorem text_block_layout (textsize : string -> Z * Z) (lines : list string)
    (x y font_size : Z) (spacing : float) (w h : Z) (drawn : list Board.written) :
  Board._draw_text_block textsize lines (x, y) font_size spacing = Ok (w, h, drawn) ->
  exists lh,
    Board.line_height font_size spacing = Ok lh /\
    h = lh * Z.of_nat (length lines) /\
    Board.content <$> drawn = lines /\
    (forall k d, drawn !! k = Some d ->
       Board.position d = (x, y + Z.of_nat k * lh)) /\
    0 <= w /\
    (forall line, line ∈ lines -> fst (textsize line) <= w).
Proof.
  unfold Board._draw_text_block. intros Hrun.
  bind_inv Hrun as lh Hlh. injection Hrun as Hrun.
  apply draw_lines_spec in Hrun.
  destruct Hrun as (-> & Hwidth & Hlines & new & -> & Hcontent & Hat).
  exists lh. split; [exact Hlh |]. split; [lia |].
  split; [exact Hcontent |]. split; [exact Hat |]. split; assumption.
Qed.

Lemma text_block_layout_witness :
  let textsize (s : string) := (10 * Z.of_nat (String.length s), 19) in
  let spacing := S754_finite false 5404319552844595 (-52) in
  exists drawn,
    Board._draw_text_block textsize ["Filename:   a.webm"; "Streams:"] (4, 3)
      16 spacing = Ok (180, 38, drawn) /\
    Board.line_height 16 spacing = Ok 19 /\
    Board.position <$> drawn = [(4, 3); (4, 22)].
Proof.
  intros textsize spacing.
  assert (Hrun : exists drawn,
            Board._draw_text_block textsize ["Filename:   a.webm"; "Streams:"]
              (4, 3) 16 spacing = Ok (180, 38, drawn) /\
            length drawn = 2%nat)
    by (eexists; split; vm_compute; reflexivity).
  destruct Hrun as (drawn & Hrun & Hlength).
  destruct (text_block_layout _ _ _ _ _ _ _ _ _ Hrun)
    as (lh & Hlh & Hheight & _ & Hat & _).
  assert (lh = 19) as -> by (simpl in Hheight; lia).
  exists drawn. split; [exact Hrun |]. split; [exact Hlh |].
  destruct drawn as [|d0 [|d1 [|d2 rest]]]; try discriminate Hlength.
  simpl. rewrite (Hat 0%nat d0 eq_refl), (Hat 1%nat d1 eq_refl). reflexivity.
Defined.

(** X26. The sheet of metadata is as wide as asked and its height is the
    line height times the number of lines plus three times the vertical
    spacing; for a line height that is not negative, every line of the
    text lies at least the vertical spacing below the top of the sheet,
    and ends at least twice that above its bottom. *)
Theorem meta_sheet_layout (textsize : string -> Z * Z) (lines : list string)
    (total_width hs vs font_size : Z) (text_spacing : float)
    (width height : Z) (drawn : list Board.written) :
  Board._draw_meta_sheet textsize lines total_width (hs, vs) font_size text_spacing
    = Ok (width, height, drawn) ->
  exists lh,
    Board.line_height font_size text_spacing = Ok lh /\
    width = total_width /\
    height = lh * Z.of_nat (length lines) + 3 * vs /\
    Board.content <$> drawn = lines /\
    (0 <= lh ->
     forall d, d ∈ drawn ->
       fst (Board.position d) = hs /\
       vs <= snd (Board.position d) /\
       snd (Board.position d) + lh + 2 * vs <= height).
Proof.
  unfold Board._draw_meta_sheet. intros Hrun.
  bind_inv Hrun as lh Hlh.
  bind_inv Hrun as [[w h] drawn'] Hblock. injection Hrun as <- <- <-.
  unfold Board._draw_text_block in Hblock.
  bind_inv Hblock as lh' Hlh'. rewrite Hlh in Hlh'. injection Hlh' as <-.
  injection Hblock as Hblock. apply draw_lines_spec in Hblock.
  destruct Hblock as (_ & _ & _ & new & -> & Hcontent & Hat).
  cbn [fst snd] in Hat.
  exists lh. split; [exact Hlh |]. split; [reflexivity |].
  split; [cbn [snd]; lia |]. split; [exact Hcontent |].
  intros Hpositive d Hd.
  apply list_elem_of_lookup in Hd. destruct Hd as (k & Hk).
  rewrite (Hat k d Hk). cbn [fst snd].
  assert (Hbound : (k < length lines)%nat).
  { rewrite <- Hcontent, length_fmap. apply lookup_lt_Some in Hk. exact Hk. }
  split; [reflexivity |]. split; nia.
Qed.

Lemma meta_sheet_layout_witness :
  let textsize (s : string) := (10 * Z.of_nat (String.length s), 19) in
  let spacing := S754_finite false 5404319552844595 (-52) in
  exists drawn,
    Board._draw_meta_sheet textsize ["Filename:   a.webm"; "Streams:"] 976 (4, 3)
      16 spacing = Ok (976, 47, drawn) /\
    forall d, d ∈ drawn ->
      fst (Board.position d) = 4 /\
      3 <= snd (Board.position d) /\ snd (Board.position d) + 19 + 2 * 3 <= 47.
Proof.
  intros textsize spacing.
  assert (Hrun : exists drawn,
            Board._draw_meta_sheet textsize ["Filename:   a.webm"; "Streams:"]
              976 (4, 3) 16 spacing = Ok (976, 47, drawn))
    by (eexists; vm_compute; reflexivity).
  destruct Hrun as (drawn & Hrun).
  destruct (meta_sheet_layout _ _ _ _ _ _ _ _ _ _ Hrun)
    as (lh & Hlh & _ & _ & _ & Hinside).
  assert (Hheight : Board.line_height 16 spacing = Ok 19) by reflexivity.
  rewrite Hheight in Hlh. injection Hlh as <-.
  exists drawn. split; [exact Hrun |].
  apply Hinside. lia.
Defined.

(** X27. The banner is as wide as asked and six pixels higher than the
    font size; its text is written three pixels below the top and is
    centred: the room on its right is the room on its left, or one pixel
    more. *)
Theorem banner_text_is_centred (textsize : string -> Z * Z)
    (total_width font_size : Z) :
  exists d,
    Board._draw_banner textsize total_width font_size
      = (total_width, font_size + 6, [d]) /\
    Board.content d = Board.banner_text /\
    snd (Board.position d) = 3 /\
    let left := fst (Board.position d) in
    let right := total_width - (left + fst (textsize Board.banner_text)) in
    left <= right <= left + 1.
Proof.
  eexists. split; [reflexivity |]. split; [reflexivity |]. split; [reflexivity |].
  cbn [Board.position fst]. cbv zeta.
  pose proof (Z.div_mod (total_width - fst (textsize Board.banner_text)) 2
                ltac:(lia)) as Hdiv.
  pose proof (Z.mod_pos_bound (total_width - fst (textsize Board.banner_text)) 2
                ltac:(lia)) as Hmod.
  lia.
Qed.

(** X28. In the image that [storyboard] assembles, the sheet of metadata,
    the sheet of tiles and, when it is asked for, the banner are stacked
    in this order without gap or overlap, between the vertical padding at
    the top and at the bottom; each starts at the horizontal padding and
    is as wide as the image less twice that padding. *)
Theorem parts_are_stacked {frame : Type} (textsize : string -> Z * Z)
    (frames : list frame) (lines : list string) (hp vp : Z) (include_banner : bool)
    (font_size : Z) (text_spacing : float) (tiling : Z * Z) (tile_width : Z)
    (tile_aspect_ratio : float) (tile_spacing : Z * Z)
    (width height : Z) (parts : list Board.placed) :
  Board.storyboard textsize frames lines (hp, vp) include_banner font_size
    text_spacing tiling tile_width tile_aspect_ratio tile_spacing
    = Ok (width, height, parts) ->
  Board.image <$> parts
    = (Board.MetaSheet :: Board.Tiles
       :: if include_banner then [Board.Banner] else [])%list /\
  stacked vp parts (height - vp) /\
  (forall p, p ∈ parts ->
     fst (Board.corner p) = hp /\ fst (Board.size p) = width - 2 * hp).
Proof.
  unfold Board.storyboard. intros Hrun.
  bind_inv Hrun as [[sheet_width sheet_height] tiles] Htiles.
  bind_inv Hrun as [[meta_width meta_height] drawn] Hmeta.
  cbn [fst snd] in Hrun, Hmeta.
  assert (Hwidth : meta_width = sheet_width).
  { unfold Board._draw_meta_sheet in Hmeta.
    bind_inv Hmeta as lh Hlh. bind_inv Hmeta as [block drawn'] Hblock.
    injection Hmeta as <- _ _. reflexivity. }
  subst meta_width.
  destruct include_banner; simpl in Hrun; injection Hrun as <- <- <-.
  - split; [reflexivity |]. split.
    + simpl. repeat split; lia.
    + intros p Hp. simpl.
      repeat (apply elem_of_cons in Hp; destruct Hp as [-> | Hp];
              [simpl; split; lia |]).
      apply elem_of_nil in Hp. destruct Hp.
  - split; [reflexivity |]. split.
    + simpl. repeat split; lia.
    + intros p Hp. simpl.
      repeat (apply elem_of_cons in Hp; destruct Hp as [-> | Hp];
              [simpl; split; lia |]).
      apply elem_of_nil in Hp. destruct Hp.
Qed.

Lemma parts_are_stacked_witness :
  let textsize (s : string) := (10 * Z.of_nat (String.length s), 19) in
  let spacing := S754_finite false 5404319552844595 (-52) in
  exists parts,
    Board.storyboard textsize ["a"; "b"; "c"; "d"]
      ["Filename:   a.webm"; "Streams:"] (10, 10) true 16 spacing
      (2, 2) 480 Board.f2 (4, 3) = Ok (996, 581, parts) /\
    stacked 10 parts 571 /\
    Board.image <$> parts = [Board.MetaSheet; Board.Tiles; Board.Banner].
Proof.
  intros textsize spacing.
  assert (Hrun : exists parts,
            Board.storyboard textsize ["a"; "b"; "c"; "d"]
              ["Filename:   a.webm"; "Streams:"] (10, 10) true 16 spacing
              (2, 2) 480 Board.f2 (4, 3) = Ok (996, 581, parts))
    by (eexists; vm_compute; reflexivity).
  destruct Hrun as (parts & Hrun).
  destruct (parts_are_stacked _ _ _ _ _ _ _ _ _ _ _ _ _ _ _ Hrun)
    as (Himages & Hstacked & _).
  exists parts. split; [exact Hrun |]. split; [exact Hstacked | exact Himages].
Defined.

(** ** The report and the digest *)

(** X29. A report with the digest stores the digest of the file in the
    object, and is repeatable: asked again of the object that it returns,
    it gives the same text and the same object. *)
Theorem report_with_digest_is_repeatable {B : Builtins}
    (v : Video.t) (text : string) (v' : Video.t) :
  Video.format_metadata v true = Ok (text, v') ->
  Video.sha1sum v' = Some (digest_of v) /\
  Video.format_metadata v' true = Ok (text, v').
Proof.
  intros Hrun.
  assert (Hv' : v' = snd (Video._get_sha1sum v)).
  { unfold Video.format_metadata, Video.report_lines in Hrun.
    bind_inv Hrun as [lines v1] Hlines. bind_inv Hlines as l Hl.
    injection Hlines as _ <-. injection Hrun as _ <-. reflexivity. }
  unfold Video._get_sha1sum, digest_of in *.
  destruct (Video.sha1sum v) as [d|] eqn:Hstored; simpl in Hv'; subst v'.
  - split; [exact Hstored | exact Hrun].
  - split; [reflexivity |]. rewrite <- Hrun.
    unfold Video.format_metadata, Video.report_lines, Video._get_sha1sum.
    cbn [Video.sha1sum Video.set_sha1sum]. rewrite Hstored. reflexivity.
Qed.

Lemma report_with_digest_is_repeatable_witness :
  exists text v',
    (v ← Sample.talk; Video.format_metadata (B := Sample.builtins) v true)
      = Ok (text, v') /\
    Video.sha1sum v' = Some "da39a3ee5e6b4b0d3255bfef95601890afd80709" /\
    Video.format_metadata (B := Sample.builtins) v' true = Ok (text, v').
Proof.
  assert (Hok : returns (v ← Sample.talk;
                         Video.format_metadata (B := Sample.builtins) v true))
    by (vm_compute; exact I).
  destruct Sample.talk as [v|e] eqn:Hv; [| destruct Hok].
  cbn [bind] in Hok |- *.
  destruct (Video.format_metadata (B := Sample.builtins) v true)
    as [[text v']|e] eqn:Hrun; [| destruct Hok].
  destruct (report_with_digest_is_repeatable (B := Sample.builtins) v text v' Hrun)
    as [Hstored Hagain].
  exists text, v'. split; [reflexivity |]. split; [| exact Hagain].
  rewrite Hstored. f_equal. unfold digest_of.
  assert (Hnone : (x ← Sample.talk; Ok (Video.sha1sum x)) = Ok None)
    by (vm_compute; reflexivity).
  rewrite Hv in Hnone. injection Hnone as ->. reflexivity.
Defined.
